(** * Sunseeker CAN decoder: a shallow embedding of [app/can_analyzer.py]

    The development follows the source file top-down: Python primitives
    (exceptions, strings, [int(s, 16)], [bytes.fromhex], [struct.unpack]),
    the field codecs, the per-family decoders, the dispatch tables, the
    partitioned CSV writer and the streaming engine [_stream_decode]. *)

From Stdlib Require Import ZArith List String Ascii QArith Qminmax Lia Permutation.
From Stdlib.Strings Require Import Byte.
From Stdlib Require HexString.
From stdpp Require Import base tactics option list sorting gmap strings pretty.

Import ListNotations.
Local Open Scope string_scope.
Local Open Scope list_scope.
Local Open Scope Z_scope.

(* ===================================================================== *)
(** ** Python runtime: exceptions and results *)
(* ===================================================================== *)

Module Py.

(** The exceptions the modelled code can raise. *)
Inductive exn : Type :=
  | IndexError      (* bytes index out of range *)
  | StructError     (* struct.unpack on a buffer of the wrong size *)
  | ValueError      (* int(), bytes.fromhex, round(nan), explicit raise *)
  | OverflowError   (* round(inf) *)
  | EmptyDataError  (* pandas: no columns to parse from file *)
  | OtherError (cls : string).  (* any other class, as a callback may raise *)

(** Outcome of a computation: a value, a raised exception, or a loop that
    does not terminate. *)
Inductive result (A : Type) : Type :=
  | Ok (a : A)
  | Raise (e : exn)
  | Diverge.
Arguments Ok {A} a.
Arguments Raise {A} e.
Arguments Diverge {A}.

Definition bind {A B} (m : result A) (k : A -> result B) : result B :=
  match m with
  | Ok a => k a
  | Raise e => Raise e
  | Diverge => Diverge
  end.

Definition is_ok {A} (m : result A) : bool :=
  match m with Ok _ => true | _ => false end.

End Py.
Import Py.

(** Sequencing is written with stdpp's monad notation [x ← m; k]. *)
Global Instance result_ret : MRet result := fun A a => Ok a.
Global Instance result_bind : MBind result := fun A B k m => Py.bind m k.

(* ===================================================================== *)
(** ** Python strings (ASCII) *)
(* ===================================================================== *)

Module PyStr.

Definition chars (s : string) : list ascii := list_ascii_of_string s.
Definition str (l : list ascii) : string := string_of_list_ascii l.

Definition code (a : ascii) : Z := Z.of_N (N_of_ascii a).

(** [str.isspace] on the ASCII range: TAB, LF, VT, FF, CR, the four
    separators 0x1c..0x1f and the space. *)
Definition is_space (a : ascii) : bool :=
  let c := code a in
  ((9 <=? c) && (c <=? 13)) || ((28 <=? c) && (c <=? 32)).

(** [Py_ISSPACE], the C-locale test used by [bytes.fromhex]. *)
Definition is_c_space (a : ascii) : bool :=
  let c := code a in
  ((9 <=? c) && (c <=? 13)) || (c =? 32).

Fixpoint lstrip_chars (l : list ascii) : list ascii :=
  match l with
  | a :: l' => if is_space a then lstrip_chars l' else l
  | [] => []
  end.

Definition strip_chars (l : list ascii) : list ascii :=
  rev (lstrip_chars (rev (lstrip_chars l))).

(** [s.strip()] *)
Definition strip (s : string) : string := str (strip_chars (chars s)).

Definition lower_char (a : ascii) : ascii :=
  let c := code a in
  if (65 <=? c) && (c <=? 90) then ascii_of_N (Z.to_N (c + 32)) else a.

Definition upper_char (a : ascii) : ascii :=
  let c := code a in
  if (97 <=? c) && (c <=? 122) then ascii_of_N (Z.to_N (c - 32)) else a.

(** [s.lower()] and [s.upper()] *)
Definition lower (s : string) : string := str (map lower_char (chars s)).
Definition upper (s : string) : string := str (map upper_char (chars s)).

(** [s.replace(" ", "")] *)
Definition remove_spaces (s : string) : string :=
  str (List.filter (fun a => negb (code a =? 32)) (chars s)).

(** [s[:n]] for [n >= 0] *)
Definition prefix (n : nat) (s : string) : string := str (take n (chars s)).

(** [s.ljust(n, fill)] *)
Definition ljust (n : nat) (fill : ascii) (s : string) : string :=
  str (chars s ++ repeat fill (n - List.length (chars s))).

Definition hex_digit (a : ascii) : option Z :=
  let c := code a in
  if (48 <=? c) && (c <=? 57) then Some (c - 48)
  else if (97 <=? c) && (c <=? 102) then Some (c - 87)
  else if (65 <=? c) && (c <=? 70) then Some (c - 55)
  else None.

(** Digits of [int(s, 16)] after sign and prefix: hex digits, single
    underscores allowed between digits. [acc] is the value so far and
    [prev_digit] tells whether the previous character was a digit. *)
Fixpoint int16_digits (l : list ascii) (acc : Z) (prev_digit : bool) : option Z :=
  match l with
  | [] => if prev_digit then Some acc else None
  | a :: l' =>
      if code a =? 95 then
        if prev_digit then int16_digits l' acc false else None
      else
        match hex_digit a with
        | Some v => int16_digits l' (16 * acc + v) true
        | None => None
        end
  end.

(** Body of a base-16 literal: an optional [0x]/[0X] prefix (after which one
    underscore may come), then the digits. *)
Definition int16_body (l : list ascii) : option Z :=
  match l with
  | z :: x :: rest =>
      if (code z =? 48) && ((code x =? 120) || (code x =? 88)) then
        match rest with
        | u :: rest' =>
            if code u =? 95 then int16_digits rest' 0 false
            else int16_digits rest 0 false
        | [] => None
        end
      else int16_digits l 0 false
  | _ => int16_digits l 0 false
  end.

(** [int(s, 16)]: surrounding white space, an optional sign, the body.
    [None] stands for [ValueError]. *)
Definition int16 (s : string) : option Z :=
  match strip_chars (chars s) with
  | a :: l' =>
      if code a =? 45 then Z.opp <$> int16_body l'
      else if code a =? 43 then int16_body l'
      else int16_body (a :: l')
  | [] => None
  end.

(** [bytes.fromhex(s)]: pairs of hex digits, white space allowed between
    pairs. [None] stands for [ValueError]. *)
Fixpoint fromhex_chars (l : list ascii) : option (list byte) :=
  match l with
  | [] => Some []
  | a :: l' =>
      if is_c_space a then fromhex_chars l'
      else
        match hex_digit a, l' with
        | Some hi, b :: l'' =>
            match hex_digit b with
            | Some lo =>
                match Byte.of_N (Z.to_N (16 * hi + lo)), fromhex_chars l'' with
                | Some x, Some rest => Some (x :: rest)
                | _, _ => None
                end
            | None => None
            end
        | _, _ => None
        end
  end.

Definition fromhex (s : string) : option (list byte) := fromhex_chars (chars s).

(** [hex(n)] *)
Definition hex (n : Z) : string := HexString.of_Z n.

Definition hex_upper_digits (n : N) : string :=
  match n with
  | N0 => "0"
  | Npos p => upper (HexString.Raw.of_pos p "")
  end.

(** [f"{n:02X}"]: upper-case hex, zero-padded to width two, sign included
    in the width. *)
Definition format_02X (n : Z) : string :=
  let digits := hex_upper_digits (Z.abs_N n) in
  if n <? 0 then "-" +:+ digits
  else if (String.length digits <? 2)%nat then "0" +:+ digits else digits.

(** [d.hex()] *)
Definition byte_hex (b : byte) : string :=
  let n := Byte.to_N b in
  let digits := match n with
                | N0 => "0"
                | Npos p => HexString.Raw.of_pos p ""
                end in
  if (String.length digits <? 2)%nat then "0" +:+ digits else digits.

Definition bytes_hex (d : list byte) : string :=
  fold_right (fun b acc => byte_hex b +:+ acc) "" d.

(** [str(n)] for an integer *)
Definition dec (n : Z) : string := pretty n.

End PyStr.

(* ===================================================================== *)
(** ** Python floats *)
(* ===================================================================== *)

(** A finite float is carried by the exact real it denotes, written
    [(-1)^neg * m * 2^e2 * 10^e10]; the rounding of the binary64 format is
    not modelled. Not-a-number and the infinities are kept apart, since
    they decide whether [round] raises. *)
Module PyFloat.

Inductive t : Type :=
  | Nan
  | Inf (neg : bool)
  | Num (neg : bool) (m : Z) (e2 : Z) (e10 : Z).

(** [float(k)] for an integer [k] *)
Definition of_int (k : Z) : t := Num (k <? 0) (Z.abs k) 0 0.

(** [x * 10**k] and [x * 2**k] for the constant factors of the source *)
Definition scale10 (x : t) (k : Z) : t :=
  match x with
  | Num s m e2 e10 => Num s m e2 (e10 + k)
  | _ => x
  end.

Definition scale2 (x : t) (k : Z) : t :=
  match x with
  | Num s m e2 e10 => Num s m (e2 + k) e10
  | _ => x
  end.

(** Numerator and denominator of [m * 2^e2 * 10^e10]. *)
Definition numer (m e2 e10 : Z) : Z :=
  m * 2 ^ Z.max e2 0 * 10 ^ Z.max e10 0.
Definition denom (e2 e10 : Z) : Z :=
  2 ^ Z.max (- e2) 0 * 10 ^ Z.max (- e10) 0.

(** Nearest integer to [p / q], ties to even ([0 <= p], [0 < q]). *)
Definition round_half_even (p q : Z) : Z :=
  let f := p / q in
  let r := p mod q in
  if 2 * r <? q then f
  else if q <? 2 * r then f + 1
  else if Z.even f then f else f + 1.

(** [round(x)]: raises on not-a-number and on the infinities. *)
Definition round0 (x : t) : result Z :=
  match x with
  | Nan => Raise ValueError
  | Inf _ => Raise OverflowError
  | Num s m e2 e10 =>
      let n := round_half_even (numer m e2 e10) (denom e2 e10) in
      Ok (if s then - n else n)
  end.

(** [round(x, nd)] for [nd >= 0]: a float again, never raises. *)
Definition round_nd (x : t) (nd : Z) : t :=
  match x with
  | Num s m e2 e10 =>
      Num s (round_half_even (numer m e2 (e10 + nd)) (denom e2 (e10 + nd))) 0 (- nd)
  | _ => x
  end.

(** The IEEE-754 binary32 value with bit pattern [bits]. *)
Definition of_bits32 (bits : Z) : t :=
  let s := Z.testbit bits 31 in
  let ex := Z.land (Z.shiftr bits 23) 0xFF in
  let frac := Z.land bits 0x7FFFFF in
  if ex =? 255 then (if frac =? 0 then Inf s else Nan)
  else if ex =? 0 then Num s frac (-149) 0
  else Num s (frac + 2 ^ 23) (ex - 150) 0.

Definition is_finite (x : t) : bool :=
  match x with Num _ _ _ _ => true | _ => false end.

End PyFloat.

(* ===================================================================== *)
(** ** Values and records *)
(* ===================================================================== *)

Inductive value : Type :=
  | VStr (s : string)
  | VInt (z : Z)
  | VBool (b : bool)
  | VFloat (x : PyFloat.t).

(** A decoded record is a Python [dict] from column name to scalar, kept in
    insertion order. *)
Definition record : Type := list (string * value).

Fixpoint dict_get (k : string) (r : record) : option value :=
  match r with
  | [] => None
  | (k', v) :: r' => if String.eqb k k' then Some v else dict_get k r'
  end.

(** [r[k] = v]: overwrite in place, or append a new key. *)
Fixpoint dict_set (k : string) (v : value) (r : record) : record :=
  match r with
  | [] => [(k, v)]
  | (k', v') :: r' =>
      if String.eqb k k' then (k, v) :: r' else (k', v') :: dict_set k v r'
  end.

(** [r.update(other)] *)
Definition dict_update (r other : record) : record :=
  fold_left (fun acc kv => dict_set (fst kv) (snd kv) acc) other r.

(** [dict(k1=v1, k2=v2, ...)] *)
Definition dict_of (kvs : list (string * value)) : record := dict_update [] kvs.

Definition has_key (k : string) (r : record) : bool :=
  match dict_get k r with Some _ => true | None => false end.

(* ===================================================================== *)
(** ** Field codecs *)
(* ===================================================================== *)

Definition EXCEL_XLSX_MAX_ROWS : Z := 1048576.
Definition EXCEL_XLS_MAX_ROWS : Z := 65536.
Definition CHUNK_ROWS : Z := 300000.
Definition FLUSH_EVERY : Z := 10000.

Definition bval (b : byte) : Z := Z.of_N (Byte.to_N b).

(** [d[i]] for a constant index [i >= 0] *)
Definition byte_at (d : list byte) (i : nat) : result Z :=
  match d !! i with
  | Some b => Ok (bval b)
  | None => Raise IndexError
  end.

Definition u16_le (b0 b1 : Z) : Z := Z.land (Z.lor b0 (Z.shiftl b1 8)) 0xFFFF.
Definition s16_le (b0 b1 : Z) : Z :=
  let v := u16_le b0 b1 in
  if Z.land v 0x8000 =? 0 then v else v - 0x10000.
Definition u16_be (b0 b1 : Z) : Z := Z.land (Z.lor (Z.shiftl b0 8) b1) 0xFFFF.
Definition u32_le (b0 b1 b2 b3 : Z) : Z :=
  Z.land (Z.lor (Z.lor (Z.lor b0 (Z.shiftl b1 8)) (Z.shiftl b2 16)) (Z.shiftl b3 24))
         0xFFFFFFFF.
Definition s8 (v : Z) : Z := if 128 <=? v then v - 256 else v.

Definition sum_bytes (d : list byte) : Z :=
  fold_right (fun b acc => bval b + acc) 0 d.

(** Orion cell-broadcast checksum = LSB( ID + 8 + sum(bytes[0..6]) ) *)
Definition compute_checksum (broadcast_id : Z) (data : list byte) : Z :=
  Z.land (broadcast_id + 8 + sum_bytes (take 7 data)) 0xFF.

Definition bit_of (word : Z) (b : Z) : Z :=
  if Z.land (Z.shiftr word b) 1 =? 0 then 0 else 1.

Definition expand_bits_word (word : Z) (prefix : string) : record :=
  dict_of (map (fun b : nat =>
                  (prefix +:+ "_bit" +:+ PyStr.dec (Z.of_nat b),
                   VInt (bit_of word (Z.of_nat b))))
               (seq 0 16)).

Definition expand_bits_byte (prefix : string) (i : nat) (b : byte) : list (string * value) :=
  let p := prefix +:+ PyStr.dec (Z.of_nat i) in
  (p, VInt (bval b))
  :: (p +:+ "_hex", VStr (PyStr.format_02X (bval b)))
  :: map (fun bit : nat =>
            (p +:+ "_bit" +:+ PyStr.dec (Z.of_nat bit),
             VInt (bit_of (bval b) (Z.of_nat bit))))
         (seq 0 8).

Definition expand_bits_bytes (data : list byte) (prefix : string) : record :=
  dict_of (concat (imap (expand_bits_byte prefix) data)).

(** [struct.unpack("<ff", d)], returned as (hi32, lo32). *)
Definition floats_le (d : list byte) : result (PyFloat.t * PyFloat.t) :=
  match d with
  | [b0; b1; b2; b3; b4; b5; b6; b7] =>
      let lo := PyFloat.of_bits32 (u32_le (bval b0) (bval b1) (bval b2) (bval b3)) in
      let hi := PyFloat.of_bits32 (u32_le (bval b4) (bval b5) (bval b6) (bval b7)) in
      Ok (hi, lo)
  | _ => Raise StructError
  end.

Definition parse_can_id (val : string) : result Z :=
  let s := PyStr.strip val in
  match PyStr.int16 s with
  | Some n => Ok n
  | None => Raise ValueError
  end.

Definition split_words_le (d : list byte) : result (Z * Z * Z * Z) :=
  b0 ← byte_at d 0; b1 ← byte_at d 1; b2 ← byte_at d 2; b3 ← byte_at d 3;
  b4 ← byte_at d 4; b5 ← byte_at d 5; b6 ← byte_at d 6; b7 ← byte_at d 7;
  Ok (u16_le b0 b1, u16_le b2 b3, u16_le b4 b5, u16_le b6 b7).

(* ===================================================================== *)
(** ** CAN1 decoders (Orion + thermistor) *)
(* ===================================================================== *)

Definition OR_CAN_BASE : Z := 0x6B0.
Definition OR_SVOLT : Z := OR_CAN_BASE + 0x00.
Definition OR_PACK  : Z := OR_CAN_BASE + 0x01.
Definition OR_STEMP : Z := OR_CAN_BASE + 0x02.
Definition OR_FLAGS : Z := OR_CAN_BASE + 0x03.
Definition OR_AVOLT : Z := OR_CAN_BASE + 0x04.
Definition OR_ATEMP : Z := OR_CAN_BASE + 0x05.

Definition THERM_GENERAL   : Z := 0x1838F380.
Definition THERM_ADDRCLAIM : Z := 0x18EEFF80.

(** The three fields every record starts with. *)
Definition head_fields (ts : value) (can_id : Z) (message : string)
  : list (string * value) :=
  [("timestamp", ts); ("id_hex", VStr (PyStr.hex can_id)); ("message", VStr message)].

Definition decode_or_svolt (ts : value) (can_id : Z) (d : list byte)
  : result (list record) :=
  d0 ← byte_at d 0; d1 ← byte_at d 1;
  let hi_v := PyFloat.scale10 (PyFloat.of_int (u16_le d0 d1)) (-4) in
  hi_id ← byte_at d 2;
  d4 ← byte_at d 4; d5 ← byte_at d 5;
  let lo_v := PyFloat.scale10 (PyFloat.of_int (u16_le d4 d5)) (-4) in
  lo_id ← byte_at d 6;
  Ok [dict_of (head_fields ts can_id "OR_SVOLT" ++
        [("high_cell_voltage_V", VFloat (PyFloat.round_nd hi_v 4));
         ("high_cell_id", VInt hi_id);
         ("low_cell_voltage_V", VFloat (PyFloat.round_nd lo_v 4));
         ("low_cell_id", VInt lo_id)])].

Definition decode_or_pack (ts : value) (can_id : Z) (d : list byte)
  : result (list record) :=
  d0 ← byte_at d 0; d1 ← byte_at d 1;
  let pack_current_A := PyFloat.scale10 (PyFloat.of_int (s16_le d0 d1)) (-1) in
  d2 ← byte_at d 2; d3 ← byte_at d 3;
  let pack_voltage_V := PyFloat.scale10 (PyFloat.of_int (u16_le d2 d3)) (-1) in
  d4 ← byte_at d 4; d5 ← byte_at d 5;
  let soc_pct := PyFloat.scale2 (PyFloat.of_int (u16_le d4 d5)) (-1) in
  d6 ← byte_at d 6; d7 ← byte_at d 7;
  let num_cells := u16_le d6 d7 in
  Ok [dict_of (head_fields ts can_id "OR_PACK" ++
        [("pack_current_A", VFloat pack_current_A);
         ("pack_voltage_V", VFloat pack_voltage_V);
         ("state_of_charge_pct", VFloat soc_pct);
         ("num_cells", VInt num_cells)])].

Definition decode_or_stemp (ts : value) (can_id : Z) (d : list byte)
  : result (list record) :=
  d0 ← byte_at d 0; d1 ← byte_at d 1; d2 ← byte_at d 2; d3 ← byte_at d 3;
  d4 ← byte_at d 4; d5 ← byte_at d 5; d6 ← byte_at d 6; d7 ← byte_at d 7;
  Ok [dict_of (head_fields ts can_id "OR_STEMP" ++
        [("high_temp_C", VInt (s16_le d0 d1)); ("high_temp_id", VInt (u16_le d2 d3));
         ("low_temp_C", VInt (s16_le d4 d5)); ("low_temp_id", VInt (u16_le d6 d7))])].

Definition FLAG_BIT_NAMES : list string :=
  ["Low Cell Voltage"; "High Cell Voltage"; "Over Temp"; "Open Wiring";
   "Internal Comm"; "Charge Enable Relay"; "Discharge Relay"; "Blank"].

(** [f"flag0_{n.replace(' ','_').lower()}"] *)
Definition flag_key (n : string) : string :=
  "flag0_" +:+
  PyStr.lower (PyStr.str (map (fun a => if PyStr.code a =? 32 then "_"%char else a)
                              (PyStr.chars n))).

Definition decode_or_flags (ts : value) (can_id : Z) (d : list byte)
  : result (list record) :=
  flags0 ← byte_at d 0;
  let fields :=
    dict_of (imap (fun i n =>
                     (flag_key n,
                      VBool (negb (Z.land flags0 (Z.shiftl 1 (Z.of_nat i)) =? 0))))
                  FLAG_BIT_NAMES) in
  let fields := dict_set "raw_flags_hex" (VStr (PyStr.bytes_hex d)) fields in
  Ok [dict_of (head_fields ts can_id "OR_FLAGS" ++ fields)].

Definition decode_or_avolt (ts : value) (can_id : Z) (d : list byte)
    (include_bits : bool) : result (list record) :=
  cell_id ← byte_at d 0;
  d1 ← byte_at d 1; d2 ← byte_at d 2;
  let inst_voltage_V := PyFloat.scale10 (PyFloat.of_int (u16_be d1 d2)) (-4) in
  d3 ← byte_at d 3;
  let shunting := negb (Z.land d3 0x80 =? 0) in
  d3' ← byte_at d 3; d4 ← byte_at d 4;
  let res_raw := Z.lor (Z.shiftl (Z.land d3' 0x7F) 8) d4 in
  let internal_mOhm := PyFloat.scale10 (PyFloat.of_int res_raw) (-2) in
  d5 ← byte_at d 5; d6 ← byte_at d 6;
  let ocv_V := PyFloat.scale10 (PyFloat.of_int (u16_be d5 d6)) (-4) in
  checksum ← byte_at d 7;
  let checksum_ok := checksum =? compute_checksum can_id d in
  let base :=
    dict_of (head_fields ts can_id "OR_AVOLT" ++
      [("cell_id", VInt cell_id);
       ("inst_voltage_V", VFloat (PyFloat.round_nd inst_voltage_V 4));
       ("internal_resistance_mOhm", VFloat (PyFloat.round_nd internal_mOhm 2));
       ("shunting", VBool shunting);
       ("open_circuit_voltage_V", VFloat (PyFloat.round_nd ocv_V 4));
       ("checksum", VInt checksum); ("checksum_ok", VBool checksum_ok)]) in
  Ok [if include_bits then dict_update base (expand_bits_bytes d "b") else base].

(** One turn of the loop of [decode_or_atemp] over [i = 0, 2, 4, 6]. *)
Definition atemp_pair (ts : value) (can_id : Z) (d : list byte) (i : nat)
  : result (list record) :=
  tid ← byte_at d i; t ← byte_at d (i + 1);
  let temp := s8 t in
  if (tid =? 0) && (temp =? 0) && (0 <? i)%nat then Ok []
  else Ok [dict_of (head_fields ts can_id "OR_ATEMP" ++
             [("thermistor_local_id", VInt tid); ("temp_C", VInt temp)])].

Definition decode_or_atemp (ts : value) (can_id : Z) (d : list byte)
  : result (list record) :=
  r0 ← atemp_pair ts can_id d 0; r2 ← atemp_pair ts can_id d 2;
  r4 ← atemp_pair ts can_id d 4; r6 ← atemp_pair ts can_id d 6;
  Ok (r0 ++ r2 ++ r4 ++ r6).

Definition decode_therm_general (ts : value) (can_id : Z) (d : list byte)
  : result (list record) :=
  d0 ← byte_at d 0; d1 ← byte_at d 1; d2 ← byte_at d 2; d2' ← byte_at d 2;
  d3 ← byte_at d 3; d4 ← byte_at d 4; d5 ← byte_at d 5; d6 ← byte_at d 6;
  d7 ← byte_at d 7;
  Ok [dict_of (head_fields ts can_id "THERM_GENERAL" ++
        [("thermistor_global_id", VInt d0); ("temp_C", VInt (s8 d1));
         ("thermistor_local_id", VInt (Z.land d2 0x7F));
         ("local_fault", VBool (negb (Z.land d2' 0x80 =? 0)));
         ("lowest_temp_C", VInt (s8 d3)); ("highest_temp_C", VInt (s8 d4));
         ("module_highest_id", VInt d5); ("module_lowest_id", VInt d6);
         ("reserved", VInt d7)])].

Definition decode_therm_addrclaim (ts : value) (can_id : Z) (d : list byte)
  : result (list record) :=
  let unique_id_hex := PyStr.bytes_hex (take 3 d) in
  d3 ← byte_at d 3; d4 ← byte_at d 4; d5 ← byte_at d 5; d6 ← byte_at d 6;
  d7 ← byte_at d 7;
  Ok [dict_of (head_fields ts can_id "THERM_ADDR_CLAIM" ++
        [("unique_id_hex", VStr unique_id_hex);
         ("bms_target_addr", VInt d3); ("module_number_shifted", VInt d4);
         ("const_5", VInt d5); ("const_6", VInt d6); ("const_7", VInt d7)])].

(* ===================================================================== *)
(** ** CAN2 decoders (MC / DC / STW / BP / MPPT) *)
(* ===================================================================== *)

Definition MC_CAN_BASE1 : Z := 0x400.
Definition MC_CAN_BASE2 : Z := 0x420.
Definition DC_CAN_BASE  : Z := 0x500.
Definition STW_CAN_BASE : Z := 0x540.
Definition BP_CAN_BASE  : Z := 0x580.
Definition MPPT_CAN_BASE : Z := 0x600.
Definition MPPT_CAN_ONOFF : Z := MPPT_CAN_BASE + 0x10.

Definition MC_OFFSETS (offset : Z) : option string :=
  match offset with
  | 0x01 => Some "MC_LIMITS"
  | 0x02 => Some "MC_BUS"
  | 0x03 => Some "MC_VELOCITY"
  | 0x04 => Some "MC_PHASE"
  | 0x05 => Some "MC_V_VECTOR"
  | 0x06 => Some "MC_I_VECTOR"
  | 0x07 => Some "MC_BEMF_VECTOR"
  | 0x08 => Some "MC_RAIL1"
  | 0x09 => Some "MC_RAIL2"
  | 0x0B => Some "MC_TEMP1"
  | 0x0C => Some "MC_TEMP2"
  | 0x0E => Some "MC_CUMULATIVE"
  | 0x17 => Some "MC_SLIPSPEED"
  | _ => None
  end.

Definition DC_OFFSETS (offset : Z) : option string :=
  match offset with
  | 0x01 => Some "DC_DRIVE"
  | 0x02 => Some "DC_POWER"
  | 0x03 => Some "DC_RESET"
  | 0x04 => Some "DC_SWITCH"
  | _ => None
  end.

Definition STW_OFFSETS (offset : Z) : option string :=
  match offset with
  | 0x01 => Some "STW_SWITCH"
  | _ => None
  end.

Definition BP_OFFSETS (offset : Z) : option string :=
  match offset with
  | 0x01 => Some "BP_VMAX"
  | 0x02 => Some "BP_VMIN"
  | 0x03 => Some "BP_TMAX"
  | 0x04 => Some "BP_PCDONE"
  | 0x05 => Some "BP_ISH"
  | 0x06 => Some "BP_PVSS"
  | 0x07 => Some "BP_RESET"
  | _ => None
  end.

Definition STW_FLAGS : list (Z * string) :=
  [(0, "HORN"); (1, "IND_L"); (2, "IND_R"); (3, "REGEN"); (4, "CRUISE")].

(** [TABLE.get(offset, f"<FAMILY>_UNKNOWN_{offset:02X}")] *)
Definition offset_name (table : Z -> option string) (family : string) (offset : Z)
  : string :=
  match table offset with
  | Some n => n
  | None => family +:+ "_UNKNOWN_" +:+ PyStr.format_02X offset
  end.

Definition in_range (lo can_id hi : Z) : bool := (lo <=? can_id) && (can_id <? hi).

Definition decode_mc (ts : value) (can_id : Z) (d : list byte)
  : result (list record) :=
  let base := if in_range MC_CAN_BASE1 can_id (MC_CAN_BASE1 + 0x20)
              then MC_CAN_BASE1 else MC_CAN_BASE2 in
  let offset := can_id - base in
  let name := offset_name MC_OFFSETS "MC" offset in
  '(f_hi, f_lo) ← floats_le d;
  let row := dict_of (head_fields ts can_id name ++
                      [("base_hex", VStr (PyStr.hex base)); ("offset", VInt offset)]) in
  let upd :=
    if (name =? "MC_BUS")%string then
      [("bus_current_A", VFloat f_hi); ("bus_voltage_V", VFloat f_lo)]
    else if (name =? "MC_VELOCITY")%string then
      [("vehicle_velocity_mps", VFloat f_hi); ("motor_velocity_rpm", VFloat f_lo)]
    else if (name =? "MC_PHASE")%string then
      [("phase_c_current_arms", VFloat f_hi); ("phase_b_current_arms", VFloat f_lo)]
    else if (name =? "MC_V_VECTOR")%string then
      [("Vd", VFloat f_hi); ("Vq", VFloat f_lo)]
    else if (name =? "MC_I_VECTOR")%string then
      [("Id", VFloat f_hi); ("Iq", VFloat f_lo)]
    else if (name =? "MC_BEMF_VECTOR")%string then
      [("BEMFd", VFloat f_hi); ("BEMFq", VFloat f_lo)]
    else if (name =? "MC_TEMP1")%string then
      [("heatsink_temp_C", VFloat f_hi); ("motor_temp_C", VFloat f_lo)]
    else if (name =? "MC_TEMP2")%string then
      [("dsp_temp_C", VFloat f_lo)]
    else if (name =? "MC_CUMULATIVE")%string then
      [("dc_bus_Ah", VFloat f_hi); ("odometer_m", VFloat f_lo)]
    else if (name =? "MC_RAIL1")%string then
      [("rail_15V", VFloat f_hi)]
    else if (name =? "MC_RAIL2")%string then
      [("rail_3v3", VFloat f_hi); ("rail_1v9", VFloat f_lo)]
    else [] in
  Ok [dict_update row upd].

Definition decode_dc (ts : value) (can_id : Z) (d : list byte)
  : result (list record) :=
  let offset := can_id - DC_CAN_BASE in
  let name := offset_name DC_OFFSETS "DC" offset in
  let row := dict_of (head_fields ts can_id name ++ [("offset", VInt offset)]) in
  if (name =? "DC_DRIVE")%string then
    '(f_hi, f_lo) ← floats_le d;
    Ok [dict_update row [("motor_current_pct", VFloat (PyFloat.scale10 f_hi 2));
                         ("motor_velocity_rpm", VFloat f_lo)]]
  else if (name =? "DC_POWER")%string then
    '(f_hi, f_lo) ← floats_le d;
    Ok [dict_update row [("bus_current_cmd_pct", VFloat (PyFloat.scale10 f_hi 2))]]
  else if (name =? "DC_SWITCH")%string then
    '(w0, w1, w2, w3) ← split_words_le d;
    Ok [dict_update (dict_update row (expand_bits_word w0 "dc_switch_pos"))
                    (expand_bits_word w1 "dc_switch_change")]
  else Ok [row].

Definition decode_stw (ts : value) (can_id : Z) (d : list byte)
  : result (list record) :=
  let offset := can_id - STW_CAN_BASE in
  let name := offset_name STW_OFFSETS "STW" offset in
  '(w0, w1, w2, w3) ← split_words_le d;
  let row := dict_of (head_fields ts can_id name) in
  if (name =? "STW_SWITCH")%string then
    let row := dict_update row (expand_bits_word w0 "stw_pos") in
    let row := dict_update row (expand_bits_word w1 "stw_change") in
    Ok [dict_update row
          (map (fun '(bit, label) =>
                  ("stw_pos_" +:+ PyStr.lower label, VInt (bit_of w0 bit)))
               STW_FLAGS)]
  else
    Ok [dict_update row [("word0", VInt w0); ("word1", VInt w1);
                         ("word2", VInt w2); ("word3", VInt w3)]].

(** [int(round(f))] *)
Definition int_round (f : PyFloat.t) : result value :=
  n ← PyFloat.round0 f; Ok (VInt n).

Definition decode_bp (ts : value) (can_id : Z) (d : list byte)
  : result (list record) :=
  let offset := can_id - BP_CAN_BASE in
  let name := offset_name BP_OFFSETS "BP" offset in
  let row := dict_of (head_fields ts can_id name ++ [("offset", VInt offset)]) in
  '(f_hi, f_lo) ← floats_le d;
  if (name =? "BP_VMAX")%string then
    cell ← int_round f_lo;
    Ok [dict_update row [("max_cell_voltage_V", VFloat f_hi); ("max_cell_id", cell)]]
  else if (name =? "BP_VMIN")%string then
    cell ← int_round f_lo;
    Ok [dict_update row [("min_cell_voltage_V", VFloat f_hi); ("min_cell_id", cell)]]
  else if (name =? "BP_TMAX")%string then
    cell ← int_round f_lo;
    Ok [dict_update row [("max_temp_C", VFloat f_hi); ("max_temp_cell", cell)]]
  else if (name =? "BP_ISH")%string then
    Ok [dict_update row [("shunt_current_A", VFloat f_hi);
                         ("state_of_charge_pct", VFloat f_lo)]]
  else if (name =? "BP_PVSS")%string then
    Ok [dict_update row [("pack_voltage_V", VFloat f_lo); ("shunt_sum", VFloat f_hi)]]
  else Ok [row].

Definition decode_mppt (ts : value) (can_id : Z) (d : list byte)
  : result (list record) :=
  let sub_id := can_id - MPPT_CAN_BASE in
  '(w0, w1, w2, w3) ← split_words_le d;
  let row := dict_of (head_fields ts can_id "MPPT" ++
                      [("sub_id", VInt sub_id); ("word0", VInt w0); ("word1", VInt w1);
                       ("word2", VInt w2); ("word3", VInt w3)]) in
  if can_id =? MPPT_CAN_ONOFF then
    d0 ← byte_at d 0; Ok [dict_set "mppt_onoff_cmd" (VInt d0) row]
  else Ok [row].

(* ===================================================================== *)
(** ** Dispatch *)
(* ===================================================================== *)

Definition decoder : Type := value -> Z -> list byte -> result (list record).

(** Master table for exact IDs (CAN1 + specific MPPT cmd). The engine calls
    the entries without keyword arguments, so the cell-broadcast decoder
    runs with [include_bits=False]. *)
Definition DECODERS_EXACT (can_id : Z) : option decoder :=
  if can_id =? OR_SVOLT then Some decode_or_svolt
  else if can_id =? OR_PACK then Some decode_or_pack
  else if can_id =? OR_STEMP then Some decode_or_stemp
  else if can_id =? OR_FLAGS then Some decode_or_flags
  else if can_id =? OR_AVOLT then Some (fun ts cid d => decode_or_avolt ts cid d false)
  else if can_id =? OR_ATEMP then Some decode_or_atemp
  else if can_id =? THERM_GENERAL then Some decode_therm_general
  else if can_id =? THERM_ADDRCLAIM then Some decode_therm_addrclaim
  else if can_id =? MPPT_CAN_ONOFF then Some decode_mppt
  else None.

(** [None] is Python's [None]: no family range holds the id. *)
Definition decode_dynamic (ts : value) (can_id : Z) (d : list byte)
  : option (result (list record)) :=
  if in_range MC_CAN_BASE1 can_id (MC_CAN_BASE1 + 0x20)
     || in_range MC_CAN_BASE2 can_id (MC_CAN_BASE2 + 0x20)
  then Some (decode_mc ts can_id d)
  else if in_range DC_CAN_BASE can_id (DC_CAN_BASE + 0x10) then Some (decode_dc ts can_id d)
  else if in_range STW_CAN_BASE can_id (STW_CAN_BASE + 0x10) then Some (decode_stw ts can_id d)
  else if in_range BP_CAN_BASE can_id (BP_CAN_BASE + 0x10) then Some (decode_bp ts can_id d)
  else if in_range MPPT_CAN_BASE can_id (MPPT_CAN_BASE + 0x20)
  then Some (decode_mppt ts can_id d)
  else None.

(* ===================================================================== *)
(** ** Output schema *)
(* ===================================================================== *)

(** [[f"{prefix}{i}" for i in range(n)]] *)
Definition numbered (prefix : string) (n : nat) : list string :=
  map (fun i : nat => prefix +:+ PyStr.dec (Z.of_nat i)) (seq 0 n).

Definition known_columns (include_bits : bool) : list string :=
  let base :=
    ["timestamp"; "id_hex"; "message"; "channel"; "raw_data";
     "base_hex"; "offset"; "sub_id";
     "bus_current_A"; "bus_voltage_V";
     "vehicle_velocity_mps"; "motor_velocity_rpm";
     "phase_c_current_arms"; "phase_b_current_arms";
     "Vd"; "Vq"; "Id"; "Iq"; "BEMFd"; "BEMFq";
     "heatsink_temp_C"; "motor_temp_C"; "dsp_temp_C";
     "dc_bus_Ah"; "odometer_m"; "rail_15V"; "rail_3v3"; "rail_1v9"]
    ++ numbered "mc_limit_bit" 16
    ++ numbered "dc_switch_pos_bit" 16
    ++ numbered "dc_switch_change_bit" 16
    ++ numbered "stw_pos_bit" 16
    ++ numbered "stw_change_bit" 16
    ++ ["stw_pos_horn"; "stw_pos_ind_l"; "stw_pos_ind_r"; "stw_pos_regen"; "stw_pos_cruise";
        "max_cell_voltage_V"; "max_cell_id";
        "min_cell_voltage_V"; "min_cell_id";
        "max_temp_C"; "max_temp_cell";
        "shunt_current_A"; "state_of_charge_pct";
        "pack_voltage_V"; "shunt_sum";
        "mppt_onoff_cmd";
        "high_cell_voltage_V"; "high_cell_id"; "low_cell_voltage_V"; "low_cell_id";
        "pack_current_A"; "pack_voltage_V_orion"; "state_of_charge_pct_orion"; "num_cells";
        "high_temp_C_orion"; "high_temp_id"; "low_temp_C_orion"; "low_temp_id";
        "flag0_low_cell_voltage"; "flag0_high_cell_voltage"; "flag0_over_temp";
        "flag0_open_wiring";
        "flag0_internal_comm"; "flag0_charge_enable_relay"; "flag0_discharge_relay";
        "flag0_blank";
        "raw_flags_hex";
        "cell_id"; "inst_voltage_V"; "internal_resistance_mOhm"; "shunting";
        "open_circuit_voltage_V"; "checksum"; "checksum_ok";
        "thermistor_local_id"; "temp_C"; "thermistor_global_id"; "local_fault";
        "lowest_temp_C";
        "highest_temp_C"; "module_highest_id"; "module_lowest_id";
        "unique_id_hex"; "bms_target_addr"; "module_number_shifted";
        "const_5"; "const_6"; "const_7"] in
  if include_bits then
    base ++ concat (map (fun i : nat =>
                           let p := "b" +:+ PyStr.dec (Z.of_nat i) in
                           [p; p +:+ "_hex"] ++ numbered (p +:+ "_bit") 8)
                        (seq 0 8))
  else base.

(* ===================================================================== *)
(** ** Partitioned CSV writer *)
(* ===================================================================== *)

(** A line of an output file: the header, or one record laid out on the
    fixed schema (an empty cell is [None]). The text serialisation of the
    cells is not modelled. *)
Inductive line : Type :=
  | HeaderLine (cols : list string)
  | DataLine (cells : list (option value)).

Definition is_data (l : line) : bool :=
  match l with DataLine _ => true | HeaderLine _ => false end.

(** The file system: path to file content. *)
Abbreviation fs := (gmap string (list line)).

(** A data frame built from records: its columns are the keys that occur. *)
Abbreviation frame := (list record).

(** [df.empty]: no row, or no column. *)
Definition df_empty (df : frame) : bool :=
  forallb (fun r : record => match r with [] => true | _ => false end) df.

(** One row of [df.reindex(columns=cols)]. *)
Definition reindex (cols : list string) (r : record) : list (option value) :=
  map (fun c => dict_get c r) cols.

(** Python slice [l[start:stop]], negative bounds counted from the end. *)
Definition slice_bound (len i : Z) : Z :=
  if i <? 0 then Z.max 0 (i + len) else Z.min i len.

Definition py_slice {A} (l : list A) (start stop : Z) : list A :=
  let len := Z.of_nat (List.length l) in
  let a := slice_bound len start in
  let b := slice_bound len stop in
  take (Z.to_nat (b - a)) (drop (Z.to_nat a) l).

Definition rfind (c : ascii) (l : list ascii) : Z :=
  snd (fold_left (fun '(i, found) a =>
                    (i + 1, if Ascii.eqb a c then i else found))
                 l (0, -1)).

(** [os.path.splitext] (POSIX flavour): the extension starts at the last
    dot of the last path component, leading dots of that component apart. *)
Definition splitext (p : string) : string * string :=
  let l := PyStr.chars p in
  let sepIndex := rfind "/" l in
  let dotIndex := rfind "." l in
  if (sepIndex <? dotIndex)
     && existsb (fun a => negb (Ascii.eqb a "."))
                (py_slice l (sepIndex + 1) dotIndex)
  then (PyStr.str (take (Z.to_nat dotIndex) l), PyStr.str (drop (Z.to_nat dotIndex) l))
  else (p, "").

Record PartitionedCSVWriter : Type := mkWriter {
  w_base : string;
  w_ext : string;
  w_row_limit : Z;
  w_columns : list string;
  w_part : Z;
  w_count_in_part : Z;
  w_paths : list string;
  w_header_written : bool
}.

Module Writer.

Definition init (out_path : string) (row_limit : Z) (columns : list string)
  : PartitionedCSVWriter :=
  let '(base, ext) := splitext out_path in
  mkWriter base ext row_limit columns 1 0 [] false.

(** Name of part [part] of a stream: the first file uses the exact name,
    the next parts add [_partN]. *)
Definition part_path (base ext : string) (part : Z) : string :=
  if part =? 1 then base +:+ ext
  else base +:+ "_part" +:+ PyStr.dec part +:+ ext.

Definition _path (w : PartitionedCSVWriter) : string :=
  part_path (w_base w) (w_ext w) (w_part w).

Definition _roll (w : PartitionedCSVWriter) : PartitionedCSVWriter :=
  mkWriter (w_base w) (w_ext w) (w_row_limit w) (w_columns w)
           (w_part w + 1) 0 (w_paths w) false.

(** [chunk.to_csv(path, index=False, header=..., mode=...)] *)
Definition to_csv (files : fs) (path : string) (cols : list string)
    (chunk : list (list (option value))) (header : bool) (append : bool) : fs :=
  let old := if append then default [] (files !! path) else [] in
  let new := (if header then [HeaderLine cols] else []) ++ map DataLine chunk in
  <[path := old ++ new]> files.

(** One turn of the [while start < n] loop of [write_df]. *)
Definition write_step (w : PartitionedCSVWriter) (files : fs)
    (df : list (list (option value))) (start : Z)
  : PartitionedCSVWriter * fs * Z :=
  let n := Z.of_nat (List.length df) in
  let room := w_row_limit w - w_count_in_part w in
  let w := if room <=? 0 then _roll w else w in
  let take := Z.min room (n - start) in
  let chunk := py_slice df start (start + take) in
  let path := _path w in
  let paths := if bool_decide (path ∈ w_paths w) then w_paths w
               else w_paths w ++ [path] in
  let files := to_csv files path (w_columns w) chunk
                      (negb (w_header_written w)) (w_header_written w) in
  (mkWriter (w_base w) (w_ext w) (w_row_limit w) (w_columns w) (w_part w)
            (w_count_in_part w + Z.of_nat (List.length chunk)) paths true,
   files, start + take).

(** The loop itself; [fuel] bounds the number of turns and [Diverge] is
    returned when it runs out. *)
Fixpoint write_loop (fuel : nat) (w : PartitionedCSVWriter) (files : fs)
    (df : list (list (option value))) (start : Z)
  : result (PartitionedCSVWriter * fs) :=
  if start <? Z.of_nat (List.length df) then
    match fuel with
    | O => Diverge
    | S fuel' =>
        let '(w', files', start') := write_step w files df start in
        write_loop fuel' w' files' df start'
    end
  else Ok (w, files).

Definition write_df_fuel (fuel : nat) (w : PartitionedCSVWriter) (files : fs)
    (df : frame) : result (PartitionedCSVWriter * fs) :=
  if df_empty df then Ok (w, files)
  else write_loop fuel w files (map (reindex (w_columns w)) df) 0.

(** [write_df] with the number of turns that suffices whenever the loop
    terminates at all (see [write_loop_spec] and
    [write_loop_diverges]). *)
Definition write_df (w : PartitionedCSVWriter) (files : fs) (df : frame)
  : result (PartitionedCSVWriter * fs) :=
  write_df_fuel (2 * List.length df + 1) w files df.

End Writer.

(* ===================================================================== *)
(** ** Streaming engine *)
(* ===================================================================== *)

(** One data row of the input as the pandas reader delivers it: the cells
    under the four labels the engine keeps ([usecols]), all read as text
    ([dtype=str], no NA filtering). A cell whose label is not in the header
    is never looked at. Labels are taken to be distinct once normalised. *)
Record RawRow : Type := mkRow {
  r_id : string;
  r_data : string;
  r_timestamp : string;
  r_channel : string
}.

(** The input file: its header labels as written, its data rows, and its
    number of physical lines (what [_estimate_total_rows] counts). A file
    without a header line, such as an empty file, has [in_header = []]. *)
Record CsvInput : Type := mkInput {
  in_header : list string;
  in_rows : list RawRow;
  in_line_count : Z
}.

(** A call of the progress callback: the fraction and the status text. *)
Abbreviation event := (Q * string)%type.

(** The callable passed as [progress_cb]. Called with a fraction and a
    text, it returns, raises or never comes back; what it does may depend
    on the calls it has received before in the run, which are its first
    argument here. It is taken not to touch the files of the run. *)
Definition callback : Type := list event -> event -> result unit.

(** [Optional[Callable[[float, Optional[str]], None]]] *)
Definition progress_arg : Type := option callback.

(** A callback that returns normally from every call. *)
Definition returning : callback := fun _ _ => Ok ().

(** Where an argument [progress_cb] is expected, [true] stands for a
    callback that returns normally from every call and [false] for no
    callback. *)
Definition callback_of_flag (b : bool) : progress_arg :=
  if b then Some returning else None.
Coercion callback_of_flag : bool >-> progress_arg.

Record Options : Type := mkOptions {
  include_bits : bool;
  channel : option string;
  split : bool;
  out_one : option string;
  out_can1 : option string;
  out_can2 : option string;
  row_limit : Z;
  progress_cb : progress_arg
}.

Inductive writers : Type :=
  | OneWriter (writer_one : PartitionedCSVWriter)
  | TwoWriters (writer_c0 writer_c1 : PartitionedCSVWriter).

Record State : Type := mkState {
  st_writers : writers;
  st_files : fs;
  st_buf : list record;
  st_rows_processed : Z;
  st_progress : list event   (* calls of the callback, oldest first *)
}.

(** A step leaves a state behind even when it fails: what was flushed
    before the failure stays on disk. *)
Abbreviation outcome := (State * result unit)%type.

Fixpoint fold_steps {A} (step : State -> A -> outcome) (st : State) (l : list A)
  : outcome :=
  match l with
  | [] => (st, Ok ())
  | x :: l' =>
      match step st x with
      | (st', Ok _) => fold_steps step st' l'
      | failed => failed
      end
  end.

Definition _estimate_total_rows (inp : CsvInput) : Z :=
  Z.max (in_line_count inp - 1) 0.

Definition need : list string := ["id"; "data"; "timestamp"; "channel"].

Definition norm_label (c : string) : string := PyStr.lower (PyStr.strip c).

(** Columns of every chunk: the labels kept by [usecols], normalised. *)
Definition chunk_columns (header : list string) : list string :=
  List.filter (fun c => bool_decide (c ∈ need)) (map norm_label header).

Fixpoint chunks_aux {A} (size room : nat) (cur : list A) (l : list A)
  : list (list A) :=
  match l with
  | [] => match cur with [] => [] | _ => [rev cur] end
  | x :: l' =>
      match room with
      | S (S room') => chunks_aux size (S room') (x :: cur) l'
      | _ => rev (x :: cur) :: chunks_aux size size [] l'
      end
  end.

(** Consecutive blocks of [size] rows. *)
Definition chunks_of {A} (size : nat) (l : list A) : list (list A) :=
  chunks_aux size size [] l.

(** The chunks the reader of [pd.read_csv(..., chunksize=size)] yields for
    a file that has a header line: consecutive blocks of [size] rows, and
    one empty chunk when the file has no data row. *)
Definition reader_chunks {A} (size : nat) (l : list A) : list (list A) :=
  match l with
  | [] => [[]]
  | _ => chunks_of size l
  end.

Definition cell (r : RawRow) (key : string) : string :=
  if (key =? "id")%string then r_id r
  else if (key =? "data")%string then r_data r
  else if (key =? "timestamp")%string then r_timestamp r
  else r_channel r.

(** [r.get(key)], [None] when the chunk has no such column. *)
Definition row_get (cols : list string) (r : RawRow) (key : string) : option string :=
  if bool_decide (key ∈ cols) then Some (cell r key) else None.

Definition can1_msgs : list string :=
  ["OR_SVOLT"; "OR_PACK"; "OR_STEMP"; "OR_FLAGS"; "OR_AVOLT"; "OR_ATEMP";
   "THERM_GENERAL"; "THERM_ADDRCLAIM"].

(** [df["channel"].astype(str).str.lower() == tag]; a missing cell reads
    "nan", and only a text cell can equal a tag. *)
Definition channel_is (tag : string) (r : record) : bool :=
  match dict_get "channel" r with
  | Some (VStr s) => (PyStr.lower s =? tag)%string
  | _ => false
  end.

(** [df["message"].isin(can1_msgs)] *)
Definition message_in_can1 (r : record) : bool :=
  match dict_get "message" r with
  | Some (VStr s) => bool_decide (s ∈ can1_msgs)
  | _ => false
  end.

(** The two groups of a flushed batch in split mode: [(df_c0, df_c1)]. *)
Definition split_frame (df : frame) : frame * frame :=
  if existsb (has_key "channel") df then
    (List.filter (channel_is "can0") df, List.filter (channel_is "can1") df)
  else
    (List.filter (fun r => negb (message_in_can1 r)) df,
     List.filter message_in_can1 df).

(** [if not df.empty: writer.write_df(df)] *)
Definition write_group (w : PartitionedCSVWriter) (files : fs) (df : frame)
  : result (PartitionedCSVWriter * fs) :=
  if df_empty df then Ok (w, files) else Writer.write_df w files df.

(** The closure [flush]. The two writes of split mode go to a pool of two
    workers and are both awaited; they are run here one after the other. *)
Definition flush (st : State) : outcome :=
  match st_buf st with
  | [] => (st, Ok ())
  | _ =>
      let df := st_buf st in
      let written :=
        match st_writers st with
        | TwoWriters c0 c1 =>
            let '(df_c0, df_c1) := split_frame df in
            '(c0', files) ← write_group c0 (st_files st) df_c0;
            '(c1', files) ← write_group c1 files df_c1;
            Ok (TwoWriters c0' c1', files)
        | OneWriter w =>
            '(w', files) ← Writer.write_df w (st_files st) df;
            Ok (OneWriter w', files)
        end in
      match written with
      | Ok (ws, files) =>
          (mkState ws files [] (st_rows_processed st) (st_progress st), Ok ())
      | Raise e => (st, Raise e)
      | Diverge => (st, Diverge)
      end
  end.

(** The hex text of a row, spaces removed, cut to 16 characters and padded
    with zeros. *)
Definition normalise_data (data : string) : string :=
  PyStr.ljust 16 "0" (PyStr.prefix 16 (PyStr.strip (PyStr.remove_spaces data))).

(** What the engine adds to every record of a row: the raw bits when asked
    for, then the channel tag when the chunk has a channel column. *)
Definition finish_record (include_bits : bool) (chan : option string)
    (data_b : list byte) (rr : record) : record :=
  let rr := if include_bits
            then dict_update rr (expand_bits_bytes data_b "b") else rr in
  match chan with
  | Some c => dict_set "channel" (VStr c) rr
  | None => rr
  end.

(** What one row adds to the buffer. [None] is a skipped row ([continue]);
    [Some (Raise e)] is a decoder raising. *)
Definition row_records (include_bits : bool) (cols : list string) (r : RawRow)
  : option (result (list record)) :=
  let sid := PyStr.strip (default "" (row_get cols r "id")) in
  if (sid =? "")%string then None
  else
    match parse_can_id sid with
    | Ok can_id =>
        let data_s := normalise_data (default "" (row_get cols r "data")) in
        match PyStr.fromhex data_s with
        | Some data_b =>
            let ts := VStr (default "" (row_get cols r "timestamp")) in
            let chan := row_get cols r "channel" in
            let recs :=
              match DECODERS_EXACT can_id with
              | Some dec => Some (dec ts can_id data_b)
              | None => decode_dynamic ts can_id data_b
              end in
            let finish := finish_record include_bits chan data_b in
            match recs with
            | None =>
                Some (Ok [finish (dict_of (head_fields ts can_id "RAW" ++
                                           [("raw_data", VStr data_s)]))])
            | Some res => Some (rs ← res; Ok (map finish rs))
            end
        | None => None
        end
    | _ => None
    end.

(** The records of a row are appended to the buffer. *)
Definition append_row (include_bits : bool) (cols : list string) (st : State)
    (r : RawRow) : option (result State) :=
  match row_records include_bits cols r with
  | None => None
  | Some res =>
      Some (rs ← res;
            Ok (mkState (st_writers st) (st_files st) (st_buf st ++ rs)
                        (st_rows_processed st) (st_progress st)))
  end.

(** Body of the loop over the rows of a chunk. *)
Definition row_step (include_bits : bool) (cols : list string) (st : State)
    (r : RawRow) : outcome :=
  match append_row include_bits cols st r with
  | None => (st, Ok ())
  | Some (Ok st') =>
      if FLUSH_EVERY <=? Z.of_nat (List.length (st_buf st')) then flush st'
      else (st', Ok ())
  | Some (Raise e) => (st, Raise e)
  | Some Diverge => (st, Diverge)
  end.

Definition truthy (s : option string) : bool :=
  match s with
  | Some s => negb (s =? "")%string
  | None => false
  end.

(** [chunk[chunk["channel"].str.lower() == channel.lower()]] *)
Definition filter_channel (o : Options) (cols : list string) (rows : list RawRow)
  : list RawRow :=
  if truthy (channel o) && bool_decide ("channel" ∈ cols) then
    List.filter (fun r => (PyStr.lower (r_channel r)
                           =? PyStr.lower (default "" (channel o)))%string) rows
  else rows.

(** [min(rows_processed / total_rows, 0.999)] *)
Definition fraction (rows_processed total_rows : Z) : Q :=
  let f := Qmake rows_processed (Z.to_pos total_rows) in
  Qred (if Qle_bool f (999 # 1000) then f else 999 # 1000).

(** [progress_cb(fraction, text)]: the call is made, and the run goes on
    only if the callable returns. *)
Definition call_progress (cb : callback) (ev : event) (st : State) : outcome :=
  (mkState (st_writers st) (st_files st) (st_buf st) (st_rows_processed st)
           (st_progress st ++ [ev]),
   cb (st_progress st) ev).

(** The call made after a batch. *)
Definition report (o : Options) (total_rows : Z) (st : State) : outcome :=
  match progress_cb o with
  | Some cb =>
      let ev :=
        if total_rows =? 0 then
          (0 # 1, "Processed " +:+ PyStr.dec (st_rows_processed st) +:+ " rows")
        else
          (fraction (st_rows_processed st) total_rows,
           "Processed " +:+ PyStr.dec (st_rows_processed st) +:+ " of "
             +:+ PyStr.dec total_rows +:+ " rows") in
      call_progress cb ev st
  | None => (st, Ok ())
  end.

Definition add_processed (n : Z) (st : State) : State :=
  mkState (st_writers st) (st_files st) (st_buf st) (st_rows_processed st + n)
          (st_progress st).

Definition clear_buf (st : State) : State :=
  mkState (st_writers st) (st_files st) [] (st_rows_processed st) (st_progress st).

(** Body of the loop over the chunks. *)
Definition chunk_step (o : Options) (cols : list string) (total_rows : Z)
    (st : State) (chunk : list RawRow) : outcome :=
  let chunk := filter_channel o cols chunk in
  let n := Z.of_nat (List.length chunk) in
  if negb (bool_decide ("id" ∈ cols)) || negb (bool_decide ("data" ∈ cols)) then
    (add_processed n st, Ok ())
  else
    match fold_steps (row_step (include_bits o) cols) (clear_buf st) chunk with
    | (st', Ok _) =>
        match flush st' with
        | (st'', Ok _) => report o total_rows (add_processed n st'')
        | failed => failed
        end
    | failed => failed
    end.

(** What a run leaves behind: the returned paths (or the failure), the file
    system, and the calls of the progress callback. *)
Record RunResult : Type := mkRun {
  run_result : result (list string);
  run_files : fs;
  run_progress : list event
}.

(** The writers of a run; a missing output name raises. *)
Definition make_writers (o : Options) (cols : list string) : result writers :=
  if split o then
    match out_can1 o, out_can2 o with
    | Some p1, Some p2 =>
        Ok (TwoWriters (Writer.init p1 (row_limit o) cols)
                       (Writer.init p2 (row_limit o) cols))
    | _, _ => Raise ValueError
    end
  else
    match out_one o with
    | Some p => Ok (OneWriter (Writer.init p (row_limit o) cols))
    | None => Raise ValueError
    end.

(** The paths a run returns. *)
Definition outputs (ws : writers) : list string :=
  match ws with
  | TwoWriters c0 c1 => w_paths c0 ++ w_paths c1
  | OneWriter w => w_paths w
  end.

Definition _stream_decode (inp : CsvInput) (files : fs) (o : Options) : RunResult :=
  let cols := known_columns (include_bits o) in
  let total_rows :=
    match progress_cb o with Some _ => _estimate_total_rows inp | None => 0 end in
  let started : list event * result unit :=
    match progress_cb o with
    | Some cb => ([(0 # 1, "Starting decode")], cb [] (0 # 1, "Starting decode"))
    | None => ([], Ok ())
    end in
  match started with
  | (progress0, Ok _) =>
      match make_writers o cols with
      | Ok ws =>
          match in_header inp with
          | [] =>
              (* [pd.read_csv] on a file without a header line *)
              mkRun (Raise EmptyDataError) files progress0
          | _ =>
              let st0 := mkState ws files [] 0 progress0 in
              let ccols := chunk_columns (in_header inp) in
              match fold_steps (chunk_step o ccols total_rows) st0
                               (reader_chunks (Z.to_nat CHUNK_ROWS) (in_rows inp)) with
              | (st, Ok _) =>
                  match progress_cb o with
                  | Some cb =>
                      let ev := (1 # 1, "Decoding complete") in
                      mkRun (_ ← cb (st_progress st) ev; Ok (outputs (st_writers st)))
                            (st_files st) (st_progress st ++ [ev])
                  | None =>
                      mkRun (Ok (outputs (st_writers st))) (st_files st) (st_progress st)
                  end
              | (st, Raise e) => mkRun (Raise e) (st_files st) (st_progress st)
              | (st, Diverge) => mkRun Diverge (st_files st) (st_progress st)
              end
          end
      | Raise e => mkRun (Raise e) files progress0
      | Diverge => mkRun Diverge files progress0
      end
  | (progress0, Raise e) => mkRun (Raise e) files progress0
  | (progress0, Diverge) => mkRun Diverge files progress0
  end.

Definition decode_csv_one (inp : CsvInput) (files : fs) (output_csv : string)
    (include_bits : bool) (channel : option string) (row_limit : Z)
    (progress_cb : progress_arg) : RunResult :=
  _stream_decode inp files
    (mkOptions include_bits channel false (Some output_csv) None None
               row_limit progress_cb).

Definition decode_csv_split (inp : CsvInput) (files : fs)
    (out_can1_csv out_can2_csv : string)
    (include_bits : bool) (channel : option string) (row_limit : Z)
    (progress_cb : progress_arg) : RunResult :=
  _stream_decode inp files
    (mkOptions include_bits channel true None (Some out_can1_csv) (Some out_can2_csv)
               row_limit progress_cb).

(* ===================================================================== *)
(** ** Definitions used to state the properties *)
(* ===================================================================== *)

(** The flag the decoder puts in its record, if it returns one record. *)
Definition avolt_checksum_flag (ts : value) (d : list byte) (include_bits : bool)
  : option bool :=
  match decode_or_avolt ts OR_AVOLT d include_bits with
  | Ok [rec] =>
      match dict_get "checksum_ok" rec with
      | Some (VBool ok) => Some ok
      | _ => None
      end
  | _ => None
  end.

(** The checksum as the specification words it. *)
Definition low_byte (x : Z) : Z := x mod 256.
Definition spec_checksum (broadcast_id : Z) (d : list byte) : Z :=
  low_byte (broadcast_id + 8 + sum_bytes (take 7 d)).

(** The low-order float of a payload, as [floats_le] reads it. *)
Definition low_float (d : list byte) : PyFloat.t :=
  match floats_le d with
  | Ok (_, lo) => lo
  | _ => PyFloat.Nan
  end.

(** The battery-protection messages whose low float goes through
    [int(round(...))]. *)
Definition bp_rounds_low_float (can_id : Z) : bool :=
  let name := offset_name BP_OFFSETS "BP" (can_id - BP_CAN_BASE) in
  (name =? "BP_VMAX")%string || (name =? "BP_VMIN")%string || (name =? "BP_TMAX")%string.

(** A log with one battery-protection frame whose low float is +inf. *)
Definition bp_inf_log : CsvInput :=
  mkInput ["timestamp"; "id"; "data"] [mkRow "581" "0000807F00000000" "12.5" ""] 2.

(** The ids the dispatch knows: the exact ids and the family ranges. *)
Definition exact_ids : list Z :=
  [0x6B0; 0x6B1; 0x6B2; 0x6B3; 0x6B4; 0x6B5; 0x1838F380; 0x18EEFF80; 0x610].
Definition family_ranges : list (Z * Z) :=
  [(0x400, 0x420); (0x420, 0x440); (0x500, 0x510); (0x540, 0x550);
   (0x580, 0x590); (0x600, 0x620)].
Definition id_is_known (can_id : Z) : bool :=
  existsb (Z.eqb can_id) exact_ids
  || existsb (fun '(lo, hi) => (lo <=? can_id) && (can_id <? hi)) family_ranges.

(** A text made of hexadecimal digits only. *)
Definition is_hex (a : ascii) : bool :=
  match PyStr.hex_digit a with Some _ => true | None => false end.
Definition all_hex (s : string) : bool := forallb is_hex (PyStr.chars s).

Definition keys (r : record) : list string := map fst r.

(** Records without a channel key. *)
Definition untagged (rs : list record) : Prop :=
  Forall (fun r => dict_get "channel" r = None) rs.

(** What a decoder returns: at most four records, each with a message name
    and without a channel key. *)
Definition plain_record (r : record) : Prop :=
  dict_get "channel" r = None /\ exists m, dict_get "message" r = Some (VStr m).
Definition decoded (rs : list record) : Prop :=
  Forall plain_record rs /\ (List.length rs <= 4)%nat.

(** *** What a writer has put on disk *)

(** A data row as written: one cell per schema column. *)
Abbreviation rowdata := (list (option value)).

Definition file_lines (cols : list string) (f : list rowdata) : list line :=
  HeaderLine cols :: map DataLine f.

(** The files of a stream, seen abstractly: nothing written yet, or some
    closed files followed by the file being filled. *)
Inductive shape : Type :=
  | Fresh
  | Active (fulls : list (list rowdata)) (cur : list rowdata).

(** All the rows of the stream, in order. *)
Definition content (s : shape) : list rowdata :=
  match s with
  | Fresh => []
  | Active fulls cur => concat fulls ++ cur
  end.

Definition shape_files (s : shape) : list (list rowdata) :=
  match s with
  | Fresh => []
  | Active fulls cur => fulls ++ [cur]
  end.

(** Between two calls of [write_df] the current file is never empty. *)
Definition settled (s : shape) : Prop :=
  match s with
  | Fresh => True
  | Active _ cur => cur <> []
  end.

(** The first [k] paths of a stream. *)
Definition stream_paths (base ext : string) (k : nat) : list string :=
  map (fun i : nat => Writer.part_path base ext (Z.of_nat (S i))) (seq 0 k).

(** The writer [w] and the file system [files] hold the stream [s]: the
    writer's counters are those of [s], every closed file has [r] rows, the
    current one at most [r], and each file is on disk under its path, the
    header first. *)
Definition represents (base ext : string) (r : Z) (cols : list string)
    (w : PartitionedCSVWriter) (files : fs) (s : shape) : Prop :=
  match s with
  | Fresh => w = mkWriter base ext r cols 1 0 [] false
  | Active fulls cur =>
      w = mkWriter base ext r cols (Z.of_nat (S (List.length fulls)))
                   (Z.of_nat (List.length cur))
                   (stream_paths base ext (S (List.length fulls))) true /\
      Forall (fun f => Z.of_nat (List.length f) = r) fulls /\
      Z.of_nat (List.length cur) <= r /\
      forall (j : nat) f, (fulls ++ [cur]) !! j = Some f ->
                          files !! Writer.part_path base ext (Z.of_nat (S j))
                          = Some (file_lines cols f)
  end.

(** Paths that do not belong to a stream. *)
Definition foreign (base ext : string) (p : string) : Prop :=
  forall j : nat, p <> Writer.part_path base ext (Z.of_nat (S j)).

(** One more turn of the loop is needed after a roll. *)
Definition slack (r : Z) (s : shape) : nat :=
  match s with
  | Fresh => 0
  | Active _ cur => if Z.of_nat (List.length cur) =? r then 1 else 0
  end.

(** The data rows of a file. *)
Definition data_rows (f : list line) : list rowdata :=
  flat_map (fun l => match l with DataLine c => [c] | HeaderLine _ => [] end) f.

(** The files of a writer's stream as they are on disk, in order. *)
Definition stream_files (w : PartitionedCSVWriter) (files : fs) : list (list line) :=
  map (fun p => default [] (files !! p)) (w_paths w).

(** Successive calls of [write_df]. *)
Fixpoint write_all (w : PartitionedCSVWriter) (files : fs) (batches : list frame)
  : result (PartitionedCSVWriter * fs) :=
  match batches with
  | [] => Ok (w, files)
  | df :: rest => '(w', files') ← Writer.write_df w files df; write_all w' files' rest
  end.

(** The rows a sequence of batches amounts to. *)
Definition batch_rows (cols : list string) (batches : list frame) : list rowdata :=
  flat_map (fun df => if df_empty df then [] else map (reindex cols) df) batches.

(** Number of data rows of each file of a stream, in order. *)
Definition row_counts (w : PartitionedCSVWriter) (files : fs) : list Z :=
  map (fun f => Z.of_nat (List.length (data_rows f))) (stream_files w files).

(** Seven records with one field each. *)
Definition seven_records : frame :=
  map (fun i : nat => [("timestamp", VInt (Z.of_nat i))]) (seq 0 7).

(** *** Progress reports *)

(** The fraction the specification asks for after a batch, [n] rows being
    processed: processed over estimated total, capped at 0.999, and 0
    when there is no estimate. *)
Definition capped_ratio (total_rows n : Z) : Q :=
  if total_rows =? 0 then 0 # 1
  else Qmin (inject_Z n / inject_Z total_rows) (999 # 1000).

(** Running totals of a list of batch sizes, from [acc] on. *)
Fixpoint running_totals (acc : Z) (sizes : list Z) : list Z :=
  match sizes with
  | [] => []
  | n :: rest => (acc + n) :: running_totals (acc + n) rest
  end.

(** The number of rows of each batch of a run, counted after the channel
    filter. *)
Definition batch_sizes (inp : CsvInput) (o : Options) : list Z :=
  map (fun chunk =>
         Z.of_nat (List.length (filter_channel o (chunk_columns (in_header inp)) chunk)))
      (reader_chunks (Z.to_nat CHUNK_ROWS) (in_rows inp)).

(** The rows processed at each batch boundary of a run: one count per
    batch of a file that has a header line with an id and a data column,
    none otherwise. *)
Definition batch_counts (inp : CsvInput) (o : Options) : list Z :=
  let cols := chunk_columns (in_header inp) in
  match in_header inp with
  | [] => []
  | _ =>
      if bool_decide ("id" ∈ cols) && bool_decide ("data" ∈ cols)
      then running_totals 0 (batch_sizes inp o)
      else []
  end.

Definition fractions (evs : list event) : list Q := map fst evs.

(** A callback argument whose callable, if any, returns normally from
    every call. *)
Definition returns_normally (cb : progress_arg) : Prop :=
  match cb with
  | Some f => forall calls ev, f calls ev = Ok ()
  | None => True
  end.

(** A callback that raises on its [k]-th call (counted from 0) and
    returns normally before. *)
Definition raising_at (k : nat) (e : exn) : callback :=
  fun calls _ => if (List.length calls =? k)%nat then Raise e else Ok ().

(** *** Sample logs *)

Definition small_log : CsvInput :=
  mkInput ["Timestamp"; "ID"; " Data "]
    [mkRow "6B5" "0105 0206" "t0" ""; mkRow "zz" "00" "t1" "";
     mkRow "18EEFF80" "0102030405060708" "t2" ""; mkRow "7FF" "AB" "t3" ""] 5.

(** A log whose header has no id column. *)
Definition no_id_log : CsvInput :=
  mkInput ["timestamp"; "data"] [mkRow "" "0102030405060708" "t0" ""] 2.

(** An empty file, and a file with a header line only. *)
Definition empty_file : CsvInput := mkInput [] [] 0.
Definition header_only_log : CsvInput := mkInput ["timestamp"; "id"; "data"] [] 1.

(** The raw text the specification asks for: the data text with its
    spaces removed and the white space around it stripped, cut to 16
    characters and right-padded with zeros. *)
Definition raw_text (data : string) : string :=
  let digits :=
    PyStr.strip_chars (List.filter (fun a => negb (Ascii.eqb a " ")) (PyStr.chars data)) in
  PyStr.str (take 16 (digits ++ repeat "0"%char 16)).

(** A frame of an unknown id whose data is not hex text, and a log made
    of it. *)
Definition bad_data_row : RawRow := mkRow "7FF" "0102zz" "t0" "".
Definition bad_data_log : CsvInput := mkInput ["timestamp"; "id"; "data"] [bad_data_row] 2.

(** A frame of an unknown id whose data is written with spaces. *)
Definition spaced_row : RawRow := mkRow "7FF" "DE AD BE EF 01 02 03 04" "t0" "".

(** The header has a column with this label, case and surrounding blanks
    apart. *)
Definition has_column (label : string) (inp : CsvInput) : Prop :=
  label ∈ map norm_label (in_header inp).

(** A row the engine cannot read: its id does not parse or its data is not
    valid hex. *)
Definition unreadable (r : RawRow) : bool :=
  negb (is_ok (parse_can_id (PyStr.strip (r_id r))))
  || negb (bool_decide (is_Some (PyStr.fromhex (normalise_data (r_data r))))).

Definition skipped_rows (inp : CsvInput) : nat :=
  List.length (List.filter unreadable (in_rows inp)).

(** Two logs of two rows each: an extra-temps frame with two pairs and an
    unreadable row, against two extra-temps frames with one pair each. *)
Definition log_one_skipped : CsvInput :=
  mkInput ["id"; "data"]
    [mkRow "6B5" "0105020600000000" "" ""; mkRow "xyz" "00" "" ""] 3.
Definition log_none_skipped : CsvInput :=
  mkInput ["id"; "data"]
    [mkRow "6B5" "0105000000000000" "" ""; mkRow "6B5" "0206000000000000" "" ""] 3.

(** *** Buffered records *)

(** Buffer lengths right after the records of each row are appended (before
    the threshold test), along the loop over the rows of a chunk. *)
Fixpoint buffer_trace (ib : bool) (cols : list string) (st : State)
    (rows : list RawRow) : list Z :=
  match rows with
  | [] => []
  | r :: rest =>
      match append_row ib cols st r with
      | Some (Ok st') => [Z.of_nat (List.length (st_buf st'))]
      | _ => []
      end ++
      match row_step ib cols st r with
      | (st'', Ok _) => buffer_trace ib cols st'' rest
      | _ => []
      end
  end.

(** The buffer length when the records of row [r] have just been appended,
    the rows [rows] having been processed before. *)
Definition buffered_after (ib : bool) (cols : list string) (st : State)
    (rows : list RawRow) (r : RawRow) : Z :=
  match fold_steps (row_step ib cols) st rows with
  | (st1, Ok _) =>
      match append_row ib cols st1 r with
      | Some (Ok st2) => Z.of_nat (List.length (st_buf st2))
      | _ => 0
      end
  | _ => 0
  end.

(** The state in which [chunk_step] starts the rows of the first chunk of a
    single-file run. *)
Definition chunk_start_state : State :=
  mkState (OneWriter (Writer.init "out.csv" EXCEL_XLSX_MAX_ROWS (known_columns false)))
          ∅ [] 0 [].

(** Extra-temps frames with three and with four used pairs. *)
Definition atemp_row3 : RawRow := mkRow "6B5" "0105020603070000" "" "".
Definition atemp_row4 : RawRow := mkRow "6B5" "0105020603070408" "" "".

(** *** The records of a run, and the two streams of split mode *)

(** The records decoded from a list of rows, in order; a decoder that
    raises makes the whole list fail. *)
Fixpoint rows_records (ib : bool) (cols : list string) (rows : list RawRow)
  : result (list record) :=
  match rows with
  | [] => Ok []
  | r :: rest =>
      match row_records ib cols r with
      | None => rows_records ib cols rest
      | Some res =>
          rs ← res; more ← rows_records ib cols rest; Ok (rs ++ more)
      end
  end.

(** The rows of the log that pass the channel filter. *)
Definition kept_rows (inp : CsvInput) (o : Options) : list RawRow :=
  filter_channel o (chunk_columns (in_header inp)) (in_rows inp).

(** All the records a run decodes. From a file without a header line
    nothing is decoded: the reader fails. *)
Definition decoded_records (inp : CsvInput) (o : Options) : result (list record) :=
  let cols := chunk_columns (in_header inp) in
  match in_header inp with
  | [] => Raise EmptyDataError
  | _ =>
      if bool_decide ("id" ∈ cols) && bool_decide ("data" ∈ cols)
      then rows_records (include_bits o) cols (kept_rows inp o)
      else Ok []
  end.

(** Where split mode sends a record: by its channel tag when the log has a
    channel column ([tagged]), else by its message name. *)
Definition to_can0 (tagged : bool) (rec : record) : bool :=
  if tagged then channel_is "can0" rec else negb (message_in_can1 rec).
Definition to_can1 (tagged : bool) (rec : record) : bool :=
  if tagged then channel_is "can1" rec else message_in_can1 rec.

(** A channel tag that split mode knows. *)
Definition known_tag (s : string) : Prop :=
  PyStr.lower s = "can0" \/ PyStr.lower s = "can1".

(** The data rows found on disk under a list of paths, in order. *)
Definition rows_on_disk (files : fs) (paths : list string) : list rowdata :=
  concat (map (fun p => data_rows (default [] (files !! p))) paths).

(** The two output names never give the same file. *)
Definition disjoint_streams (p1 p2 : string) : Prop :=
  forall i j : nat,
    Writer.part_path (splitext p1).1 (splitext p1).2 (Z.of_nat (S i))
    <> Writer.part_path (splitext p2).1 (splitext p2).2 (Z.of_nat (S j)).

(** A log with a channel column and one frame tagged can2. *)
Definition can2_log : CsvInput :=
  mkInput ["id"; "data"; "channel"] [mkRow "7FF" "0102030405060708" "" "can2"] 2.

(** A log with a channel column, frames tagged can0 and CAN1. *)
Definition tagged_log : CsvInput :=
  mkInput ["id"; "data"; "channel"]
    [mkRow "6B5" "0105020600000000" "" "CAN1"; mkRow "402" "0000803F00000040" "" "can0"] 3.

(** The log has a channel column. *)
Definition log_tagged (inp : CsvInput) : bool :=
  bool_decide ("channel" ∈ chunk_columns (in_header inp)).

(** A record split mode can route: it has a message name, and a channel
    key exactly when the log has a channel column. *)
Definition routable (tagged : bool) (rec : record) : Prop :=
  (exists m, dict_get "message" rec = Some (VStr m)) /\
  has_key "channel" rec = tagged.

(** What holds between two flushes of a split run that has written the
    records [written]: each stream holds the rows of its records. *)
Definition split_inv (b0 e0 b1 e1 : string) (r : Z) (sch : list string)
    (tagged : bool) (written : list record) (ws : writers) (files : fs) : Prop :=
  exists w0 w1 s0 s1,
    ws = TwoWriters w0 w1 /\
    represents b0 e0 r sch w0 files s0 /\ settled s0 /\
    represents b1 e1 r sch w1 files s1 /\ settled s1 /\
    content s0 = map (reindex sch) (List.filter (to_can0 tagged) written) /\
    content s1 = map (reindex sch) (List.filter (to_can1 tagged) written).

(** *** Further specification-side definitions *)

(** The number a string of hex digits denotes. *)
Definition hex_value (s : string) : Z :=
  fold_left (fun acc a => 16 * acc + default 0 (PyStr.hex_digit a)) (PyStr.chars s) 0.

(** The three fields every record starts with. *)
Definition framed (ts : value) (can_id : Z) (m : string) (rec : record) : Prop :=
  dict_get "timestamp" rec = Some ts /\
  dict_get "id_hex" rec = Some (VStr (PyStr.hex can_id)) /\
  dict_get "message" rec = Some (VStr m).

(** The message name of the frames of an id, read off the two dispatch
    tables; RAW for an id no decoder handles. *)
Definition message_name (can_id : Z) : string :=
  if can_id =? OR_SVOLT then "OR_SVOLT"
  else if can_id =? OR_PACK then "OR_PACK"
  else if can_id =? OR_STEMP then "OR_STEMP"
  else if can_id =? OR_FLAGS then "OR_FLAGS"
  else if can_id =? OR_AVOLT then "OR_AVOLT"
  else if can_id =? OR_ATEMP then "OR_ATEMP"
  else if can_id =? THERM_GENERAL then "THERM_GENERAL"
  else if can_id =? THERM_ADDRCLAIM then "THERM_ADDR_CLAIM"
  else if can_id =? MPPT_CAN_ONOFF then "MPPT"
  else if in_range MC_CAN_BASE1 can_id (MC_CAN_BASE1 + 0x20)
  then offset_name MC_OFFSETS "MC" (can_id - MC_CAN_BASE1)
  else if in_range MC_CAN_BASE2 can_id (MC_CAN_BASE2 + 0x20)
  then offset_name MC_OFFSETS "MC" (can_id - MC_CAN_BASE2)
  else if in_range DC_CAN_BASE can_id (DC_CAN_BASE + 0x10)
  then offset_name DC_OFFSETS "DC" (can_id - DC_CAN_BASE)
  else if in_range STW_CAN_BASE can_id (STW_CAN_BASE + 0x10)
  then offset_name STW_OFFSETS "STW" (can_id - STW_CAN_BASE)
  else if in_range BP_CAN_BASE can_id (BP_CAN_BASE + 0x10)
  then offset_name BP_OFFSETS "BP" (can_id - BP_CAN_BASE)
  else if in_range MPPT_CAN_BASE can_id (MPPT_CAN_BASE + 0x20) then "MPPT"
  else "RAW".

(** The ids of the battery bus whose records split mode sends to the
    second stream when it routes by message name. *)
Definition battery_id (can_id : Z) : bool :=
  bool_decide (can_id ∈ [OR_SVOLT; OR_PACK; OR_STEMP; OR_FLAGS; OR_AVOLT; OR_ATEMP;
                         THERM_GENERAL]).

(** The (thermistor id, temperature) pairs of an extra-temps payload that
    give a record: the first always, a later one unless it is (0, 0). *)
Definition kept_pairs (d : list byte) : list (Z * Z) :=
  match d with
  | [t0; v0; t1; v1; t2; v2; t3; v3] =>
      (bval t0, s8 (bval v0))
      :: List.filter (fun p : Z * Z => negb ((p.1 =? 0) && (p.2 =? 0)))
           [(bval t1, s8 (bval v1)); (bval t2, s8 (bval v2)); (bval t3, s8 (bval v3))]
  | _ => []
  end.

(** A data text made of hexadecimal digits and spaces. *)
Definition hex_or_space (s : string) : bool :=
  forallb (fun a => is_hex a || (PyStr.code a =? 32)) (PyStr.chars s).

(** What holds between two flushes of a single-output run that has
    written the records [written]. *)
Definition one_inv (base ext : string) (r : Z) (sch : list string)
    (written : list record) (ws : writers) (files : fs) : Prop :=
  exists w s,
    ws = OneWriter w /\
    represents base ext r sch w files s /\ settled s /\
    content s = map (reindex sch) written.

(** The two output names the decoder tab makes for split mode from the
    name the user gave, its [.csv] suffix removed
    ([can_decoder_tab.py], [_start_decode]):
    [f"{base_str}_can0.csv"] and [f"{base_str}_can1.csv"]. *)
Definition split_output_names (base_str : string) : string * string :=
  (base_str +:+ "_can0.csv", base_str +:+ "_can1.csv").

(** One turn of the scan made by [rfind]. *)
Definition rfind_step (c : ascii) : Z * Z -> ascii -> Z * Z :=
  fun '(i, found) a => (i + 1, if Ascii.eqb a c then i else found).

(** A row the decoders cannot fail on: its data text is made of hex
    digits and spaces and, when it is a BP_VMAX, BP_VMIN or BP_TMAX frame,
    the low float of its payload is finite. *)
Definition sound_row (cols : list string) (r : RawRow) : bool :=
  hex_or_space (default "" (row_get cols r "data"))
  && match parse_can_id (PyStr.strip (default "" (row_get cols r "id"))),
           PyStr.fromhex (normalise_data (default "" (row_get cols r "data"))) with
     | Ok can_id, Some d =>
         negb (bp_rounds_low_float can_id) || PyFloat.is_finite (low_float d)
     | _, _ => true
     end.

(** The part of the engine state that decides what is written. *)
Definition core (st : State) : writers * fs * list record :=
  (st_writers st, st_files st, st_buf st).

(** Two outcomes that agree on what is written and on the result. *)
Definition same_outcome (a b : outcome) : Prop :=
  core a.1 = core b.1 /\ a.2 = b.2.

(* ===================================================================== *)
(** * Properties *)
(* ===================================================================== *)

(** ** Unit checks of the embedding *)

Lemma bind_ok_inv {A B} (m : result A) (k : A -> result B) (b : B) :
  m ≫= k = Ok b -> exists a, m = Ok a /\ k a = Ok b.
Proof. destruct m; simpl; intros H; try discriminate. eauto. Qed.

Example int16_6B4 : PyStr.int16 " 0x6B4 " = Some 0x6B4.
Proof. reflexivity. Qed.

Example int16_plain : PyStr.int16 "18EEFF80" = Some 0x18EEFF80.
Proof. reflexivity. Qed.

Example int16_neg : PyStr.int16 "-1_f" = Some (-31).
Proof. reflexivity. Qed.

Example int16_bad : PyStr.int16 "12G" = None.
Proof. reflexivity. Qed.

Example fromhex_ok : PyStr.fromhex "0aFF" = Some [x0a; xff].
Proof. reflexivity. Qed.

Example fromhex_odd : PyStr.fromhex "0aF" = None.
Proof. reflexivity. Qed.

Example hex_ok : PyStr.hex 0x6B4 = "0x6b4".
Proof. reflexivity. Qed.

Example format_02X_ok : PyStr.format_02X 10 = "0A".
Proof. reflexivity. Qed.

Example dec_ok : PyStr.dec 300000 = "300000".
Proof. reflexivity. Qed.

Example f32_one : PyFloat.of_bits32 0x3F800000 = PyFloat.Num false (2 ^ 23) (-23) 0.
Proof. reflexivity. Qed.

Example f32_inf : PyFloat.of_bits32 0x7F800000 = PyFloat.Inf false.
Proof. reflexivity. Qed.

Example round0_half : PyFloat.round0 (PyFloat.of_bits32 0x40200000) = Ok 2.
Proof. reflexivity. Qed.

Example round0_neg : PyFloat.round0 (PyFloat.of_bits32 0xC0600000) = Ok (-4).
Proof. reflexivity. Qed.

Example round_nd_fixed k :
  0 <= k -> PyFloat.round_nd (PyFloat.scale10 (PyFloat.of_int k) (-4)) 4
            = PyFloat.Num false k 0 (-4).
Proof.
  intros Hk. unfold PyFloat.of_int, PyFloat.scale10, PyFloat.round_nd.
  replace (k <? 0) with false by (symmetry; apply Z.ltb_ge; lia).
  rewrite Z.abs_eq by lia. f_equal.
  unfold PyFloat.round_half_even, PyFloat.numer, PyFloat.denom.
  change (2 ^ Z.max 0 0 * 10 ^ Z.max (0 + -4 + 4) 0) with 1.
  change (2 ^ Z.max (- 0) 0 * 10 ^ Z.max (- (0 + -4 + 4)) 0) with 1.
  rewrite Z.div_1_r, Z.mod_1_r. simpl.
  change (2 ^ Z.max 0 0) with 1. change (10 ^ Z.max (0 + -4 + 4) 0) with 1. lia.
Qed.

Example expand_bits_word_keys :
  map fst (expand_bits_word 5 "stw_pos") =
  ["stw_pos_bit0"; "stw_pos_bit1"; "stw_pos_bit2"; "stw_pos_bit3";
   "stw_pos_bit4"; "stw_pos_bit5"; "stw_pos_bit6"; "stw_pos_bit7";
   "stw_pos_bit8"; "stw_pos_bit9"; "stw_pos_bit10"; "stw_pos_bit11";
   "stw_pos_bit12"; "stw_pos_bit13"; "stw_pos_bit14"; "stw_pos_bit15"].
Proof. reflexivity. Qed.

Example expand_bits_bytes_one :
  expand_bits_bytes [xa5] "b" =
  [("b0", VInt 165); ("b0_hex", VStr "A5");
   ("b0_bit0", VInt 1); ("b0_bit1", VInt 0); ("b0_bit2", VInt 1); ("b0_bit3", VInt 0);
   ("b0_bit4", VInt 0); ("b0_bit5", VInt 1); ("b0_bit6", VInt 0); ("b0_bit7", VInt 1)].
Proof. reflexivity. Qed.

Example flag_keys :
  map flag_key FLAG_BIT_NAMES =
  ["flag0_low_cell_voltage"; "flag0_high_cell_voltage"; "flag0_over_temp";
   "flag0_open_wiring"; "flag0_internal_comm"; "flag0_charge_enable_relay";
   "flag0_discharge_relay"; "flag0_blank"].
Proof. reflexivity. Qed.

(** The pack-summary example of the specification: raw current 1230, raw
    voltage 1305, raw SOC 85, 9 cells. *)
Example decode_or_pack_example :
  decode_or_pack (VStr "t") OR_PACK [xce; x04; x19; x05; x55; x00; x09; x00] =
  Ok [[("timestamp", VStr "t"); ("id_hex", VStr "0x6b1"); ("message", VStr "OR_PACK");
       ("pack_current_A", VFloat (PyFloat.Num false 1230 0 (-1)));
       ("pack_voltage_V", VFloat (PyFloat.Num false 1305 0 (-1)));
       ("state_of_charge_pct", VFloat (PyFloat.Num false 85 (-1) 0));
       ("num_cells", VInt 9)]].
Proof. reflexivity. Qed.

Example decode_or_atemp_example :
  decode_or_atemp (VStr "") OR_ATEMP [x00; x00; x02; xff; x00; x00; x00; x00] =
  Ok [[("timestamp", VStr ""); ("id_hex", VStr "0x6b5"); ("message", VStr "OR_ATEMP");
       ("thermistor_local_id", VInt 0); ("temp_C", VInt 0)];
      [("timestamp", VStr ""); ("id_hex", VStr "0x6b5"); ("message", VStr "OR_ATEMP");
       ("thermistor_local_id", VInt 2); ("temp_C", VInt (-1))]].
Proof. reflexivity. Qed.

Example decode_mc_unknown :
  decode_mc (VStr "") 0x40A [x00; x00; x80; x3f; x00; x00; x00; x40] =
  Ok [[("timestamp", VStr ""); ("id_hex", VStr "0x40a"); ("message", VStr "MC_UNKNOWN_0A");
       ("base_hex", VStr "0x400"); ("offset", VInt 10)]].
Proof. reflexivity. Qed.

Example decode_bp_vmax_example :
  decode_bp (VStr "") 0x581 [x00; x00; x20; x41; x00; x00; x80; x3f] =
  Ok [[("timestamp", VStr ""); ("id_hex", VStr "0x581"); ("message", VStr "BP_VMAX");
       ("offset", VInt 1);
       ("max_cell_voltage_V", VFloat (PyFloat.Num false (2 ^ 23) (-23) 0));
       ("max_cell_id", VInt 10)]].
Proof. reflexivity. Qed.

Example decode_stw_keys :
  (fun r => map (map fst) r) <$>
    match decode_stw (VStr "") 0x541 [x01; x00; x00; x00; x00; x00; x00; x00] with
    | Ok r => Some (map (fun x => drop 35 x) r) | _ => None end
  = Some [["stw_pos_horn"; "stw_pos_ind_l"; "stw_pos_ind_r"; "stw_pos_regen";
           "stw_pos_cruise"]].
Proof. reflexivity. Qed.

Example known_columns_sizes :
  (List.length (known_columns false), List.length (known_columns true)) = (166%nat, 246%nat).
Proof. reflexivity. Qed.

Example splitext_csv : splitext "out/run.1/log.csv" = ("out/run.1/log", ".csv").
Proof. reflexivity. Qed.

Example splitext_hidden : splitext "out/.hidden" = ("out/.hidden", "").
Proof. reflexivity. Qed.

Example part_path_3 : Writer.part_path "log" ".csv" 3 = "log_part3.csv".
Proof. reflexivity. Qed.

(** A file with a header line and no data row gives one empty batch, hence
    one batch call between the start call and the completion call. *)
Example header_only_calls :
  decode_csv_one header_only_log ∅ "out.csv" false None 10 true
  = mkRun (Ok []) ∅ [(0 # 1, "Starting decode"); (0 # 1, "Processed 0 rows");
                      (1 # 1, "Decoding complete")].
Proof. vm_compute. reflexivity. Qed.

(** On a file without a header line the reader raises after the start
    call. *)
Example empty_file_raises :
  decode_csv_one empty_file ∅ "out.csv" false None 10 true
  = mkRun (Raise EmptyDataError) ∅ [(0 # 1, "Starting decode")].
Proof. vm_compute. reflexivity. Qed.

(** A callback that raises on its second call stops the run there: the
    rows of the first batch are on disk, the completion call is not made
    and the exception is the result. *)
Example raising_callback_aborts :
  let run := decode_csv_one small_log ∅ "out.csv" false None 10
               (Some (raising_at 1 (OtherError "RuntimeError"))) in
  run_result run = Raise (OtherError "RuntimeError") /\
  fractions (run_progress run) = [0 # 1; 999 # 1000] /\
  is_Some (run_files run !! "out.csv").
Proof. vm_compute. repeat split. by eexists. Qed.

(** ** Bytes and payloads *)

Lemma bval_range (b : byte) : 0 <= bval b < 256.
Proof.
  unfold bval. pose proof (Byte.to_N_bounded b) as H.
  split; [apply N2Z.is_nonneg|]. apply N.lt_succ_r in H. lia.
Qed.

Lemma bval_inj (b b' : byte) : bval b = bval b' -> b = b'.
Proof.
  unfold bval. intros E%N2Z.inj.
  pose proof (Byte.of_to_N b) as H1. pose proof (Byte.of_to_N b') as H2.
  rewrite E in H1. congruence.
Qed.

(** A payload of exactly eight bytes, spelled out. *)
Lemma payload8 (d : list byte) :
  List.length d = 8%nat ->
  exists b0 b1 b2 b3 b4 b5 b6 b7, d = [b0; b1; b2; b3; b4; b5; b6; b7].
Proof.
  intros H. do 8 (destruct d as [|? d]; [discriminate H|]).
  destruct d; [|discriminate H]. by repeat eexists.
Qed.

Ltac payload d :=
  let H := fresh in
  let b0 := fresh "b0" in let b1 := fresh "b1" in let b2 := fresh "b2" in
  let b3 := fresh "b3" in let b4 := fresh "b4" in let b5 := fresh "b5" in
  let b6 := fresh "b6" in let b7 := fresh "b7" in
  match goal with
  | Hd : List.length d = 8%nat |- _ =>
      destruct (payload8 d Hd) as (b0 & b1 & b2 & b3 & b4 & b5 & b6 & b7 & H);
      subst d
  end.

Lemma land_low_byte (x : Z) : Z.land x 0xFF = x mod 256.
Proof. change 0xFF with (Z.ones 8). by rewrite Z.land_ones. Qed.

(** ** Cell broadcast: the checksum flag *)

Lemma avolt_flag_eq ts d ib :
  List.length d = 8%nat ->
  avolt_checksum_flag ts d ib
  = Some (bval (default x00 (d !! 7%nat)) =? compute_checksum OR_AVOLT d).
Proof. intros Hd. payload d. by destruct ib. Qed.

Lemma compute_checksum_spec id d : compute_checksum id d = spec_checksum id d.
Proof. unfold compute_checksum, spec_checksum, low_byte. apply land_low_byte. Qed.

Lemma sum_bytes_app d1 d2 : sum_bytes (d1 ++ d2) = sum_bytes d1 + sum_bytes d2.
Proof. induction d1 as [|b d1 IH]; simpl; [done|]. rewrite IH. lia. Qed.

(** Changing one of the seven summed bytes changes the checksum. *)
Lemma checksum_flip id (d : list byte) (i : nat) (b b' : byte) :
  (i < 7)%nat -> d !! i = Some b -> b' <> b ->
  compute_checksum id (<[i := b']> d) <> compute_checksum id d.
Proof.
  intros Hi Hb Hne. rewrite !compute_checksum_spec. unfold spec_checksum, low_byte.
  assert (Hlen : (i < List.length d)%nat) by (eapply lookup_lt_Some; eauto).
  rewrite take_insert_lt by lia.
  assert (Hb7 : take 7 d !! i = Some b) by (rewrite lookup_take_lt by lia; done).
  apply list_elem_of_split_length in Hb7 as (l1 & l2 & Hd & Hl1).
  rewrite Hd. subst i. rewrite insert_app_r_alt by lia.
  rewrite Nat.sub_diag. simpl. rewrite !sum_bytes_app. simpl.
  assert (bval b' <> bval b).
  { intros E. by apply Hne, bval_inj. }
  pose proof (bval_range b). pose proof (bval_range b').
  set (A := id + 8 + (sum_bytes l1 + (bval b' + sum_bytes l2))).
  set (B := id + 8 + (sum_bytes l1 + (bval b + sum_bytes l2))).
  intros E.
  pose proof (Z.div_mod A 256). pose proof (Z.div_mod B 256).
  assert (A - B = bval b' - bval b) by (unfold A, B; lia). lia.
Qed.

(** C2: for every 8-byte cell-broadcast payload the decoder returns one
    record, whose [checksum_ok] is true exactly when byte 7 equals
    low_byte(id + 8 + sum of bytes 0..6); a payload with the right checksum
    byte decodes with [checksum_ok = true], and changing any one byte of a
    valid payload (a summed byte or the checksum byte) makes it false. A
    mismatch is a record, not an error. *)
Theorem avolt_checksum_ok_iff (ts : value) (include_bits : bool) (d : list byte) :
  List.length d = 8%nat ->
  (exists rec ok,
      decode_or_avolt ts OR_AVOLT d include_bits = Ok [rec] /\
      dict_get "checksum_ok" rec = Some (VBool ok) /\
      avolt_checksum_flag ts d include_bits = Some ok /\
      (ok = true <->
       exists c, d !! 7%nat = Some c /\ bval c = spec_checksum OR_AVOLT d)) /\
  (forall c, bval c = spec_checksum OR_AVOLT d ->
             avolt_checksum_flag ts (<[7%nat := c]> d) include_bits = Some true) /\
  (forall (i : nat) (b b' : byte),
      d !! i = Some b -> b' <> b ->
      avolt_checksum_flag ts d include_bits = Some true ->
      avolt_checksum_flag ts (<[i := b']> d) include_bits = Some false).
Proof.
  intros Hd. split; [|split].
  - pose proof (avolt_flag_eq ts d include_bits Hd) as Hflag.
    payload d.
    assert (Hiff : (bval b7 =? compute_checksum OR_AVOLT [b0; b1; b2; b3; b4; b5; b6; b7])
                   = true <->
                   exists c, [b0; b1; b2; b3; b4; b5; b6; b7] !! 7%nat = Some c /\
                             bval c = spec_checksum OR_AVOLT [b0; b1; b2; b3; b4; b5; b6; b7]).
    { rewrite Z.eqb_eq, compute_checksum_spec. split.
      + intros E. exists b7. split; [reflexivity|exact E].
      + intros (c & Hc & E). injection Hc as ->. exact E. }
    destruct include_bits;
      (eexists _, _; split; [reflexivity|]; split; [reflexivity|];
       split; [exact Hflag|exact Hiff]).
  - intros c Hc. rewrite avolt_flag_eq by (by rewrite length_insert).
    f_equal. apply Z.eqb_eq. rewrite compute_checksum_spec.
    rewrite list_lookup_insert_eq by lia.
    change (default x00 (Some c)) with c. rewrite Hc.
    unfold spec_checksum. by rewrite take_insert_ge.
  - intros i b b' Hb Hne. rewrite !avolt_flag_eq by (by rewrite ?length_insert).
    intros [= Hok%Z.eqb_eq]. f_equal. apply Z.eqb_neq.
    assert (Hi : (i < 8)%nat) by (rewrite <- Hd; eapply lookup_lt_Some; eauto).
    destruct (decide (i = 7%nat)) as [->|Hi7].
    + assert (compute_checksum OR_AVOLT (<[7%nat := b']> d)
              = compute_checksum OR_AVOLT d) as ->
        by (unfold compute_checksum; by rewrite take_insert_ge).
      rewrite <- Hok, list_lookup_insert_eq, Hb by lia.
      intros E. apply Hne, bval_inj. exact E.
    + assert (d !! 7%nat = <[i := b']> d !! 7%nat) as <-
        by (by rewrite list_lookup_insert_ne).
      rewrite Hok. apply not_eq_sym, checksum_flip with (b := b); [lia|done..].
Qed.

Lemma avolt_checksum_ok_iff_witness :
  List.length [x01; x9c; x40; x00; x64; x9c; x40; xd9] = 8%nat /\
  avolt_checksum_flag (VStr "t") (<[4%nat := x65]> [x01; x9c; x40; x00; x64; x9c; x40; xd9])
                      false = Some false.
Proof.
  split; [reflexivity|].
  refine (proj2 (proj2 (avolt_checksum_ok_iff (VStr "t") false
                          [x01; x9c; x40; x00; x64; x9c; x40; xd9] eq_refl))
                4%nat x64 x65 eq_refl _ _).
  - discriminate.
  - vm_compute. reflexivity.
Defined.

(** ** Decoders on 8-byte payloads *)

Lemma decode_or_svolt_total ts can_id d :
  List.length d = 8%nat -> is_ok (decode_or_svolt ts can_id d) = true.
Proof. intros Hd. by payload d. Qed.

Lemma decode_or_pack_total ts can_id d :
  List.length d = 8%nat -> is_ok (decode_or_pack ts can_id d) = true.
Proof. intros Hd. by payload d. Qed.

Lemma decode_or_stemp_total ts can_id d :
  List.length d = 8%nat -> is_ok (decode_or_stemp ts can_id d) = true.
Proof. intros Hd. by payload d. Qed.

Lemma decode_or_flags_total ts can_id d :
  List.length d = 8%nat -> is_ok (decode_or_flags ts can_id d) = true.
Proof. intros Hd. by payload d. Qed.

Lemma decode_or_avolt_total ts can_id d ib :
  List.length d = 8%nat -> is_ok (decode_or_avolt ts can_id d ib) = true.
Proof. intros Hd. by payload d. Qed.

Lemma atemp_pair_ok ts can_id d i :
  (i + 1 < List.length d)%nat ->
  exists rs, atemp_pair ts can_id d i = Ok rs /\ (List.length rs <= 1)%nat /\
             (i = 0%nat -> List.length rs = 1%nat).
Proof.
  intros Hi. unfold atemp_pair, byte_at.
  destruct (lookup_lt_is_Some_2 d i) as [x ->]; [lia|].
  destruct (lookup_lt_is_Some_2 d (i + 1)) as [y ->]; [lia|].
  cbn [mbind result_bind Py.bind].
  destruct ((bval x =? 0) && (s8 (bval y) =? 0) && (0 <? i)%nat) eqn:E.
  - eexists; split; [reflexivity|]. split; [simpl; lia|].
    intros ->. by rewrite andb_false_r in E.
  - eexists; split; [reflexivity|]. simpl. split; [lia|done].
Qed.

(** The extra-temps frame gives one to four records. *)
Lemma decode_or_atemp_count ts can_id d :
  List.length d = 8%nat ->
  exists rs, decode_or_atemp ts can_id d = Ok rs /\
             (1 <= List.length rs <= 4)%nat.
Proof.
  intros Hd. unfold decode_or_atemp.
  destruct (atemp_pair_ok ts can_id d 0) as (r0 & -> & H0 & H0'); [lia|].
  destruct (atemp_pair_ok ts can_id d 2) as (r2 & -> & H2 & _); [lia|].
  destruct (atemp_pair_ok ts can_id d 4) as (r4 & -> & H4 & _); [lia|].
  destruct (atemp_pair_ok ts can_id d 6) as (r6 & -> & H6 & _); [lia|].
  eexists; split; [reflexivity|]. rewrite !length_app. specialize (H0' eq_refl). lia.
Qed.

Lemma decode_or_atemp_total ts can_id d :
  List.length d = 8%nat -> is_ok (decode_or_atemp ts can_id d) = true.
Proof. intros Hd. by destruct (decode_or_atemp_count ts can_id d Hd) as (rs & -> & _). Qed.

Lemma decode_therm_general_total ts can_id d :
  List.length d = 8%nat -> is_ok (decode_therm_general ts can_id d) = true.
Proof. intros Hd. by payload d. Qed.

Lemma decode_therm_addrclaim_total ts can_id d :
  List.length d = 8%nat -> is_ok (decode_therm_addrclaim ts can_id d) = true.
Proof. intros Hd. by payload d. Qed.

Lemma decode_mc_total ts can_id d :
  List.length d = 8%nat -> is_ok (decode_mc ts can_id d) = true.
Proof. intros Hd. by payload d. Qed.

Lemma decode_dc_total ts can_id d :
  List.length d = 8%nat -> is_ok (decode_dc ts can_id d) = true.
Proof.
  intros Hd. payload d. unfold decode_dc.
  repeat (match goal with |- context [if ?c then _ else _] => destruct c end;
          try reflexivity).
Qed.

Lemma decode_stw_total ts can_id d :
  List.length d = 8%nat -> is_ok (decode_stw ts can_id d) = true.
Proof.
  intros Hd. payload d. unfold decode_stw.
  destruct (offset_name STW_OFFSETS "STW" (can_id - STW_CAN_BASE) =? "STW_SWITCH")%string
    eqn:E; reflexivity.
Qed.

Lemma decode_mppt_total ts can_id d :
  List.length d = 8%nat -> is_ok (decode_mppt ts can_id d) = true.
Proof.
  intros Hd. payload d. unfold decode_mppt.
  cbn [split_words_le byte_at lookup list_lookup mbind result_bind Py.bind].
  by destruct (can_id =? MPPT_CAN_ONOFF).
Qed.

Lemma round0_ok_iff x : is_ok (PyFloat.round0 x) = PyFloat.is_finite x.
Proof. by destruct x. Qed.

(** The battery-protection decoder returns normally exactly when it does
    not have to round a non-finite low float. *)
Lemma decode_bp_ok_iff ts can_id d :
  List.length d = 8%nat ->
  is_ok (decode_bp ts can_id d)
  = negb (bp_rounds_low_float can_id && negb (PyFloat.is_finite (low_float d))).
Proof.
  intros Hd. payload d. unfold decode_bp, bp_rounds_low_float, low_float, int_round.
  set (name := offset_name BP_OFFSETS "BP" (can_id - BP_CAN_BASE)).
  cbn [floats_le mbind result_bind Py.bind].
  set (lo := PyFloat.of_bits32 (u32_le (bval b0) (bval b1) (bval b2) (bval b3))).
  clearbody lo name.
  destruct (name =? "BP_VMAX")%string; [by destruct lo|].
  destruct (name =? "BP_VMIN")%string; [by destruct lo|].
  destruct (name =? "BP_TMAX")%string; [by destruct lo|].
  repeat (match goal with |- context [if ?c then _ else _] => destruct c end;
          try reflexivity).
Qed.

(** C4 (the code departs from the claim): on the battery-protection id
    0x581 a payload whose low float is +inf makes [decode_bp] raise
    OverflowError, a not-a-number makes it raise ValueError, and a log
    holding such a frame aborts the streaming run. *)
Theorem decode_bp_raises_on_nonfinite :
  decode_bp (VStr "12.5") 0x581 [x00; x00; x80; x7f; x00; x00; x00; x00]
    = Raise OverflowError /\
  decode_bp (VStr "12.5") 0x581 [x00; x00; xc0; x7f; x00; x00; x00; x00]
    = Raise ValueError /\
  run_result (decode_csv_one bp_inf_log ∅ "out.csv" false None EXCEL_XLSX_MAX_ROWS false)
    = Raise OverflowError.
Proof. split; [|split]; vm_compute; reflexivity. Qed.

(** ** Dictionaries *)

Lemma dict_get_set k k' v r :
  dict_get k (dict_set k' v r) = if (k =? k')%string then Some v else dict_get k r.
Proof.
  induction r as [|[k0 v0] r IH]; simpl.
  - done.
  - destruct (k' =? k0)%string eqn:E0; simpl.
    + apply String.eqb_eq in E0 as ->. by destruct (k =? k0)%string.
    + rewrite IH. destruct (k =? k0)%string eqn:E1; [|done].
      apply String.eqb_eq in E1 as ->. by rewrite String.eqb_sym, E0.
Qed.

Lemma dict_get_set_eq k v r : dict_get k (dict_set k v r) = Some v.
Proof. by rewrite dict_get_set, String.eqb_refl. Qed.

Lemma dict_get_set_ne k k' v r :
  k <> k' -> dict_get k (dict_set k' v r) = dict_get k r.
Proof. intros H. rewrite dict_get_set. by apply String.eqb_neq in H as ->. Qed.

Lemma dict_get_update_notin k r other :
  k ∉ keys other -> dict_get k (dict_update r other) = dict_get k r.
Proof.
  unfold dict_update. revert r.
  induction other as [|[k0 v0] other IH]; intros r Hk; simpl; [done|].
  rewrite IH by (intros ?; apply Hk; by right).
  apply dict_get_set_ne. intros ->. apply Hk. by left.
Qed.

Lemma dict_get_None k r : dict_get k r = None <-> k ∉ keys r.
Proof.
  induction r as [|[k0 v0] r IH]; simpl.
  - split; [intros _ H; inversion H|done].
  - destruct (k =? k0)%string eqn:E.
    + apply String.eqb_eq in E as ->. split; [done|]. intros H. destruct H. by left.
    + apply String.eqb_neq in E. rewrite IH. unfold keys. simpl.
      rewrite not_elem_of_cons. tauto.
Qed.

Lemma keys_dict_set k v r x : x ∈ keys (dict_set k v r) -> x = k \/ x ∈ keys r.
Proof.
  intros H. destruct (decide (x = k)) as [|Hne]; [by left|right].
  apply dec_stable. intros Hn. apply dict_get_None in Hn.
  rewrite <- (dict_get_set_ne x k v r Hne) in Hn. by apply dict_get_None in Hn.
Qed.

Lemma keys_dict_update r other x :
  x ∈ keys (dict_update r other) -> x ∈ keys r \/ x ∈ keys other.
Proof.
  unfold dict_update. revert r.
  induction other as [|[k0 v0] other IH]; intros r H; simpl in *; [by left|].
  apply IH in H as [H|H].
  - apply keys_dict_set in H as [->|H]; [right; by left|by left].
  - right. by right.
Qed.

Lemma keys_dict_of kvs x : x ∈ keys (dict_of kvs) -> x ∈ map fst kvs.
Proof.
  intros H. apply keys_dict_update in H as [H|H]; [inversion H|done].
Qed.

(** Every key of the raw-bit expansion starts with the letter b. *)
Lemma expand_bits_bytes_keys d k :
  k ∈ keys (expand_bits_bytes d "b") -> exists s, k = String "b" s.
Proof.
  intros H. apply keys_dict_of in H.
  apply list_elem_of_fmap in H as ([k' v] & -> & H).
  apply list_elem_of_In, in_concat in H as (kvs & Hkvs & H).
  apply list_elem_of_In in Hkvs, H.
  apply elem_of_lookup_imap in Hkvs as (i & b & -> & _).
  unfold expand_bits_byte in H.
  apply elem_of_cons in H as [H|H]; [injection H as -> _; by eexists|].
  apply elem_of_cons in H as [H|H]; [injection H as -> _; by eexists|].
  apply list_elem_of_fmap in H as (bit & H & _). injection H as -> _. by eexists.
Qed.

Lemma finish_record_get ib chan data_b rr k :
  k <> "channel" -> (forall s, k <> String "b" s) ->
  dict_get k (finish_record ib chan data_b rr) = dict_get k rr.
Proof.
  intros Hc Hb. unfold finish_record.
  assert (dict_get k (if ib then dict_update rr (expand_bits_bytes data_b "b") else rr)
          = dict_get k rr) as Hbits.
  { destruct ib; [|done]. apply dict_get_update_notin.
    intros (s & ->)%expand_bits_bytes_keys. by eapply Hb. }
  destruct chan; [|done]. by rewrite dict_get_set_ne.
Qed.

Lemma finish_record_channel ib chan data_b rr :
  (dict_get "channel" rr = None) ->
  dict_get "channel" (finish_record ib chan data_b rr) = VStr <$> chan.
Proof.
  intros Hrr. unfold finish_record. destruct chan; simpl.
  - apply dict_get_set_eq.
  - destruct ib; [|done]. rewrite dict_get_update_notin; [done|].
    intros (s & [=])%expand_bits_bytes_keys.
Qed.

(** ** Hexadecimal text *)

Lemma chars_str l : PyStr.chars (PyStr.str l) = l.
Proof. apply list_ascii_of_string_of_list_ascii. Qed.

Lemma str_chars s : PyStr.str (PyStr.chars s) = s.
Proof. apply string_of_list_ascii_of_string. Qed.

Lemma hex_digit_facts a v :
  PyStr.hex_digit a = Some v ->
  0 <= v < 16 /\ PyStr.is_space a = false /\ PyStr.is_c_space a = false /\
  (PyStr.code a =? 32) = false.
Proof.
  unfold PyStr.hex_digit, PyStr.is_space, PyStr.is_c_space.
  generalize (PyStr.code a). intros c H.
  repeat match type of H with
         | context [if ?b then _ else _] => destruct b eqn:?
         end; simplify_eq; lia.
Qed.

Lemma is_hex_not_space a : is_hex a = true -> PyStr.is_space a = false.
Proof.
  unfold is_hex. destruct (PyStr.hex_digit a) eqn:E; [|done].
  intros _. by apply hex_digit_facts in E as (_ & ? & _).
Qed.

Lemma lstrip_chars_id l :
  forallb (fun a => negb (PyStr.is_space a)) l = true -> PyStr.lstrip_chars l = l.
Proof. destruct l as [|a l]; simpl; [done|]. by destruct (PyStr.is_space a). Qed.

Lemma strip_chars_id l :
  forallb (fun a => negb (PyStr.is_space a)) l = true -> PyStr.strip_chars l = l.
Proof.
  intros H. unfold PyStr.strip_chars. rewrite (lstrip_chars_id l H).
  rewrite lstrip_chars_id; [apply rev_involutive|].
  rewrite forallb_forall in *. intros a Ha. apply H. by apply in_rev.
Qed.

Lemma all_hex_no_space l :
  forallb is_hex l = true -> forallb (fun a => negb (PyStr.is_space a)) l = true.
Proof.
  rewrite !forallb_forall. intros H a Ha. by rewrite is_hex_not_space by auto.
Qed.

Lemma strip_hex s : all_hex s = true -> PyStr.strip s = s.
Proof.
  intros H. unfold PyStr.strip.
  rewrite strip_chars_id by (by apply all_hex_no_space). apply str_chars.
Qed.

Lemma remove_spaces_hex s : all_hex s = true -> PyStr.remove_spaces s = s.
Proof.
  intros H. unfold PyStr.remove_spaces. rewrite <- (str_chars s) at 2. f_equal.
  unfold all_hex in H. induction (PyStr.chars s) as [|a l IH]; simpl in *; [done|].
  apply andb_prop in H as [Ha Hl]. unfold is_hex in Ha.
  destruct (PyStr.hex_digit a) eqn:E; [|done].
  apply hex_digit_facts in E as (_ & _ & _ & ->). simpl. by rewrite IH.
Qed.

(** On hexadecimal text the normalisation is: cut to 16, pad with zeros. *)
Lemma normalise_data_hex s :
  all_hex s = true ->
  normalise_data s = PyStr.ljust 16 "0" (PyStr.prefix 16 s).
Proof.
  intros H. unfold normalise_data. by rewrite remove_spaces_hex, strip_hex.
Qed.

Lemma normalised_hex_chars s :
  all_hex s = true ->
  exists l, PyStr.chars (PyStr.ljust 16 "0" (PyStr.prefix 16 s)) = l /\
            List.length l = 16%nat /\ forallb is_hex l = true.
Proof.
  intros H. eexists; split; [reflexivity|].
  unfold PyStr.ljust, PyStr.prefix. rewrite !chars_str. split.
  - rewrite length_app, repeat_length, length_take. lia.
  - rewrite forallb_app. apply andb_true_intro. split.
    + unfold all_hex in H. rewrite forallb_forall in *. intros a Ha.
      apply H. apply list_elem_of_In. eapply subseteq_take, list_elem_of_In, Ha.
    + rewrite forallb_forall. intros a Ha. by apply repeat_spec in Ha as ->.
Qed.

(** An even number of hexadecimal digits always converts. *)
Lemma fromhex_chars_hex n l :
  List.length l = (2 * n)%nat -> forallb is_hex l = true ->
  exists bs, PyStr.fromhex_chars l = Some bs /\ List.length bs = n.
Proof.
  revert l. induction n as [|n IH]; intros l Hlen Hhex.
  - destruct l; [|done]. by exists [].
  - destruct l as [|a [|b l]]; [done|simpl in Hlen; lia|].
    simpl in Hhex. apply andb_prop in Hhex as [Ha Hhex].
    apply andb_prop in Hhex as [Hb Hhex].
    destruct (IH l) as (bs & Hbs & Hn); [simpl in Hlen; lia|done|].
    unfold is_hex in Ha, Hb.
    destruct (PyStr.hex_digit a) as [hi|] eqn:Ea; [|done].
    destruct (PyStr.hex_digit b) as [lo|] eqn:Eb; [|done].
    pose proof (hex_digit_facts a hi Ea) as (Hhi & _ & Hsp & _).
    pose proof (hex_digit_facts b lo Eb) as (Hlo & _).
    cbn [PyStr.fromhex_chars]. rewrite Hsp, Ea, Eb, Hbs.
    destruct (Byte.of_N (Z.to_N (16 * hi + lo))) as [x|] eqn:Ex.
    + exists (x :: bs). split; [done|]. simpl. by rewrite Hn.
    + apply Byte.of_N_None_iff in Ex. lia.
Qed.

Lemma fromhex_normalised_hex s :
  all_hex s = true ->
  exists d, PyStr.fromhex (normalise_data s) = Some d /\ List.length d = 8%nat.
Proof.
  intros H. rewrite normalise_data_hex by done.
  destruct (normalised_hex_chars s H) as (l & Hl & Hlen & Hhex).
  unfold PyStr.fromhex. rewrite Hl. by apply fromhex_chars_hex.
Qed.

(** ** Dispatch of unknown ids *)

Lemma dispatch_unknown can_id :
  id_is_known can_id = false ->
  DECODERS_EXACT can_id = None /\ forall ts d, decode_dynamic ts can_id d = None.
Proof.
  unfold id_is_known. cbn [existsb exact_ids family_ranges].
  intros H. repeat (apply orb_false_elim in H as [? H]).
  repeat match goal with
         | H : (_ || _) = false |- _ => apply orb_false_elim in H as [? ?]
         end.
  split.
  - unfold DECODERS_EXACT, OR_SVOLT, OR_PACK, OR_STEMP, OR_FLAGS, OR_AVOLT, OR_ATEMP,
      THERM_GENERAL, THERM_ADDRCLAIM, MPPT_CAN_ONOFF, MPPT_CAN_BASE, OR_CAN_BASE.
    repeat match goal with
           | H : (can_id =? ?c) = false |- _ =>
               change (can_id =? c) with (can_id =? c) in H;
               let c' := eval cbv in c in
               change c with c' in H; revert H
           end.
    intros. repeat match goal with
                   | |- context [can_id =? ?c] =>
                       let c' := eval cbv in c in
                       change (can_id =? c) with (can_id =? c');
                       lazymatch goal with
                       | H : (can_id =? c') = false |- _ => rewrite H
                       end
                   end.
    reflexivity.
  - intros ts d. unfold decode_dynamic, in_range, MC_CAN_BASE1, MC_CAN_BASE2,
      DC_CAN_BASE, STW_CAN_BASE, BP_CAN_BASE, MPPT_CAN_BASE.
    repeat match goal with
           | H : (?lo <=? can_id) && (can_id <? ?hi) = false |- _ =>
               let E := fresh in
               assert ((lo <=? can_id) && (can_id <? hi) = false) as E by exact H;
               clear H;
               match goal with
               | |- context [(lo <=? can_id) && (can_id <? ?hi')] =>
                   change ((lo <=? can_id) && (can_id <? hi'))
                     with ((lo <=? can_id) && (can_id <? hi)); rewrite E
               end
           end.
    reflexivity.
Qed.

Lemma parse_can_id_nonempty sid can_id :
  parse_can_id sid = Ok can_id -> (sid =? "")%string = false.
Proof. intros H. destruct sid; [discriminate H|done]. Qed.

(** An unknown id with a payload that converts gives one RAW record with
    the normalised text. *)
Lemma unknown_id_raw_general ib cols r can_id data_b :
  "id" ∈ cols -> "data" ∈ cols ->
  parse_can_id (PyStr.strip (r_id r)) = Ok can_id ->
  id_is_known can_id = false ->
  PyStr.fromhex (normalise_data (r_data r)) = Some data_b ->
  exists rec,
    row_records ib cols r = Some (Ok [rec]) /\
    dict_get "message" rec = Some (VStr "RAW") /\
    dict_get "raw_data" rec = Some (VStr (normalise_data (r_data r))).
Proof.
  intros Hid Hdata Hparse Hunk Hhex.
  destruct (dispatch_unknown can_id Hunk) as [Hex Hdyn].
  unfold row_records, row_get.
  rewrite !bool_decide_eq_true_2 by done.
  cbn [default from_option cell String.eqb Ascii.eqb Bool.eqb id].
  rewrite (parse_can_id_nonempty _ _ Hparse), Hparse, Hhex, Hex, Hdyn.
  eexists; split; [reflexivity|].
  split; (rewrite finish_record_get; [reflexivity|done|done]).
Qed.

(** ** What the decoders return *)

Ltac split_bytes H :=
  repeat (apply bind_ok_inv in H as (? & _ & H); cbv beta zeta in H).

Ltac split_ifs H :=
  repeat match type of H with
         | context [if ?c then _ else _] => destruct c
         end.

Ltac decoded_by_eval :=
  match goal with
  | H : Ok _ = Ok _ |- _ =>
      injection H as <-;
      split; [repeat constructor; by eexists | simpl; lia]
  end.

Lemma decode_or_svolt_decoded ts can_id d rs :
  decode_or_svolt ts can_id d = Ok rs -> decoded rs.
Proof. unfold decode_or_svolt. intros H. split_bytes H. decoded_by_eval. Qed.

Lemma decode_or_pack_decoded ts can_id d rs :
  decode_or_pack ts can_id d = Ok rs -> decoded rs.
Proof. unfold decode_or_pack. intros H. split_bytes H. decoded_by_eval. Qed.

Lemma decode_or_stemp_decoded ts can_id d rs :
  decode_or_stemp ts can_id d = Ok rs -> decoded rs.
Proof. unfold decode_or_stemp. intros H. split_bytes H. decoded_by_eval. Qed.

Lemma decode_or_flags_decoded ts can_id d rs :
  decode_or_flags ts can_id d = Ok rs -> decoded rs.
Proof. unfold decode_or_flags. intros H. split_bytes H. decoded_by_eval. Qed.

Lemma decode_or_avolt_decoded ts can_id d ib rs :
  decode_or_avolt ts can_id d ib = Ok rs -> decoded rs.
Proof.
  unfold decode_or_avolt. intros H. split_bytes H. injection H as <-.
  split; [|simpl; lia]. repeat constructor.
  - destruct ib; [|reflexivity]. rewrite dict_get_update_notin; [reflexivity|].
    intros (s & [=])%expand_bits_bytes_keys.
  - destruct ib; [|by eexists]. rewrite dict_get_update_notin; [by eexists|].
    intros (s & [=])%expand_bits_bytes_keys.
Qed.

Lemma atemp_pair_decoded ts can_id d i rs :
  atemp_pair ts can_id d i = Ok rs ->
  Forall plain_record rs /\ (List.length rs <= 1)%nat.
Proof.
  unfold atemp_pair. intros H. split_bytes H.
  split_ifs H; injection H as <-; (split; [repeat constructor; by eexists|simpl; lia]).
Qed.

Lemma decode_or_atemp_decoded ts can_id d rs :
  decode_or_atemp ts can_id d = Ok rs -> decoded rs.
Proof.
  unfold decode_or_atemp. intros H.
  apply bind_ok_inv in H as (r0 & [P0 L0]%atemp_pair_decoded & H).
  apply bind_ok_inv in H as (r2 & [P2 L2]%atemp_pair_decoded & H).
  apply bind_ok_inv in H as (r4 & [P4 L4]%atemp_pair_decoded & H).
  apply bind_ok_inv in H as (r6 & [P6 L6]%atemp_pair_decoded & H).
  injection H as <-. split; [by rewrite !Forall_app|]. rewrite !length_app. lia.
Qed.

Lemma decode_therm_general_decoded ts can_id d rs :
  decode_therm_general ts can_id d = Ok rs -> decoded rs.
Proof. unfold decode_therm_general. intros H. split_bytes H. decoded_by_eval. Qed.

Lemma decode_therm_addrclaim_decoded ts can_id d rs :
  decode_therm_addrclaim ts can_id d = Ok rs -> decoded rs.
Proof. unfold decode_therm_addrclaim. intros H. split_bytes H. decoded_by_eval. Qed.

Ltac split_floats H :=
  apply bind_ok_inv in H as ([?f_hi ?f_lo] & _ & H); cbv beta iota zeta in H.

Lemma decode_mc_decoded ts can_id d rs :
  decode_mc ts can_id d = Ok rs -> decoded rs.
Proof.
  unfold decode_mc. intros H. split_floats H.
  generalize dependent (offset_name MC_OFFSETS "MC").
  intros name H. split_ifs H; decoded_by_eval.
Qed.

Ltac split_words H :=
  apply bind_ok_inv in H as ([[[?w0 ?w1] ?w2] ?w3] & _ & H); cbv beta iota zeta in H.

Lemma decode_dc_decoded ts can_id d rs :
  decode_dc ts can_id d = Ok rs -> decoded rs.
Proof.
  unfold decode_dc. generalize (offset_name DC_OFFSETS "DC" (can_id - DC_CAN_BASE)).
  intros name H.
  destruct (name =? "DC_DRIVE")%string; [split_floats H; decoded_by_eval|].
  destruct (name =? "DC_POWER")%string; [split_floats H; decoded_by_eval|].
  destruct (name =? "DC_SWITCH")%string; [split_words H; decoded_by_eval|].
  decoded_by_eval.
Qed.

Lemma decode_stw_decoded ts can_id d rs :
  decode_stw ts can_id d = Ok rs -> decoded rs.
Proof.
  unfold decode_stw. generalize (offset_name STW_OFFSETS "STW" (can_id - STW_CAN_BASE)).
  intros name H. split_words H. split_ifs H; decoded_by_eval.
Qed.

Lemma decode_bp_decoded ts can_id d rs :
  decode_bp ts can_id d = Ok rs -> decoded rs.
Proof.
  unfold decode_bp, int_round.
  generalize (offset_name BP_OFFSETS "BP" (can_id - BP_CAN_BASE)).
  intros name H. split_floats H.
  split_ifs H;
    try (apply bind_ok_inv in H as (? & _ & H); cbv beta in H);
    decoded_by_eval.
Qed.

Lemma decode_mppt_decoded ts can_id d rs :
  decode_mppt ts can_id d = Ok rs -> decoded rs.
Proof.
  unfold decode_mppt. intros H. split_words H.
  destruct (can_id =? MPPT_CAN_ONOFF); [split_bytes H|]; decoded_by_eval.
Qed.

Lemma decoders_exact_decoded can_id dec ts d rs :
  DECODERS_EXACT can_id = Some dec -> dec ts can_id d = Ok rs -> decoded rs.
Proof.
  unfold DECODERS_EXACT. intros Hdec.
  destruct (can_id =? OR_SVOLT); [injection Hdec as <-; apply decode_or_svolt_decoded|].
  destruct (can_id =? OR_PACK); [injection Hdec as <-; apply decode_or_pack_decoded|].
  destruct (can_id =? OR_STEMP); [injection Hdec as <-; apply decode_or_stemp_decoded|].
  destruct (can_id =? OR_FLAGS); [injection Hdec as <-; apply decode_or_flags_decoded|].
  destruct (can_id =? OR_AVOLT); [injection Hdec as <-; apply decode_or_avolt_decoded|].
  destruct (can_id =? OR_ATEMP); [injection Hdec as <-; apply decode_or_atemp_decoded|].
  destruct (can_id =? THERM_GENERAL);
    [injection Hdec as <-; apply decode_therm_general_decoded|].
  destruct (can_id =? THERM_ADDRCLAIM);
    [injection Hdec as <-; apply decode_therm_addrclaim_decoded|].
  destruct (can_id =? MPPT_CAN_ONOFF); [injection Hdec as <-; apply decode_mppt_decoded|].
  discriminate Hdec.
Qed.

Lemma decode_dynamic_decoded can_id ts d rs :
  decode_dynamic ts can_id d = Some (Ok rs) -> decoded rs.
Proof.
  unfold decode_dynamic. intros Hdec.
  destruct (_ || _); [injection Hdec as Hdec; by apply decode_mc_decoded in Hdec|].
  destruct (in_range DC_CAN_BASE _ _);
    [injection Hdec as Hdec; by apply decode_dc_decoded in Hdec|].
  destruct (in_range STW_CAN_BASE _ _);
    [injection Hdec as Hdec; by apply decode_stw_decoded in Hdec|].
  destruct (in_range BP_CAN_BASE _ _);
    [injection Hdec as Hdec; by apply decode_bp_decoded in Hdec|].
  destruct (in_range MPPT_CAN_BASE _ _);
    [injection Hdec as Hdec; by apply decode_mppt_decoded in Hdec|].
  discriminate Hdec.
Qed.

(** ** Records of a row *)

Lemma decoded_untagged rs : decoded rs -> untagged rs.
Proof. intros [H _]. eapply Forall_impl; [exact H|]. by intros r [? _]. Qed.

(** The records of a row are decoder records (or the RAW record), each
    finished by [finish_record]. *)
Lemma row_records_shape ib cols r rs :
  row_records ib cols r = Some (Ok rs) ->
  exists data_b raw,
    rs = map (finish_record ib (row_get cols r "channel") data_b) raw /\
    decoded raw.
Proof.
  unfold row_records.
  destruct (_ =? "")%string; [done|].
  destruct (parse_can_id _) as [can_id| |]; [|done..].
  destruct (PyStr.fromhex _) as [data_b|]; [|done].
  destruct (DECODERS_EXACT can_id) as [dec|] eqn:Hdec.
  - intros [= H]. apply bind_ok_inv in H as (raw & Hraw & [= <-]).
    exists data_b, raw. split; [done|]. by eapply decoders_exact_decoded.
  - destruct (decode_dynamic _ can_id data_b) as [res|] eqn:Hdyn.
    + intros [= H]. apply bind_ok_inv in H as (raw & -> & [= <-]).
      exists data_b, raw. split; [done|]. by eapply decode_dynamic_decoded.
    + intros [= <-]. eexists data_b, [_]. split; [reflexivity|].
      split; [repeat constructor; by eexists|simpl; lia].
Qed.

Lemma row_get_id cols r : "id" ∈ cols -> row_get cols r "id" = Some (r_id r).
Proof. intros H. unfold row_get. by rewrite bool_decide_eq_true_2. Qed.

Lemma row_get_data cols r : "data" ∈ cols -> row_get cols r "data" = Some (r_data r).
Proof. intros H. unfold row_get. by rewrite bool_decide_eq_true_2. Qed.

Lemma row_get_channel_None cols r :
  "channel" ∉ cols -> row_get cols r "channel" = None.
Proof. intros H. unfold row_get. by rewrite bool_decide_eq_false_2. Qed.

Lemma row_get_channel_Some cols r :
  "channel" ∈ cols -> row_get cols r "channel" = Some (r_channel r).
Proof. intros H. unfold row_get. by rewrite bool_decide_eq_true_2. Qed.

(** Without a channel column no record carries a channel key. *)
Lemma row_records_untagged ib cols r rs :
  "channel" ∉ cols -> row_records ib cols r = Some (Ok rs) -> untagged rs.
Proof.
  intros Hc (data_b & raw & -> & Hraw%decoded_untagged)%row_records_shape.
  rewrite row_get_channel_None by done. unfold untagged in *.
  rewrite Forall_fmap. eapply Forall_impl; [exact Hraw|].
  intros rec Hrec. unfold compose. by rewrite finish_record_channel.
Qed.

(** With a channel column every record carries the tag of its row. *)
Lemma row_records_tagged ib cols r rs :
  "channel" ∈ cols -> row_records ib cols r = Some (Ok rs) ->
  Forall (fun rec => dict_get "channel" rec = Some (VStr (r_channel r))) rs.
Proof.
  intros Hc (data_b & raw & -> & Hraw%decoded_untagged)%row_records_shape.
  rewrite row_get_channel_Some by done. unfold untagged in *.
  rewrite Forall_fmap. eapply Forall_impl; [exact Hraw|].
  intros rec Hrec. unfold compose. by rewrite finish_record_channel.
Qed.

(** ** Routing of the thermistor address claim *)

Lemma split_frame_untagged buf :
  untagged buf ->
  split_frame buf = (List.filter (fun r => negb (message_in_can1 r)) buf,
                     List.filter message_in_can1 buf).
Proof.
  intros H. unfold split_frame.
  replace (existsb (has_key "channel") buf) with false; [done|].
  symmetry. apply not_true_is_false. intros (rec & Hin & Hk)%existsb_exists.
  unfold untagged in H. rewrite Forall_forall in H.
  unfold has_key in Hk. by rewrite (H rec) in Hk by (by apply list_elem_of_In).
Qed.

(** C10: without a channel column, a row with the thermistor address-claim
    id 0x18EEFF80 decodes to one record named THERM_ADDR_CLAIM; the
    battery-bus set holds THERM_ADDRCLAIM but not that spelling, so in
    every flushed batch the record goes to the first group (df_c0, the
    vehicle/can0 stream) and not to the battery group (df_c1). *)
Theorem addrclaim_routed_to_can0 (ib : bool) (cols : list string) (r : RawRow)
    (d : list byte) :
  "id" ∈ cols -> "data" ∈ cols -> "channel" ∉ cols ->
  parse_can_id (PyStr.strip (r_id r)) = Ok THERM_ADDRCLAIM ->
  PyStr.fromhex (normalise_data (r_data r)) = Some d ->
  List.length d = 8%nat ->
  exists rec,
    row_records ib cols r = Some (Ok [rec]) /\
    dict_get "message" rec = Some (VStr "THERM_ADDR_CLAIM") /\
    ("THERM_ADDR_CLAIM" ∉ can1_msgs) /\ ("THERM_ADDRCLAIM" ∈ can1_msgs) /\
    forall buf, untagged buf -> rec ∈ buf ->
                (rec ∈ (split_frame buf).1) /\ (rec ∉ (split_frame buf).2).
Proof.
  intros Hid Hdata Hchan Hparse Hhex Hd.
  assert (exists raw,
             decode_therm_addrclaim
               (VStr (default "" (row_get cols r "timestamp"))) THERM_ADDRCLAIM d
             = Ok [raw] /\
             dict_get "message" raw = Some (VStr "THERM_ADDR_CLAIM"))
    as (raw & Hraw & Hmsg).
  { payload d. eexists; split; reflexivity. }
  eexists (finish_record ib None d raw).
  assert (Hm : dict_get "message" (finish_record ib None d raw)
               = Some (VStr "THERM_ADDR_CLAIM"))
    by (by rewrite finish_record_get).
  split; [|split; [exact Hm|split; [|split]]].
  - unfold row_records.
    rewrite (row_get_channel_None cols r Hchan).
    rewrite row_get_id, row_get_data by done.
    cbn [default from_option id].
    rewrite (parse_can_id_nonempty _ _ Hparse), Hparse, Hhex.
    change (DECODERS_EXACT THERM_ADDRCLAIM) with (Some decode_therm_addrclaim).
    cbv beta iota. by rewrite Hraw.
  - unfold can1_msgs. rewrite !not_elem_of_cons. repeat split; try done.
    apply not_elem_of_nil.
  - unfold can1_msgs. do 7 right. by left.
  - intros buf Hbuf Hin. rewrite split_frame_untagged by done. cbn [fst snd].
    assert (Hc1 : message_in_can1 (finish_record ib None d raw) = false)
      by (unfold message_in_can1; by rewrite Hm).
    split.
    + apply list_elem_of_In, filter_In. split; [by apply list_elem_of_In|].
      cbv beta. by rewrite Hc1.
    + intros Hin1%list_elem_of_In%filter_In. destruct Hin1 as [_ Hin1].
      cbv beta in Hin1. by rewrite Hc1 in Hin1.
Qed.

Lemma addrclaim_routed_to_can0_witness :
  exists rec,
    row_records false ["id"; "data"] (mkRow "18EEFF80" "0102030405060708" "" "")
    = Some (Ok [rec]) /\
    dict_get "message" rec = Some (VStr "THERM_ADDR_CLAIM") /\
    ("THERM_ADDR_CLAIM" ∉ can1_msgs) /\ ("THERM_ADDRCLAIM" ∈ can1_msgs) /\
    forall buf, untagged buf -> rec ∈ buf ->
                (rec ∈ (split_frame buf).1) /\ (rec ∉ (split_frame buf).2).
Proof.
  refine (addrclaim_routed_to_can0 false ["id"; "data"]
            (mkRow "18EEFF80" "0102030405060708" "" "")
            [x01; x02; x03; x04; x05; x06; x07; x08] _ _ _ eq_refl eq_refl eq_refl).
  - by left.
  - right. by left.
  - rewrite !not_elem_of_cons. repeat split; try done. apply not_elem_of_nil.
Defined.

(** ** Paths of a stream *)

Lemma chars_app s1 s2 : PyStr.chars (s1 +:+ s2) = PyStr.chars s1 ++ PyStr.chars s2.
Proof. induction s1 as [|a s1 IH]; simpl; [done|]. by rewrite <- IH. Qed.

Lemma chars_inj s1 s2 : PyStr.chars s1 = PyStr.chars s2 -> s1 = s2.
Proof. intros H. by rewrite <- (str_chars s1), <- (str_chars s2), H. Qed.

Lemma string_app_inv_tail s1 s2 t : s1 +:+ t = s2 +:+ t -> s1 = s2.
Proof.
  intros H. apply chars_inj. apply (f_equal PyStr.chars) in H.
  rewrite !chars_app in H. by apply app_inv_tail in H.
Qed.

Lemma part_path_inj base ext (i j : Z) :
  Writer.part_path base ext i = Writer.part_path base ext j -> i = j.
Proof.
  unfold Writer.part_path.
  destruct (Z.eqb_spec i 1) as [->|Hi], (Z.eqb_spec j 1) as [->|Hj]; [done| | |].
  - intros H%String.app_inj. apply (f_equal (fun s => List.length (PyStr.chars s))) in H.
    rewrite !chars_app, !length_app in H. simpl in H. lia.
  - intros H%String.app_inj. apply (f_equal (fun s => List.length (PyStr.chars s))) in H.
    rewrite !chars_app, !length_app in H. simpl in H. lia.
  - intros H%String.app_inj%String.app_inj.
    assert (PyStr.dec i = PyStr.dec j) as Hd.
    { apply string_app_inv_tail with ext. exact H. }
    by apply pretty_Z_inj in Hd.
Qed.

Lemma elem_of_stream_paths base ext k (j : nat) :
  Writer.part_path base ext (Z.of_nat (S j)) ∈ stream_paths base ext k <-> (j < k)%nat.
Proof.
  unfold stream_paths. rewrite list_elem_of_fmap. split.
  - intros (i & Hi%part_path_inj & Hin). apply list_elem_of_In, in_seq in Hin. lia.
  - intros H. exists j. split; [done|]. apply list_elem_of_In, in_seq. lia.
Qed.

Lemma stream_paths_S base ext k :
  stream_paths base ext (S k)
  = stream_paths base ext k ++ [Writer.part_path base ext (Z.of_nat (S k))].
Proof. unfold stream_paths. by rewrite seq_S, map_app. Qed.

Lemma length_stream_paths base ext k : List.length (stream_paths base ext k) = k.
Proof. unfold stream_paths. by rewrite length_map, length_seq. Qed.

(** ** Python slices *)

Lemma py_slice_inner {A} (l : list A) (start t : Z) :
  0 <= start -> 0 <= t -> start + t <= Z.of_nat (List.length l) ->
  py_slice l start (start + t) = take (Z.to_nat t) (drop (Z.to_nat start) l) /\
  List.length (py_slice l start (start + t)) = Z.to_nat t.
Proof.
  intros Hs Ht Hn. unfold py_slice, slice_bound.
  destruct (Z.ltb_spec start 0), (Z.ltb_spec (start + t) 0); try lia.
  rewrite !Z.min_l by lia. replace (start + t - start) with t by lia.
  split; [done|]. rewrite length_take, length_drop. lia.
Qed.

(** ** One turn of the writer's loop *)

Section writer_spec.
Context (base ext : string) (cols : list string) (r : Z) (Hr : 1 <= r).

Local Abbreviation rep := (represents base ext r cols).
Local Abbreviation P := (fun j : nat => Writer.part_path base ext (Z.of_nat (S j))).

Lemma foreign_ne p j : foreign base ext p -> P j <> p.
Proof. intros H E. by apply (H j). Qed.

(** First write of a stream: the first file is created with its header. *)
Lemma write_step_fresh files (df : list rowdata) start :
  0 <= start < Z.of_nat (List.length df) ->
  let t := Z.to_nat (Z.min r (Z.of_nat (List.length df) - start)) in
  let chunk := take t (drop (Z.to_nat start) df) in
  Writer.write_step (mkWriter base ext r cols 1 0 [] false) files df start
  = (mkWriter base ext r cols 1 (Z.of_nat (List.length chunk)) [P 0%nat] true,
     <[P 0%nat := file_lines cols chunk]> files,
     start + Z.of_nat t) /\
  List.length chunk = t /\ (1 <= t)%nat.
Proof.
  intros Hs t chunk.
  destruct (py_slice_inner df start (Z.of_nat t)) as [Hsl Hlen]; [lia..|].
  assert (Ht : Z.min (r - 0) (Z.of_nat (List.length df) - start) = Z.of_nat t)
    by (unfold t; lia).
  unfold Writer.write_step.
  cbn [w_row_limit w_count_in_part w_base w_ext w_columns w_part w_paths
       w_header_written].
  destruct (Z.leb_spec (r - 0) 0) as [|_]; [lia|].
  cbn [w_row_limit w_count_in_part w_base w_ext w_columns w_part w_paths
       w_header_written Writer._path].
  rewrite Ht, Hsl, Nat2Z.id. fold chunk.
  rewrite bool_decide_eq_false_2 by apply not_elem_of_nil.
  split; [|split].
  - reflexivity.
  - unfold chunk. rewrite length_take, length_drop. lia.
  - lia.
Qed.

(** The current file has room: rows are appended to it. *)
Lemma write_step_append files (fulls : list (list rowdata)) (cur : list rowdata) (df : list rowdata) start :
  Z.of_nat (List.length cur) < r ->
  0 <= start < Z.of_nat (List.length df) ->
  let k := List.length fulls in
  let t := Z.to_nat (Z.min (r - Z.of_nat (List.length cur))
                           (Z.of_nat (List.length df) - start)) in
  let chunk := take t (drop (Z.to_nat start) df) in
  Writer.write_step
    (mkWriter base ext r cols (Z.of_nat (S k)) (Z.of_nat (List.length cur))
              (stream_paths base ext (S k)) true) files df start
  = (mkWriter base ext r cols (Z.of_nat (S k))
              (Z.of_nat (List.length cur) + Z.of_nat (List.length chunk))
              (stream_paths base ext (S k)) true,
     <[P k := default [] (files !! P k) ++ map DataLine chunk]> files,
     start + Z.of_nat t) /\
  List.length chunk = t /\ (1 <= t)%nat /\
  Z.of_nat (List.length cur) + Z.of_nat t <= r.
Proof.
  intros Hroom Hs k t chunk.
  destruct (py_slice_inner df start (Z.of_nat t)) as [Hsl Hlen]; [lia..|].
  assert (Ht : Z.min (r - Z.of_nat (List.length cur))
                     (Z.of_nat (List.length df) - start) = Z.of_nat t)
    by (unfold t; lia).
  unfold Writer.write_step.
  cbn [w_row_limit w_count_in_part w_base w_ext w_columns w_part w_paths
       w_header_written].
  destruct (Z.leb_spec (r - Z.of_nat (List.length cur)) 0) as [|_]; [lia|].
  cbn [w_row_limit w_count_in_part w_base w_ext w_columns w_part w_paths
       w_header_written Writer._path].
  rewrite Ht, Hsl, Nat2Z.id. fold chunk.
  rewrite bool_decide_eq_true_2 by (apply elem_of_stream_paths; lia).
  split; [|split; [|split]].
  - reflexivity.
  - unfold chunk. rewrite length_take, length_drop. lia.
  - lia.
  - lia.
Qed.

(** The current file is full: the writer rolls and the next file gets its
    header; no row is consumed in this turn. *)
Lemma write_step_roll files (fulls : list (list rowdata)) (cur : list rowdata) (df : list rowdata) start :
  Z.of_nat (List.length cur) = r ->
  0 <= start < Z.of_nat (List.length df) ->
  let k := List.length fulls in
  Writer.write_step
    (mkWriter base ext r cols (Z.of_nat (S k)) (Z.of_nat (List.length cur))
              (stream_paths base ext (S k)) true) files df start
  = (mkWriter base ext r cols (Z.of_nat (S (S k))) 0
              (stream_paths base ext (S (S k))) true,
     <[P (S k) := file_lines cols []]> files,
     start + 0).
Proof.
  intros Hfull Hs k.
  destruct (py_slice_inner df start 0) as [Hsl Hlen]; [lia..|].
  unfold Writer.write_step.
  cbn [w_row_limit w_count_in_part w_base w_ext w_columns w_part w_paths
       w_header_written].
  destruct (Z.leb_spec (r - Z.of_nat (List.length cur)) 0) as [_|]; [|lia].
  replace (Z.min (r - Z.of_nat (List.length cur)) (Z.of_nat (List.length df) - start))
    with 0 by lia.
  unfold Writer._path, Writer._roll.
  cbn [w_row_limit w_count_in_part w_base w_ext w_columns w_part
       w_paths w_header_written].
  replace (Z.of_nat (S k) + 1) with (Z.of_nat (S (S k))) by lia.
  rewrite Hsl. cbn [take Z.to_nat map app negb].
  change (0 + Z.of_nat (@List.length rowdata [])) with 0.
  rewrite bool_decide_eq_false_2 by (rewrite elem_of_stream_paths; lia).
  rewrite <- stream_paths_S. reflexivity.
Qed.

Lemma represents_frame w files files' s :
  rep w files s ->
  (forall j : nat, (j < List.length (shape_files s))%nat -> files' !! P j = files !! P j) ->
  rep w files' s.
Proof.
  destruct s as [|fulls cur]; [done|]. intros (-> & Hfull & Hcur & Hfiles) Hsame.
  repeat split; try done. intros j f Hj. rewrite Hsame; [by apply Hfiles|].
  apply lookup_lt_Some in Hj. done.
Qed.

(** What one turn does to the stream: it appends the next rows of the
    batch to the current file, or rolls to a new file. *)
Lemma write_step_spec w files s (df : list rowdata) start :
  rep w files s ->
  0 <= start < Z.of_nat (List.length df) ->
  exists w' files' s' (t : nat),
    Writer.write_step w files df start = (w', files', start + Z.of_nat t) /\
    rep w' files' s' /\
    content s' = content s ++ take t (drop (Z.to_nat start) df) /\
    start + Z.of_nat t <= Z.of_nat (List.length df) /\
    ((1 <= t)%nat /\ settled s' \/
     t = 0%nat /\ slack r s = 1%nat /\ slack r s' = 0%nat) /\
    (forall p, foreign base ext p -> files' !! p = files !! p).
Proof.
  intros Hrep Hs. destruct s as [|fulls cur].
  - (* first write *)
    simpl in Hrep. subst w.
    destruct (write_step_fresh files df start Hs) as (Hstep & Hlen & Ht).
    set (t := Z.to_nat (Z.min r (Z.of_nat (List.length df) - start))) in *.
    set (chunk := take t (drop (Z.to_nat start) df)) in *.
    eexists _, _, (Active [] chunk), t. split; [exact Hstep|].
    split; [|split; [|split; [|split]]].
    + split; [reflexivity|]. split; [constructor|]. split; [lia|].
      intros [|j] f Hj; simplify_eq/=; by rewrite ?lookup_insert_eq.
    + reflexivity.
    + lia.
    + left. split; [done|]. simpl. intros E. rewrite E in Hlen. simpl in Hlen. lia.
    + intros p Hp. apply lookup_insert_ne. by apply (foreign_ne p 0%nat).
  - destruct Hrep as (-> & Hfull & Hcur & Hfiles).
    destruct (decide (Z.of_nat (List.length cur) = r)) as [Heq|Hne].
    + (* roll *)
      pose proof (write_step_roll files fulls cur df start Heq Hs) as Hstep.
      eexists _, _, (Active (fulls ++ [cur]) []), 0%nat.
      split; [exact Hstep|]. split; [|split; [|split; [|split]]].
      * split; [rewrite length_app; cbn [List.length]; by rewrite Nat.add_1_r|].
        split; [apply Forall_app; split; [done|by constructor]|].
        split; [simpl; lia|].
        intros j f Hj.
        destruct (decide (j = S (List.length fulls))) as [->|Hj'].
        -- rewrite lookup_app_r in Hj by (rewrite length_app; simpl; lia).
           rewrite length_app, Nat.add_1_r, Nat.sub_diag in Hj. simplify_eq/=.
           by rewrite lookup_insert_eq.
        -- rewrite lookup_insert_ne by (intros E%part_path_inj; lia).
           apply Hfiles. rewrite lookup_app_l in Hj; [done|].
           apply lookup_lt_Some in Hj. rewrite !length_app in *. simpl in *. lia.
      * simpl. rewrite concat_app. simpl. by rewrite !app_nil_r.
      * lia.
      * right. split; [done|]. unfold slack. split.
        -- destruct (Z.eqb_spec (Z.of_nat (List.length cur)) r); [done|lia].
        -- change (Z.of_nat (@List.length rowdata [])) with 0.
           destruct (Z.eqb_spec 0 r); [lia|done].
      * intros p Hp. apply lookup_insert_ne. by apply (foreign_ne p).
    + (* append *)
      destruct (write_step_append files fulls cur df start) as (Hstep & Hlen & Ht & Hroom);
        [lia|done|].
      set (t := Z.to_nat (Z.min (r - Z.of_nat (List.length cur))
                                (Z.of_nat (List.length df) - start))) in *.
      set (chunk := take t (drop (Z.to_nat start) df)) in *.
      eexists _, _, (Active fulls (cur ++ chunk)), t.
      split; [exact Hstep|]. split; [|split; [|split; [|split]]].
      * split; [by rewrite length_app, Nat2Z.inj_add|]. split; [done|].
        split; [rewrite length_app; lia|].
        intros j f Hj.
        destruct (decide (j = List.length fulls)) as [->|Hj'].
        -- rewrite lookup_app_r, Nat.sub_diag in Hj by lia. simplify_eq/=.
           rewrite lookup_insert_eq.
           rewrite (Hfiles (List.length fulls) cur)
             by (by rewrite lookup_app_r, Nat.sub_diag by lia).
           simpl. unfold file_lines. by rewrite map_app.
        -- rewrite lookup_insert_ne by (intros E%part_path_inj; lia).
           apply Hfiles.
           assert (j < List.length fulls)%nat.
           { apply lookup_lt_Some in Hj. rewrite length_app in Hj. simpl in Hj. lia. }
           rewrite lookup_app_l in * by done. done.
      * simpl. by rewrite app_assoc.
      * lia.
      * left. split; [done|]. simpl. intros E%(f_equal (@List.length _)).
        rewrite length_app, Hlen in E. simpl in E. lia.
      * intros p Hp. apply lookup_insert_ne. by apply (foreign_ne p).
Qed.

(** The loop of [write_df] terminates within [2 * rows + 1] turns and
    appends the rest of the batch to the stream. *)
Lemma write_loop_spec (df : list rowdata) fuel w files s start :
  rep w files s ->
  0 <= start <= Z.of_nat (List.length df) ->
  (2 * Z.to_nat (Z.of_nat (List.length df) - start) + slack r s <= fuel)%nat ->
  (start < Z.of_nat (List.length df) \/ settled s) ->
  exists w' files' s',
    Writer.write_loop fuel w files df start = Ok (w', files') /\
    rep w' files' s' /\ settled s' /\
    content s' = content s ++ drop (Z.to_nat start) df /\
    (forall p, foreign base ext p -> files' !! p = files !! p).
Proof.
  revert w files s start.
  induction fuel as [|fuel IH]; intros w files s start Hrep Hs Hfuel Hset.
  - assert (start = Z.of_nat (List.length df)) as -> by lia.
    exists w, files, s. cbn [Writer.write_loop]. rewrite Z.ltb_irrefl.
    split; [done|]. split; [done|]. split; [destruct Hset; [lia|done]|].
    split; [|done]. rewrite drop_ge by lia. by rewrite app_nil_r.
  - cbn [Writer.write_loop].
    destruct (Z.ltb_spec start (Z.of_nat (List.length df))) as [Hlt|Hge].
    + destruct (write_step_spec w files s df start Hrep) as
        (w1 & files1 & s1 & t & Hstep & Hrep1 & Hcont & Hle & Hprog & Hframe); [lia|].
      rewrite Hstep.
      destruct (IH w1 files1 s1 (start + Z.of_nat t) Hrep1) as
        (w' & files' & s' & Hloop & Hrep' & Hset' & Hcont' & Hframe').
      * lia.
      * assert (slack r s1 <= 1)%nat
          by (destruct s1 as [|? c]; simpl; [lia|destruct (_ =? _); lia]).
        destruct Hprog as [[Ht _]|(-> & Hsl & Hsl')]; lia.
      * destruct Hprog as [[_ Hs1]|(-> & _)]; [by right|left; lia].
      * exists w', files', s'. split; [done|]. split; [done|]. split; [done|].
        split; [|intros p Hp; by rewrite Hframe', Hframe].
        rewrite Hcont', Hcont, <- app_assoc. f_equal.
        replace (Z.to_nat (start + Z.of_nat t)) with (Z.to_nat start + t)%nat by lia.
        by rewrite <- drop_drop, take_drop.
    + assert (start = Z.of_nat (List.length df)) as -> by lia.
      exists w, files, s.
      split; [done|]. split; [done|]. split; [destruct Hset; [lia|done]|].
      split; [|done]. rewrite drop_ge by lia. by rewrite app_nil_r.
Qed.

Lemma write_loop_more_fuel (df : list rowdata) fuel fuel' w files start res :
  (fuel <= fuel')%nat ->
  Writer.write_loop fuel w files df start = Ok res ->
  Writer.write_loop fuel' w files df start = Ok res.
Proof.
  revert fuel' w files start.
  induction fuel as [|fuel IH]; intros fuel' w files start Hle; cbn [Writer.write_loop].
  - destruct (start <? _) eqn:E; [done|]. intros <-.
    destruct fuel'; cbn [Writer.write_loop]; by rewrite E.
  - destruct fuel' as [|fuel']; [lia|]. cbn [Writer.write_loop].
    destruct (start <? _); [|done].
    destruct (Writer.write_step w files df start) as [[w1 files1] start1].
    apply IH. lia.
Qed.

(** One call of [write_df]: it returns, and the stream grows by the rows
    of the batch laid out on the schema (nothing for an empty frame). *)
Lemma write_df_spec w files s (df : frame) :
  rep w files s -> settled s ->
  exists w' files' s',
    Writer.write_df w files df = Ok (w', files') /\
    rep w' files' s' /\ settled s' /\
    content s' = content s ++ batch_rows cols [df] /\
    (forall p, foreign base ext p -> files' !! p = files !! p).
Proof.
  intros Hrep Hset. unfold Writer.write_df, Writer.write_df_fuel, batch_rows.
  simpl. rewrite app_nil_r.
  destruct (df_empty df).
  - exists w, files, s. rewrite app_nil_r. by repeat split.
  - assert (Hcols : w_columns w = cols)
      by (destruct s as [|fulls cur];
          [simpl in Hrep; by subst|by destruct Hrep as (-> & _)]).
    rewrite Hcols.
    destruct (write_loop_spec (map (reindex cols) df) (2 * List.length df + 1) w files s 0
                Hrep) as (w' & files' & s' & Hloop & Hrep' & Hset' & Hcont & Hframe).
    + lia.
    + rewrite length_map. destruct s as [|? cur]; simpl; [lia|].
      destruct (Z.of_nat (List.length cur) =? r); lia.
    + by right.
    + by exists w', files', s'.
Qed.
End writer_spec.

(** ** The files of a stream *)

Lemma data_rows_file_lines cols (f : list rowdata) : data_rows (file_lines cols f) = f.
Proof. unfold file_lines, data_rows. simpl. induction f; simpl; congruence. Qed.

Lemma length_concat_full (r : Z) (fulls : list (list rowdata)) :
  Forall (fun f => Z.of_nat (List.length f) = r) fulls ->
  Z.of_nat (List.length (concat fulls)) = r * Z.of_nat (List.length fulls).
Proof.
  induction 1 as [|f fulls Hf _ IH]; simpl; [lia|]. rewrite length_app. lia.
Qed.

Lemma writer_init_fresh out_path r cols :
  represents (splitext out_path).1 (splitext out_path).2 r cols
             (Writer.init out_path r cols) ∅ Fresh /\
  forall files, represents (splitext out_path).1 (splitext out_path).2 r cols
                           (Writer.init out_path r cols) files Fresh.
Proof. unfold Writer.init. by destruct (splitext out_path). Qed.

(** The files on disk are the files of the abstract stream. *)
Lemma represents_stream_files base ext r cols w files s :
  represents base ext r cols w files s ->
  stream_files w files = map (file_lines cols) (shape_files s).
Proof.
  destruct s as [|fulls cur]; simpl.
  - by intros ->.
  - intros (-> & _ & _ & Hfiles). unfold stream_files, stream_paths. cbn [w_paths].
    rewrite map_map. apply list_eq. intros j.
    rewrite !list_lookup_fmap.
    destruct ((fulls ++ [cur]) !! j) as [f|] eqn:Hj.
    + assert (j < S (List.length fulls))%nat.
      { apply lookup_lt_Some in Hj. rewrite length_app in Hj. simpl in Hj. lia. }
      rewrite lookup_seq_lt by lia. simpl. by rewrite (Hfiles j f Hj).
    + apply lookup_ge_None in Hj. rewrite length_app in Hj. simpl in Hj.
      rewrite lookup_seq_ge by lia. done.
Qed.

Section writer_runs.
Context (base ext : string) (cols : list string) (r : Z) (Hr : 1 <= r).

(** Any number of calls of [write_df] return, and the stream holds the
    rows of all the batches, in order. *)
Lemma write_all_spec batches w files s :
  represents base ext r cols w files s -> settled s ->
  exists w' files' s',
    write_all w files batches = Ok (w', files') /\
    represents base ext r cols w' files' s' /\ settled s' /\
    content s' = content s ++ batch_rows cols batches /\
    (forall p, foreign base ext p -> files' !! p = files !! p).
Proof.
  revert w files s. induction batches as [|df batches IH]; intros w files s Hrep Hset.
  - exists w, files, s. unfold batch_rows. simpl. rewrite app_nil_r. by repeat split.
  - destruct (write_df_spec base ext cols r Hr w files s df Hrep Hset)
      as (w1 & files1 & s1 & Hw & Hrep1 & Hset1 & Hcont1 & Hframe1).
    destruct (IH w1 files1 s1 Hrep1 Hset1)
      as (w' & files' & s' & Hall & Hrep' & Hset' & Hcont' & Hframe').
    exists w', files', s'. cbn [write_all]. rewrite Hw. split; [exact Hall|].
    split; [done|]. split; [done|]. split.
    + rewrite Hcont', Hcont1. unfold batch_rows. simpl.
      by rewrite app_nil_r, app_assoc.
    + intros p Hp. by rewrite Hframe', Hframe1.
Qed.

(** What a represented, settled stream looks like on disk. *)
Lemma represents_on_disk w files s :
  represents base ext r cols w files s -> settled s ->
  concat (map data_rows (stream_files w files)) = content s /\
  Forall (fun f => exists rows : list rowdata,
              f = file_lines cols rows /\ 1 <= Z.of_nat (List.length rows) <= r)
         (stream_files w files) /\
  (5 <= r -> Z.of_nat (List.length (content s)) = 2 * r + 5 ->
   row_counts w files = [r; r; 5]).
Proof.
  intros Hrep Hset. unfold row_counts.
  rewrite (represents_stream_files _ _ _ _ _ _ _ Hrep).
  destruct s as [|fulls cur]; simpl.
  - split; [done|]. split; [constructor|]. intros; lia.
  - destruct Hrep as (_ & Hfull & Hcur & _). simpl in Hset.
    assert (1 <= Z.of_nat (List.length cur))
      by (destruct cur; [done|simpl; lia]).
    split; [|split].
    + rewrite map_map.
      rewrite (map_ext _ id) by (intros; apply data_rows_file_lines).
      rewrite map_id, concat_app. simpl. by rewrite app_nil_r.
    + apply Forall_fmap, Forall_app. split.
      * eapply Forall_impl; [exact Hfull|]. intros f Hf. cbv beta in Hf.
        unfold compose. exists f. split; [done|lia].
      * constructor; [|constructor]. unfold compose. exists cur. split; [done|lia].
    + intros H5 Hlen. rewrite length_app, Nat2Z.inj_add in Hlen.
      rewrite (length_concat_full r fulls Hfull) in Hlen.
      assert (List.length fulls = 2%nat /\ Z.of_nat (List.length cur) = 5) as [H2 Hc5].
      { set (k := Z.of_nat (List.length fulls)) in *.
        assert (0 <= k) by (unfold k; lia).
        assert (k = 2) as Hk.
        { destruct (decide (k <= 1)); [nia|]. destruct (decide (3 <= k)); [nia|lia]. }
        rewrite Hk in Hlen. unfold k in Hk. lia. }
      destruct fulls as [|f1 [|f2 [|]]]; try discriminate H2.
      apply Forall_cons in Hfull as [Hf1 Hfull].
      apply Forall_cons in Hfull as [Hf2 _].
      cbn [map app]. rewrite !data_rows_file_lines. by rewrite Hf1, Hf2, Hc5.
Qed.
End writer_runs.

(** With a row limit of zero or less the loop of [write_df] never ends. *)
Lemma write_loop_diverges fuel w files (df : list rowdata) start :
  w_row_limit w <= 0 -> 0 <= w_count_in_part w ->
  start < Z.of_nat (List.length df) ->
  Writer.write_loop fuel w files df start = Diverge.
Proof.
  revert w files start. induction fuel as [|fuel IH]; intros w files start Hr Hc Hs;
    cbn [Writer.write_loop]; destruct (Z.ltb_spec start (Z.of_nat (List.length df)));
    try lia; [done|].
  unfold Writer.write_step.
  destruct (Z.leb_spec (w_row_limit w - w_count_in_part w) 0); [|lia].
  apply IH; cbn [w_row_limit w_count_in_part Writer._roll]; lia.
Qed.

(** C5 as stated fails for a row limit below five: with a limit of one,
    seven (= 2*1 + 5) records give seven files of one row each, not three
    files of 1, 1 and 5 rows. *)
Lemma writer_small_limit_counterexample :
  match Writer.write_df (Writer.init "out.csv" 1 ["timestamp"]) ∅ seven_records with
  | Ok (w, files) => row_counts w files
  | _ => []
  end = [1; 1; 1; 1; 1; 1; 1]
  /\ List.length seven_records = Z.to_nat (2 * 1 + 5).
Proof. split; vm_compute; reflexivity. Qed.

(** C5 (amended): for every row limit [r >= 1], all the batches written
    through one writer are stored: the call returns, the data rows of the
    files of the stream, read in order, are exactly the rows written (none
    lost, none duplicated), every file is the same header followed by at
    most [r] data rows; and when [r >= 5] and [2*r + 5] rows were written,
    there are exactly three files, of [r], [r] and 5 rows. *)
Theorem writer_partitions (out_path : string) (cols : list string) (r : Z)
    (files0 : fs) (batches : list frame) :
  1 <= r ->
  exists w files,
    write_all (Writer.init out_path r cols) files0 batches = Ok (w, files) /\
    concat (map data_rows (stream_files w files)) = batch_rows cols batches /\
    Forall (fun f => exists rows : list rowdata,
                f = file_lines cols rows /\ 1 <= Z.of_nat (List.length rows) <= r)
           (stream_files w files) /\
    (5 <= r -> Z.of_nat (List.length (batch_rows cols batches)) = 2 * r + 5 ->
     row_counts w files = [r; r; 5]).
Proof.
  intros Hr.
  destruct (writer_init_fresh out_path r cols) as [_ Hinit].
  destruct (write_all_spec _ _ cols r Hr batches _ files0 Fresh (Hinit files0) I)
    as (w & files & s & Hall & Hrep & Hset & Hcont & _).
  exists w, files. split; [exact Hall|].
  destruct (represents_on_disk _ _ cols r Hr w files s Hrep Hset) as (Hrows & Hfiles & H3).
  simpl in Hcont. rewrite Hcont in *. by repeat split.
Qed.

Lemma writer_partitions_witness :
  exists w files,
    write_all (Writer.init "out.csv" 5 ["timestamp"]) ∅ [seven_records; seven_records; []; [[("timestamp", VInt 9)]]]
    = Ok (w, files) /\
    row_counts w files = [5; 5; 5].
Proof.
  destruct (writer_partitions "out.csv" ["timestamp"] 5 ∅
              [seven_records; seven_records; []; [[("timestamp", VInt 9)]]])
    as (w & files & Hall & _ & _ & H3); [lia|].
  exists w, files. split; [exact Hall|]. apply H3; [lia|reflexivity].
Defined.

(** ** The engine loops *)

Lemma fold_steps_inv {A} (I : State -> Prop) (step : State -> A -> outcome) :
  (forall st x st' res, I st -> step st x = (st', res) -> I st') ->
  forall l st st' res, I st -> fold_steps step st l = (st', res) -> I st'.
Proof.
  intros Hstep l. induction l as [|x l IH]; intros st st' res HI; cbn [fold_steps].
  - by intros [= <- _].
  - destruct (step st x) as [st1 [[]| |]] eqn:E; [by eauto|..];
      intros [= <- _]; eauto.
Qed.

Lemma fold_steps_app {A} (step : State -> A -> outcome) st l1 l2 :
  fold_steps step st (l1 ++ l2) =
  match fold_steps step st l1 with
  | (st', Ok _) => fold_steps step st' l2
  | failed => failed
  end.
Proof.
  revert st. induction l1 as [|x l1 IH]; intros st; cbn [fold_steps app]; [done|].
  destruct (step st x) as [st1 [[]| |]]; [apply IH|done..].
Qed.

(** Neither the row loop nor a flush calls the progress callback or counts
    rows. *)
Lemma flush_meta st st' res :
  flush st = (st', res) ->
  st_progress st' = st_progress st /\ st_rows_processed st' = st_rows_processed st.
Proof.
  unfold flush. destruct (st_buf st); [by intros [= <- _]|].
  match goal with |- context [match ?w with _ => _ end = _] => destruct w as [[ws fl]| |] end;
    by intros [= <- _].
Qed.

Lemma row_step_meta ib cols st r st' res :
  row_step ib cols st r = (st', res) ->
  st_progress st' = st_progress st /\ st_rows_processed st' = st_rows_processed st.
Proof.
  unfold row_step, append_row.
  destruct (row_records ib cols r) as [[rs| |]|]; cbn [mbind result_bind Py.bind];
    try (by intros [= <- _]).
  destruct (_ <=? _); [|by intros [= <- _]].
  intros H%flush_meta. exact H.
Qed.

Lemma rows_loop_meta ib cols rows st st' res :
  fold_steps (row_step ib cols) st rows = (st', res) ->
  st_progress st' = st_progress st /\ st_rows_processed st' = st_rows_processed st.
Proof.
  apply (fold_steps_inv
           (fun x => st_progress x = st_progress st /\
                     st_rows_processed x = st_rows_processed st)); [|done].
  intros st1 r st2 res' [Hp Hr] [Hp' Hr']%row_step_meta. split; congruence.
Qed.

(** ** Progress reports *)

Lemma fraction_bounds n total :
  0 <= n -> (0 <= fraction n total)%Q /\ (fraction n total <= 999 # 1000)%Q.
Proof.
  intros Hn. unfold fraction. rewrite !Qred_correct.
  destruct (Qle_bool _ _) eqn:E.
  - apply Qle_bool_iff in E. split; [|done]. unfold Qle. simpl. lia.
  - split; [by unfold Qle|apply Qle_refl].
Qed.

Lemma fraction_mono n m total :
  0 <= n <= m -> (fraction n total <= fraction m total)%Q.
Proof.
  intros Hnm. unfold fraction. rewrite !Qred_correct.
  assert (Hle : (n # Z.to_pos total <= m # Z.to_pos total)%Q)
    by (unfold Qle; simpl; nia).
  destruct (Qle_bool (n # _) _) eqn:En, (Qle_bool (m # _) _) eqn:Em.
  - done.
  - by apply Qle_bool_iff.
  - exfalso. apply Qle_bool_iff in Em.
    assert (Qle_bool (n # Z.to_pos total) (999 # 1000) = true) as En'
      by (apply Qle_bool_iff; eapply Qle_trans; eauto).
    congruence.
  - apply Qle_refl.
Qed.

(** The fraction the engine computes is the capped ratio of the
    specification. *)
Lemma fraction_capped total n :
  0 <= total ->
  ((if total =? 0 then 0 # 1 else fraction n total) == capped_ratio total n)%Q.
Proof.
  intros Ht. unfold capped_ratio. destruct (Z.eqb_spec total 0) as [|Hne]; [reflexivity|].
  assert (Hr : (n # Z.to_pos total == inject_Z n / inject_Z total)%Q).
  { destruct total as [|p|p]; [lia| |lia].
    unfold Qdiv, Qinv, Qmult, inject_Z, Qeq. cbn. lia. }
  unfold fraction. rewrite Qred_correct, <- Hr.
  destruct (Qle_bool _ _) eqn:E.
  - apply Qle_bool_iff in E. symmetry. by apply Q.min_l.
  - symmetry. apply Q.min_r, Qlt_le_weak, Qnot_le_lt.
    intros H. apply Qle_bool_iff in H. congruence.
Qed.

Lemma capped_ratio_bounds total n :
  0 <= total -> 0 <= n ->
  (0 <= capped_ratio total n)%Q /\ (capped_ratio total n < 1)%Q.
Proof.
  intros Ht Hn. rewrite <- (fraction_capped total n Ht).
  destruct (total =? 0); [by split|].
  destruct (fraction_bounds n total Hn) as [H0 H1]. split; [done|].
  eapply Qle_lt_trans; [exact H1|]. by unfold Qlt.
Qed.

Lemma capped_ratio_mono total n m :
  0 <= total -> 0 <= n <= m -> (capped_ratio total n <= capped_ratio total m)%Q.
Proof.
  intros Ht Hnm. rewrite <- !(fraction_capped total _ Ht).
  destruct (total =? 0); [apply Qle_refl|]. by apply fraction_mono.
Qed.

Lemma running_totals_sorted acc sizes :
  0 <= acc -> Forall (fun n => 0 <= n) sizes ->
  StronglySorted (fun x y => 0 <= x <= y) (running_totals acc sizes) /\
  Forall (fun x => acc <= x) (running_totals acc sizes).
Proof.
  intros Hacc Hs. revert acc Hacc.
  induction Hs as [|n sizes Hn Hs IH]; intros acc Hacc; cbn [running_totals].
  - split; constructor.
  - destruct (IH (acc + n)) as [Hsorted Hge]; [lia|]. split.
    + constructor; [done|]. eapply Forall_impl; [exact Hge|]. intros x Hx. simpl in *. lia.
    + constructor; [lia|]. eapply Forall_impl; [exact Hge|]. intros x Hx. simpl in *. lia.
Qed.

Lemma running_totals_length acc sizes :
  List.length (running_totals acc sizes) = List.length sizes.
Proof. revert acc. induction sizes as [|n sizes IH]; intros acc; simpl; [done|]. by rewrite IH. Qed.

(** The fractions of the batch calls are non-negative, below 1 and
    non-decreasing. *)
Lemma capped_totals_sorted total sizes :
  0 <= total -> Forall (fun n => 0 <= n) sizes ->
  StronglySorted Qle (map (capped_ratio total) (running_totals 0 sizes)) /\
  Forall (fun f => (0 <= f)%Q /\ (f < 1)%Q)
         (map (capped_ratio total) (running_totals 0 sizes)).
Proof.
  intros Ht Hs. destruct (running_totals_sorted 0 sizes (Z.le_refl 0) Hs) as [Hsorted Hge].
  split.
  - apply (StronglySorted_fmap _ (fun x y => 0 <= x <= y) Qle); [|done].
    intros; by apply capped_ratio_mono.
  - apply Forall_fmap. eapply Forall_impl; [exact Hge|].
    intros n Hn. by apply capped_ratio_bounds.
Qed.

Lemma sorted_Qeq l l' :
  Forall2 Qeq l l' -> StronglySorted Qle l' -> StronglySorted Qle l.
Proof.
  induction 1 as [|x y l l' Hxy Hl IH]; [done|].
  intros [Hs Hall]%StronglySorted_inv. constructor; [by apply IH|].
  clear IH Hs. induction Hl as [|a b l l' Hab Hl IH]; [done|].
  apply Forall_cons in Hall as [Hyb Hall]. constructor; [|by apply IH].
  by rewrite Hxy, Hab.
Qed.

(** What a batch adds to the calls: nothing when the batch fails, else
    one call whose fraction is the capped ratio at the rows processed so
    far. *)
Lemma chunk_step_calls o cb cols total st chunk st' res :
  progress_cb o = Some cb -> "id" ∈ cols -> "data" ∈ cols -> 0 <= total ->
  chunk_step o cols total st chunk = (st', res) ->
  (res <> Ok () /\ st_progress st' = st_progress st) \/
  (exists ev,
      st_progress st' = st_progress st ++ [ev] /\
      (ev.1 == capped_ratio total
                 (st_rows_processed st
                  + Z.of_nat (List.length (filter_channel o cols chunk))))%Q /\
      st_rows_processed st'
      = st_rows_processed st + Z.of_nat (List.length (filter_channel o cols chunk))).
Proof.
  intros Hcb Hid Hdata Ht. unfold chunk_step.
  rewrite !bool_decide_eq_true_2 by done. cbn [negb orb].
  destruct (fold_steps _ _ _) as [st1 res1] eqn:Hrows.
  apply rows_loop_meta in Hrows as [Hp1 Hr1]. cbn [clear_buf st_progress st_rows_processed] in Hp1, Hr1.
  destruct res1 as [[]| |]; [|intros [= <- <-]; by left..].
  destruct (flush st1) as [st2 res2] eqn:Hflush.
  apply flush_meta in Hflush as [Hp2 Hr2].
  destruct res2 as [[]| |]; [|intros [= <- <-]; left; split; [done|congruence]..].
  unfold report, call_progress. rewrite Hcb.
  cbn [add_processed st_progress st_rows_processed st_writers st_files st_buf].
  intros [= <- _]. right. eexists. cbn [st_progress st_rows_processed].
  rewrite Hp2, Hp1, Hr2, Hr1. split; [reflexivity|]. split; [|done].
  cbn [fst]. rewrite <- (fraction_capped total _ Ht). by destruct (total =? 0).
Qed.

Lemma chunks_calls o cb cols total chunks st st' res :
  progress_cb o = Some cb -> "id" ∈ cols -> "data" ∈ cols -> 0 <= total ->
  fold_steps (chunk_step o cols total) st chunks = (st', res) ->
  exists (k : nat) (evs : list event),
    st_progress st' = st_progress st ++ evs /\
    Forall2 Qeq (fractions evs)
      (take k (map (capped_ratio total)
                 (running_totals (st_rows_processed st)
                    (map (fun c => Z.of_nat (List.length (filter_channel o cols c)))
                         chunks)))) /\
    (res = Ok () -> k = List.length chunks).
Proof.
  intros Hcb Hid Hdata Ht. revert st.
  induction chunks as [|c chunks IH]; intros st; cbn [fold_steps].
  - intros [= <- <-]. exists 0%nat, []. rewrite app_nil_r. by repeat split.
  - destruct (chunk_step o cols total st c) as [st1 res1] eqn:Hstep.
    destruct (chunk_step_calls o cb cols total st c st1 res1 Hcb Hid Hdata Ht Hstep)
      as [[Hres Hp]|(ev & Hp & Hev & Hr)].
    + destruct res1 as [[]| |]; [done|intros [= <- <-]..];
        exists 0%nat, []; rewrite app_nil_r; by repeat split.
    + cbn [map running_totals].
      destruct res1 as [[]| |].
      * intros Hfold. destruct (IH st1 Hfold) as (k & evs & Hp' & Hfr & Hk).
        exists (S k), (ev :: evs). rewrite Hp', Hp, <- app_assoc. split; [done|].
        split; [|by intros ->%Hk].
        cbn [take fractions map]. constructor; [done|]. by rewrite <- Hr.
      * intros [= <- <-]. exists 1%nat, [ev]. split; [done|]. split; [|done].
        cbn [take fractions map]. by repeat constructor.
      * intros [= <- <-]. exists 1%nat, [ev]. split; [done|]. split; [|done].
        cbn [take fractions map]. by repeat constructor.
Qed.

(** ** Missing id or data column *)

Lemma chunk_columns_has label header :
  label ∈ need -> (label ∈ chunk_columns header <-> label ∈ map norm_label header).
Proof.
  intros Hneed. unfold chunk_columns.
  rewrite !list_elem_of_In, filter_In, bool_decide_eq_true. tauto.
Qed.

Lemma chunks_skipped o cols total chunks st :
  "id" ∉ cols \/ "data" ∉ cols ->
  exists n, fold_steps (chunk_step o cols total) st chunks = (add_processed n st, Ok ()).
Proof.
  intros Hmiss. revert st. induction chunks as [|c chunks IH]; intros st.
  - exists 0. cbn [fold_steps]. destruct st. unfold add_processed. simpl.
    by rewrite Z.add_0_r.
  - cbn [fold_steps]. unfold chunk_step at 1.
    replace (negb (bool_decide ("id" ∈ cols)) || negb (bool_decide ("data" ∈ cols)))
      with true.
    2:{ symmetry. apply orb_true_iff.
        destruct Hmiss as [H|H]; [left|right]; by rewrite bool_decide_eq_false_2. }
    destruct (IH (add_processed (Z.of_nat (List.length (filter_channel o cols c))) st))
      as [n ->].
    eexists (_ + n). unfold add_processed. simpl. by rewrite Z.add_assoc.
Qed.

Lemma writer_init_paths p r cols : w_paths (Writer.init p r cols) = [].
Proof. unfold Writer.init. by destruct (splitext p). Qed.

(** The reader goes past its first step only on a file with a header
    line. *)
Lemma with_header {A} (inp : CsvInput) (a b : A) :
  in_header inp <> [] ->
  match in_header inp with [] => a | _ :: _ => b end = b.
Proof. by destruct (in_header inp). Qed.

(** ** The calls of a run *)

Lemma calls_sorted expected k last fr :
  Forall2 Qeq fr ((0 # 1) :: take k expected ++ last) ->
  last = [] \/ last = [1 # 1] ->
  StronglySorted Qle expected ->
  Forall (fun f => (0 <= f)%Q /\ (f < 1)%Q) expected ->
  StronglySorted Qle fr.
Proof.
  intros Hfr Hlast Hs Hb. eapply sorted_Qeq; [exact Hfr|].
  assert (Hs' : StronglySorted Qle (take k expected)).
  { rewrite <- (take_drop k expected) in Hs. by apply StronglySorted_app_1_l in Hs. }
  assert (Hb' : Forall (fun f => (0 <= f)%Q /\ (f < 1)%Q) (take k expected))
    by (by apply Forall_take).
  rewrite Forall_forall in Hb'.
  constructor.
  - destruct Hlast as [-> | ->]; [by rewrite app_nil_r|].
    apply StronglySorted_app_2; [|done|repeat constructor].
    intros x1 x2 Hx1 ->%list_elem_of_singleton. by apply Qlt_le_weak, Hb'.
  - apply Forall_app. split.
    + apply Forall_forall. intros x Hx. by apply Hb'.
    + destruct Hlast as [-> | ->]; [constructor|]. by repeat constructor.
Qed.

(** C8: in every run with a progress callback the reported fractions are:
    0.0 first; then, batch after batch, the rows processed so far over the
    estimated total, capped at 0.999 (0 without an estimate), each at
    least 0 and strictly below 1, for as many batches as the run gets
    through; then exactly 1.0, which is reported only after the last
    batch and always when the run completes normally. The whole sequence
    is non-decreasing. *)
Theorem progress_fractions_monotone (inp : CsvInput) (files : fs) (o : Options)
    (cb : callback) :
  progress_cb o = Some cb ->
  let run := _stream_decode inp files o in
  let expected := map (capped_ratio (_estimate_total_rows inp)) (batch_counts inp o) in
  exists (k : nat) (last : list Q),
    Forall2 Qeq (fractions (run_progress run)) ((0 # 1) :: take k expected ++ last) /\
    (last = [] \/ last = [1 # 1] /\ k = List.length expected) /\
    (is_ok (run_result run) = true -> last = [1 # 1]) /\
    Forall (fun f => (0 <= f)%Q /\ (f < 1)%Q) expected /\
    StronglySorted Qle (fractions (run_progress run)).
Proof.
  intros Hcb run expected.
  set (total := _estimate_total_rows inp) in *.
  assert (Ht : 0 <= total) by (unfold total, _estimate_total_rows; lia).
  assert (Hexp : StronglySorted Qle expected /\
                 Forall (fun f => (0 <= f)%Q /\ (f < 1)%Q) expected).
  { unfold expected, batch_counts.
    destruct (in_header inp); [split; constructor|].
    destruct (_ && _); [|split; constructor].
    apply capped_totals_sorted; [done|]. unfold batch_sizes.
    apply Forall_fmap, Forall_forall. intros c _. simpl. lia. }
  destruct Hexp as [Hsorted Hbounds].
  enough (exists (k : nat) (last : list Q),
             Forall2 Qeq (fractions (run_progress run)) ((0 # 1) :: take k expected ++ last) /\
             (last = [] \/ last = [1 # 1] /\ k = List.length expected) /\
             (is_ok (run_result run) = true -> last = [1 # 1]))
    as (k & last & Hfr & Hlast & Hok).
  { exists k, last. repeat split; try done.
    eapply calls_sorted; [exact Hfr| |done..]. destruct Hlast as [?|[? _]]; [by left|by right]. }
  assert (Hstart : forall res : result (list string),
             is_ok res = false ->
             exists (k : nat) (last : list Q),
               Forall2 Qeq (fractions (run_progress (mkRun res files [(0 # 1, "Starting decode")])))
                       ((0 # 1) :: take k expected ++ last) /\
               (last = [] \/ last = [1 # 1] /\ k = List.length expected) /\
               (is_ok (run_result (mkRun res files [(0 # 1, "Starting decode")])) = true ->
                last = [1 # 1])).
  { intros res Hres. exists 0%nat, []. cbn [run_progress run_result fractions map fst take app].
    split; [by repeat constructor|]. split; [by left|]. by rewrite Hres. }
  unfold run, _stream_decode. rewrite Hcb.
  destruct (cb [] _) as [[]|e|]; [|by apply Hstart..].
  destruct (make_writers o _) as [ws| |]; [|by apply Hstart..].
  destruct (decide (in_header inp = [])) as [Hh|Hh]; [rewrite Hh; by apply Hstart|].
  rewrite with_header by done. fold total.
  set (cols := chunk_columns (in_header inp)).
  set (chunks := reader_chunks (Z.to_nat CHUNK_ROWS) (in_rows inp)).
  set (st0 := mkState ws files [] 0 [(0 # 1, "Starting decode")]).
  destruct (decide ("id" ∈ cols /\ "data" ∈ cols)) as [[Hid Hdata]|Hmiss].
  - assert (Hexpected : expected
                        = map (capped_ratio total)
                            (running_totals (st_rows_processed st0)
                               (map (fun c => Z.of_nat (List.length (filter_channel o cols c)))
                                    chunks))).
    { unfold expected, batch_counts. rewrite with_header by done. fold cols.
      by rewrite !bool_decide_eq_true_2 by done. }
    destruct (fold_steps _ st0 chunks) as [st res] eqn:Hfold.
    destruct (chunks_calls o cb cols total chunks st0 st res Hcb Hid Hdata Ht Hfold)
      as (k & evs & Hp & Hfr & Hk).
    rewrite <- Hexpected in Hfr.
    destruct res as [[]| |]; cbn [run_progress run_result].
    + exists k, [1 # 1]. rewrite Hp. unfold fractions in *. rewrite !map_app.
      cbn [map fst st_progress st0 app]. split.
      { constructor; [done|]. apply Forall2_app; [done|by repeat constructor]. }
      split; [|done]. right. split; [done|].
      rewrite Hk by done. rewrite Hexpected.
      by rewrite length_map, running_totals_length, length_map.
    + exists k, []. rewrite Hp, app_nil_r. unfold fractions in *. rewrite !map_app.
      cbn [map fst st_progress st0 app is_ok]. split; [by constructor|].
      split; [by left|done].
    + exists k, []. rewrite Hp, app_nil_r. unfold fractions in *. rewrite !map_app.
      cbn [map fst st_progress st0 app is_ok]. split; [by constructor|].
      split; [by left|done].
  - assert (Hcols : "id" ∉ cols \/ "data" ∉ cols).
    { destruct (decide ("id" ∈ cols)); [|by left]. right. intros ?. by apply Hmiss. }
    assert (Hexpected : expected = []).
    { unfold expected, batch_counts. rewrite with_header by done. fold cols.
      destruct Hcols as [H|H]; rewrite (bool_decide_eq_false_2 _ H);
        by rewrite ?andb_false_r. }
    destruct (chunks_skipped o cols total chunks st0 Hcols) as [n ->].
    exists 0%nat, [1 # 1]. rewrite Hexpected.
    cbn [run_progress run_result add_processed st_progress st0 fractions map fst take app
           List.length].
    split; [by repeat constructor|]. split; [by right|done].
Qed.

Lemma progress_fractions_monotone_witness :
  let run := decode_csv_one small_log ∅ "out.csv" false None 100 (Some returning) in
  let expected :=
    map (capped_ratio (_estimate_total_rows small_log))
        (batch_counts small_log
           (mkOptions false None false (Some "out.csv") None None 100 (Some returning))) in
  exists (k : nat) (last : list Q),
    Forall2 Qeq (fractions (run_progress run)) ((0 # 1) :: take k expected ++ last) /\
    (last = [] \/ last = [1 # 1] /\ k = List.length expected) /\
    (is_ok (run_result run) = true -> last = [1 # 1]) /\
    Forall (fun f => (0 <= f)%Q /\ (f < 1)%Q) expected /\
    StronglySorted Qle (fractions (run_progress run)).
Proof.
  exact (progress_fractions_monotone small_log ∅
           (mkOptions false None false (Some "out.csv") None None 100 (Some returning))
           returning eq_refl).
Defined.

(** ** Runs whose callback returns *)

Lemma flag_returns (cb : bool) : returns_normally cb.
Proof. by destruct cb. Qed.

Lemma report_returning o total st :
  returns_normally (progress_cb o) ->
  exists evs,
    report o total st
    = (mkState (st_writers st) (st_files st) (st_buf st) (st_rows_processed st)
               (st_progress st ++ evs), Ok ()).
Proof.
  unfold report, call_progress, returns_normally.
  destruct (progress_cb o) as [f|]; intros Hret.
  - eexists [_]. by rewrite Hret.
  - exists []. rewrite app_nil_r. by destruct st.
Qed.

(** With such a callback, on a file with a header line, the result and
    the files of a run are those of the loop over the chunks. *)
Lemma run_of_fold inp files o ws :
  returns_normally (progress_cb o) -> in_header inp <> [] ->
  make_writers o (known_columns (include_bits o)) = Ok ws ->
  exists total p0, forall st res,
    fold_steps (chunk_step o (chunk_columns (in_header inp)) total)
               (mkState ws files [] 0 p0)
               (reader_chunks (Z.to_nat CHUNK_ROWS) (in_rows inp)) = (st, res) ->
    run_files (_stream_decode inp files o) = st_files st /\
    run_result (_stream_decode inp files o) = (_ ← res; Ok (outputs (st_writers st))).
Proof.
  unfold _stream_decode, returns_normally. intros Hret Hh ->.
  destruct (progress_cb o) as [f|]; rewrite ?Hret, with_header by done;
    eexists _, _; intros st res ->; destruct res as [[]| |];
    cbn [run_files run_result mbind result_bind Py.bind]; by rewrite ?Hret.
Qed.

Lemma decoded_header inp o D : decoded_records inp o = Ok D -> in_header inp <> [].
Proof. unfold decoded_records. by destruct (in_header inp). Qed.

Lemma decoded_records_unfold inp o :
  in_header inp <> [] ->
  decoded_records inp o
  = if bool_decide ("id" ∈ chunk_columns (in_header inp))
       && bool_decide ("data" ∈ chunk_columns (in_header inp))
    then rows_records (include_bits o) (chunk_columns (in_header inp)) (kept_rows inp o)
    else Ok [].
Proof. intros Hh. unfold decoded_records. by rewrite with_header. Qed.

(** C3 as stated fails: on a log without an id column the entry point
    completes normally and returns no path, it does not fail. *)
Lemma missing_id_counterexample :
  ~ has_column "id" no_id_log /\
  run_result (decode_csv_one no_id_log ∅ "out.csv" false None EXCEL_XLSX_MAX_ROWS false)
  = Ok [] /\
  run_result (decode_csv_split no_id_log ∅ "a.csv" "b.csv" false None
                EXCEL_XLSX_MAX_ROWS false)
  = Ok [].
Proof.
  split; [|split; vm_compute; reflexivity].
  unfold has_column. vm_compute. intros H.
  repeat (apply elem_of_cons in H as [H|H]; [discriminate H|]). inversion H.
Qed.

(** C3 (amended): when the header line has no id column or no data column,
    both entry points skip every chunk: no file is created or written,
    every call of the callback is the start call or the completion call,
    and the run completes normally with an empty list of paths. Only a
    file without a header line makes them fail: the reader raises after
    the start call, before any file is created or written. *)
Theorem missing_columns_skip_all (inp : CsvInput) (files : fs) :
  ~ has_column "id" inp \/ ~ has_column "data" inp ->
  forall (ib : bool) (ch : option string) (r : Z) (cb : bool),
    let start : list event := if cb then [(0 # 1, "Starting decode")] else [] in
    let calls : list event :=
      if cb then [(0 # 1, "Starting decode"); (1 # 1, "Decoding complete")] else [] in
    (in_header inp <> [] ->
     (forall out, decode_csv_one inp files out ib ch r cb = mkRun (Ok []) files calls) /\
     (forall out1 out2,
         decode_csv_split inp files out1 out2 ib ch r cb = mkRun (Ok []) files calls)) /\
    (in_header inp = [] ->
     (forall out,
         decode_csv_one inp files out ib ch r cb = mkRun (Raise EmptyDataError) files start) /\
     (forall out1 out2,
         decode_csv_split inp files out1 out2 ib ch r cb
         = mkRun (Raise EmptyDataError) files start)).
Proof.
  intros Hmiss ib ch r cb start calls.
  assert (Hcols : "id" ∉ chunk_columns (in_header inp) \/
                  "data" ∉ chunk_columns (in_header inp)).
  { destruct Hmiss as [H|H]; [left|right]; intros Hin; apply H;
      apply chunk_columns_has in Hin; try done.
    - by left.
    - right. by left. }
  split; intros Hh; (split; intros; unfold decode_csv_one, decode_csv_split, _stream_decode, make_writers, outputs;
    cbn [split out_one out_can1 out_can2 progress_cb include_bits row_limit]).
  - unfold calls. destruct cb; cbn [callback_of_flag returning];
      rewrite with_header by done;
      match goal with
      | |- context [fold_steps (chunk_step ?o ?c ?t) ?st ?l] =>
          destruct (chunks_skipped o c t l st Hcols) as [n ->]
      end;
      cbn [add_processed st_writers st_files st_progress mbind result_bind Py.bind app];
      by rewrite ?writer_init_paths.
  - unfold calls. destruct cb; cbn [callback_of_flag returning];
      rewrite with_header by done;
      match goal with
      | |- context [fold_steps (chunk_step ?o ?c ?t) ?st ?l] =>
          destruct (chunks_skipped o c t l st Hcols) as [n ->]
      end;
      cbn [add_processed st_writers st_files st_progress mbind result_bind Py.bind app];
      by rewrite ?writer_init_paths.
  - unfold start. destruct cb; cbn [callback_of_flag returning]; by rewrite Hh.
  - unfold start. destruct cb; cbn [callback_of_flag returning]; by rewrite Hh.
Qed.

Lemma missing_columns_skip_all_witness :
  decode_csv_split no_id_log ∅ "a.csv" "b.csv" true (Some "can0") 10 true
  = mkRun (Ok []) ∅ [(0 # 1, "Starting decode"); (1 # 1, "Decoding complete")] /\
  decode_csv_one empty_file ∅ "out.csv" true (Some "can0") 10 true
  = mkRun (Raise EmptyDataError) ∅ [(0 # 1, "Starting decode")].
Proof.
  split.
  - refine (proj2 (proj1 (missing_columns_skip_all no_id_log ∅ _ true (Some "can0") 10 true) _)
                  "a.csv" "b.csv"); [|discriminate].
    left. unfold has_column. vm_compute. intros H.
    repeat (apply elem_of_cons in H as [H|H]; [discriminate H|]). inversion H.
  - refine (proj1 (proj2 (missing_columns_skip_all empty_file ∅ _ true (Some "can0") 10 true)
                         eq_refl) "out.csv").
    left. unfold has_column. vm_compute. intros H. inversion H.
Defined.

(** ** Rows that cannot be read *)

Lemma row_records_unreadable ib cols r :
  "id" ∈ cols -> "data" ∈ cols -> unreadable r = true ->
  row_records ib cols r = None.
Proof.
  intros Hid Hdata Hbad. unfold row_records.
  rewrite row_get_id, row_get_data by done. cbn [default from_option id].
  destruct (_ =? "")%string; [done|].
  unfold unreadable in Hbad.
  destruct (parse_can_id _) as [can_id| |]; [|done..].
  destruct (PyStr.fromhex _) as [d|]; [|done].
  rewrite bool_decide_eq_true_2 in Hbad by done. done.
Qed.

(** C6 as stated fails: nothing counts the skipped rows. Two logs of two
    rows, one with a skipped row and one without, leave exactly the same
    result, files and progress calls behind. *)
Lemma skip_count_not_observable :
  skipped_rows log_one_skipped = 1%nat /\ skipped_rows log_none_skipped = 0%nat /\
  decode_csv_one log_one_skipped ∅ "out.csv" false None EXCEL_XLSX_MAX_ROWS true
  = decode_csv_one log_none_skipped ∅ "out.csv" false None EXCEL_XLSX_MAX_ROWS true.
Proof. split; [|split]; vm_compute; reflexivity. Qed.

(** C6 (amended): a row whose id does not parse or whose data is not valid
    hex is skipped: processing it succeeds and leaves the whole engine
    state as it was (nothing is buffered, written or counted for it), and
    the loop goes on with the next rows exactly as if the row were not
    there. *)
Theorem unreadable_row_skipped (ib : bool) (cols : list string) (r : RawRow) :
  "id" ∈ cols -> "data" ∈ cols -> unreadable r = true ->
  (forall st, row_step ib cols st r = (st, Ok ())) /\
  (forall st pre post,
      fold_steps (row_step ib cols) st (pre ++ r :: post)
      = fold_steps (row_step ib cols) st (pre ++ post)).
Proof.
  intros Hid Hdata Hbad.
  assert (Hstep : forall st, row_step ib cols st r = (st, Ok ())).
  { intros st. unfold row_step, append_row.
    by rewrite (row_records_unreadable ib cols r Hid Hdata Hbad). }
  split; [exact Hstep|]. intros st pre post.
  rewrite !fold_steps_app. destruct (fold_steps _ st pre) as [st1 [[]| |]]; [|done..].
  cbn [fold_steps]. by rewrite Hstep.
Qed.

Lemma unreadable_row_skipped_witness :
  fold_steps (row_step false ["id"; "data"])
             (mkState (OneWriter (Writer.init "out.csv" 10 ["timestamp"])) ∅ [] 0 [])
             [mkRow "6B5" "0105020600000000" "" ""; mkRow "xyz" "00" "" ""]
  = fold_steps (row_step false ["id"; "data"])
               (mkState (OneWriter (Writer.init "out.csv" 10 ["timestamp"])) ∅ [] 0 [])
               [mkRow "6B5" "0105020600000000" "" ""].
Proof.
  refine (proj2 (unreadable_row_skipped false ["id"; "data"] (mkRow "xyz" "00" "" "")
                   _ _ eq_refl)
                (mkState (OneWriter (Writer.init "out.csv" 10 ["timestamp"])) ∅ [] 0 [])
                [mkRow "6B5" "0105020600000000" "" ""] []).
  - by left.
  - right. by left.
Defined.

(** ** Buffered records *)

(** C7 as stated fails: after 2499 extra-temps frames of four records and
    one of three the buffer holds 9999 records, below the threshold, and
    one more frame of four records brings it to 10003 before it is
    flushed. *)
Lemma buffer_exceeds_threshold :
  buffered_after false ["id"; "data"] chunk_start_state
                 (repeat atemp_row4 2499 ++ [atemp_row3]) atemp_row4 = 10003 /\
  FLUSH_EVERY < 10003.
Proof. split; [vm_compute; reflexivity|reflexivity]. Qed.

Lemma row_records_count ib cols r rs :
  row_records ib cols r = Some (Ok rs) -> (List.length rs <= 4)%nat.
Proof.
  intros (data_b & raw & -> & _ & Hlen)%row_records_shape. by rewrite length_map.
Qed.

Lemma flush_ok_buf st st' : flush st = (st', Ok ()) -> st_buf st' = [].
Proof.
  unfold flush. destruct (st_buf st) eqn:E; [by intros [= <-]|].
  match goal with |- context [match ?w with _ => _ end = _] => destruct w as [[ws fl]| |] end;
    by intros [= <-].
Qed.

Lemma append_row_buf ib cols st r st' :
  append_row ib cols st r = Some (Ok st') ->
  exists rs, row_records ib cols r = Some (Ok rs) /\ st_buf st' = st_buf st ++ rs.
Proof.
  unfold append_row. destruct (row_records ib cols r) as [[rs| |]|]; [|done..].
  intros [= <-]. by exists rs.
Qed.

(** After a row the buffer is below the threshold again. *)
Lemma row_step_buf ib cols st r st' :
  Z.of_nat (List.length (st_buf st)) < FLUSH_EVERY ->
  row_step ib cols st r = (st', Ok ()) ->
  Z.of_nat (List.length (st_buf st')) < FLUSH_EVERY.
Proof.
  intros Hst. unfold row_step.
  destruct (append_row ib cols st r) as [[st1| |]|]; [|done..|by intros [= <-]].
  destruct (Z.leb_spec FLUSH_EVERY (Z.of_nat (List.length (st_buf st1)))).
  - intros ->%flush_ok_buf. done.
  - by intros [= <-].
Qed.

(** C7 (amended): in the loop over the rows of a chunk, started with fewer
    buffered records than the flush threshold (the buffer is empty at the
    start of a chunk), the buffer is below the threshold whenever a row has
    been processed, and right after the records of a row are appended it
    holds at most threshold + 3 records, a frame adding at most four. *)
Theorem buffer_bounded (ib : bool) (cols : list string) (rows : list RawRow) (st : State) :
  Z.of_nat (List.length (st_buf st)) < FLUSH_EVERY ->
  Forall (fun n => n <= FLUSH_EVERY + 3) (buffer_trace ib cols st rows) /\
  (forall st', fold_steps (row_step ib cols) st rows = (st', Ok ()) ->
               Z.of_nat (List.length (st_buf st')) < FLUSH_EVERY).
Proof.
  revert st. induction rows as [|r rows IH]; intros st Hst.
  - split; [constructor|]. by intros st' [= <-].
  - cbn [buffer_trace fold_steps].
    assert (Happ : Forall (fun n => n <= FLUSH_EVERY + 3)
                     match append_row ib cols st r with
                     | Some (Ok st1) => [Z.of_nat (List.length (st_buf st1))]
                     | _ => []
                     end).
    { destruct (append_row ib cols st r) as [[st1| |]|] eqn:E; try constructor;
        [|constructor].
      apply append_row_buf in E as (rs & Hrs%row_records_count & ->).
      rewrite length_app. lia. }
    destruct (row_step ib cols st r) as [st1 [[]| |]] eqn:Hstep.
    + pose proof (row_step_buf ib cols st r st1 Hst Hstep) as Hst1.
      destruct (IH st1 Hst1) as [Htrace Hend].
      split; [by apply Forall_app|exact Hend].
    + split; [by rewrite app_nil_r|done].
    + split; [by rewrite app_nil_r|done].
Qed.

Lemma buffer_bounded_witness :
  Forall (fun n => n <= FLUSH_EVERY + 3)
         (buffer_trace false ["id"; "data"] chunk_start_state [atemp_row3; atemp_row4]).
Proof.
  refine (proj1 (buffer_bounded false ["id"; "data"] [atemp_row3; atemp_row4]
                   chunk_start_state _)).
  reflexivity.
Defined.

(** ** Split mode: the two streams *)

(** C1 as stated fails for a channel tag other than can0 and can1: the one
    record decoded from a frame tagged can2 is written to neither stream. *)
Lemma split_drops_other_tags :
  (exists rec,
     decoded_records can2_log
       (mkOptions false None true None (Some "a.csv") (Some "b.csv") 10 false)
     = Ok [rec]) /\
  decode_csv_split can2_log ∅ "a.csv" "b.csv" false None 10 false = mkRun (Ok []) ∅ [].
Proof. split; [eexists|]; vm_compute; reflexivity. Qed.

Lemma write_group_eq w files df : write_group w files df = Writer.write_df w files df.
Proof.
  unfold write_group, Writer.write_df, Writer.write_df_fuel.
  by destruct (df_empty df).
Qed.

Lemma batch_rows_routable tagged sch df :
  Forall (routable tagged) df -> batch_rows sch [df] = map (reindex sch) df.
Proof.
  intros H. unfold batch_rows. cbn [flat_map]. rewrite app_nil_r.
  destruct (df_empty df) eqn:E; [|done].
  destruct H as [|rec df [[m Hm] _] _]; [done|].
  destruct rec; [discriminate Hm|discriminate E].
Qed.

Lemma Forall_list_filter {A} (P : A -> Prop) (f : A -> bool) l :
  Forall P l -> Forall P (List.filter f l).
Proof.
  induction 1 as [|x l Hx _ IH]; cbn [List.filter]; [constructor|].
  destruct (f x); [by constructor|done].
Qed.

Lemma split_frame_routable tagged buf :
  buf <> [] -> Forall (routable tagged) buf ->
  split_frame buf = (List.filter (to_can0 tagged) buf, List.filter (to_can1 tagged) buf).
Proof.
  intros Hne H. unfold split_frame.
  assert (existsb (has_key "channel") buf = tagged) as ->.
  { destruct tagged.
    - destruct H as [|rec buf [_ Hk] _]; [done|]. cbn [existsb]. by rewrite Hk.
    - clear Hne. induction H as [|rec buf [_ Hk] _ IH]; [done|].
      cbn [existsb]. by rewrite Hk, IH. }
  by destruct tagged.
Qed.

Lemma row_records_routable ib cols row rs :
  row_records ib cols row = Some (Ok rs) ->
  Forall (routable (bool_decide ("channel" ∈ cols))) rs.
Proof.
  intros (data_b & raw & -> & [Hraw _])%row_records_shape.
  rewrite Forall_fmap. eapply Forall_impl; [exact Hraw|].
  intros rec [Hc [m Hm]]. unfold compose, routable, has_key. split.
  - exists m. rewrite finish_record_get; [done|done|]. by intros s [=].
  - rewrite finish_record_channel by done. unfold row_get.
    by destruct (bool_decide _).
Qed.

Lemma rows_records_app ib cols l1 l2 R :
  rows_records ib cols (l1 ++ l2) = Ok R ->
  exists R1 R2, rows_records ib cols l1 = Ok R1 /\ rows_records ib cols l2 = Ok R2 /\
                R = R1 ++ R2.
Proof.
  revert R. induction l1 as [|row l1 IH]; intros R; cbn [app rows_records].
  - intros H. by exists [], R.
  - destruct (row_records ib cols row) as [[rs| |]|]; cbn [mbind result_bind Py.bind];
      [|done..|exact (IH R)].
    destruct (rows_records ib cols (l1 ++ l2)) as [more| |] eqn:E; [|done..].
    intros [= <-]. destruct (IH more eq_refl) as (R1 & R2 & -> & H2 & ->).
    exists (rs ++ R1), R2. by rewrite app_assoc.
Qed.

Lemma rows_records_tags ib cols rows R :
  "channel" ∈ cols -> rows_records ib cols rows = Ok R ->
  Forall (fun rec => exists row, row ∈ rows /\
                       dict_get "channel" rec = Some (VStr (r_channel row))) R.
Proof.
  intros Hc. revert R. induction rows as [|row rows IH]; intros R; cbn [rows_records].
  - intros [= <-]. constructor.
  - assert (Hmore : forall more, rows_records ib cols rows = Ok more ->
              Forall (fun rec => exists row', row' ∈ row :: rows /\
                        dict_get "channel" rec = Some (VStr (r_channel row'))) more).
    { intros more Hm. eapply Forall_impl; [exact (IH more Hm)|].
      intros rec (row' & Hin & Hrec). exists row'. split; [by right|done]. }
    destruct (row_records ib cols row) as [[rs| |]|] eqn:Hrow;
      cbn [mbind result_bind Py.bind]; [|done..|exact (Hmore R)].
    destruct (rows_records ib cols rows) as [more| |]; [|done..].
    intros [= <-]. apply Forall_app. split; [|by apply Hmore].
    eapply Forall_impl; [exact (row_records_tagged ib cols row rs Hc Hrow)|].
    intros rec Hrec. exists row. split; [by left|done].
Qed.

Lemma concat_chunks_aux {A} size room (cur l : list A) :
  concat (chunks_aux size room cur l) = rev cur ++ l.
Proof.
  revert room cur. induction l as [|x l IH]; intros room cur; cbn [chunks_aux].
  - destruct cur; [done|]. cbn [concat]. by rewrite app_nil_r.
  - destruct room as [|[|room]]; cbn [concat]; rewrite ?IH; cbn [rev];
      by rewrite <- ?app_assoc.
Qed.

Lemma concat_chunks_of {A} size (l : list A) : concat (chunks_of size l) = l.
Proof. unfold chunks_of. by rewrite concat_chunks_aux. Qed.

Lemma concat_reader_chunks {A} size (l : list A) : concat (reader_chunks size l) = l.
Proof. destruct l; [done|]. apply concat_chunks_of. Qed.

Lemma filter_channel_concat o cols chunks :
  concat (map (filter_channel o cols) chunks) = filter_channel o cols (concat chunks).
Proof.
  unfold filter_channel. destruct (_ && _).
  - apply List.concat_filter_map.
  - by rewrite map_id.
Qed.

Lemma exactly_one_count (c0 c1 : record -> bool) D :
  Forall (fun rec => xorb (c0 rec) (c1 rec) = true) D ->
  (List.length (List.filter c0 D) + List.length (List.filter c1 D) = List.length D)%nat.
Proof.
  induction 1 as [|rec D Hx _ IH]; [done|]. cbn [List.filter].
  destruct (c0 rec), (c1 rec); try discriminate Hx; cbn [List.length]; lia.
Qed.

Lemma known_tag_exactly_one rec s :
  dict_get "channel" rec = Some (VStr s) -> known_tag s ->
  xorb (to_can0 true rec) (to_can1 true rec) = true.
Proof.
  intros Hrec Hs. unfold to_can0, to_can1, channel_is. rewrite Hrec.
  by destruct Hs as [-> | ->].
Qed.

Lemma part_path_base base ext i : exists tail, Writer.part_path base ext i = base +:+ tail.
Proof.
  unfold Writer.part_path. destruct (i =? 1); eexists; reflexivity.
Qed.

(** Two names with different stems of the same length give different
    files. *)
Lemma disjoint_by_stem p1 p2 :
  String.length (splitext p1).1 = String.length (splitext p2).1 ->
  (splitext p1).1 <> (splitext p2).1 ->
  disjoint_streams p1 p2.
Proof.
  intros Hlen Hne i j Heq.
  destruct (part_path_base (splitext p1).1 (splitext p1).2 (Z.of_nat (S i))) as [t1 H1].
  destruct (part_path_base (splitext p2).1 (splitext p2).2 (Z.of_nat (S j))) as [t2 H2].
  rewrite H1, H2 in Heq. apply (f_equal PyStr.chars) in Heq.
  rewrite !chars_app in Heq. apply app_inj_1 in Heq as [Heq _].
  - by apply chars_inj in Heq.
  - clear -Hlen. revert Hlen.
    generalize (splitext p1).1, (splitext p2).1. intros a b.
    assert (Hch : forall s, List.length (PyStr.chars s) = String.length s)
      by (induction s; simpl; congruence).
    by rewrite !Hch.
Qed.

Section split_mode.
Context (b0 e0 b1 e1 : string) (sch : list string) (r : Z) (Hr : 1 <= r).
Context (Hdisj : forall i j : nat,
            Writer.part_path b0 e0 (Z.of_nat (S i)) <> Writer.part_path b1 e1 (Z.of_nat (S j))).
Context (ccols : list string).

Local Abbreviation tagged := (bool_decide ("channel" ∈ ccols)).
Local Abbreviation inv := (split_inv b0 e0 b1 e1 r sch tagged).

(** A flush returns, and each buffered record's row joins the stream
    [to_can0] or [to_can1] selects it for. *)
Lemma flush_split D st :
  inv D (st_writers st) (st_files st) ->
  Forall (routable tagged) (st_buf st) ->
  exists st',
    flush st = (st', Ok ()) /\
    inv (D ++ st_buf st) (st_writers st') (st_files st') /\
    st_buf st' = [].
Proof.
  destruct st as [ws files buf rp pr]. cbn [st_writers st_files st_buf].
  intros (w0 & w1 & s0 & s1 & -> & Hrep0 & Hset0 & Hrep1 & Hset1 & Hc0 & Hc1) Hbuf.
  unfold flush. cbn [st_writers st_files st_buf st_rows_processed st_progress].
  destruct buf as [|rec buf'] eqn:Ebuf.
  { eexists. split; [reflexivity|]. cbn [st_writers st_files st_buf].
    rewrite app_nil_r. split; [|done]. by exists w0, w1, s0, s1. }
  rewrite <- Ebuf in *. assert (Hne : buf <> []) by (by rewrite Ebuf).
  clear Ebuf rec buf'.
  rewrite (split_frame_routable tagged buf Hne Hbuf), !write_group_eq.
  destruct (write_df_spec b0 e0 sch r Hr w0 files s0 (List.filter (to_can0 tagged) buf)
              Hrep0 Hset0)
    as (w0' & files1 & s0' & Hw0 & Hrep0' & Hset0' & Hc0' & Hfr0).
  rewrite Hw0. cbn [mbind result_bind Py.bind].
  assert (Hrep1' : represents b1 e1 r sch w1 files1 s1).
  { eapply represents_frame; [exact Hrep1|]. intros j _. apply Hfr0.
    intros i Heq. by apply (Hdisj i j). }
  destruct (write_df_spec b1 e1 sch r Hr w1 files1 s1 (List.filter (to_can1 tagged) buf)
              Hrep1' Hset1)
    as (w1' & files2 & s1' & Hw1 & Hrep1'' & Hset1' & Hc1' & Hfr1).
  rewrite write_group_eq, Hw1. cbn [mbind result_bind Py.bind].
  eexists. split; [reflexivity|]. cbn [st_writers st_files st_buf].
  split; [|done]. exists w0', w1', s0', s1'. split; [done|].
  split.
  { eapply represents_frame; [exact Hrep0'|]. intros j _. apply Hfr1.
    intros i Heq. by apply (Hdisj j i). }
  repeat split; try done.
  - rewrite Hc0', Hc0, List.filter_app, map_app.
    by rewrite (batch_rows_routable tagged) by (by apply Forall_list_filter).
  - rewrite Hc1', Hc1, List.filter_app, map_app.
    by rewrite (batch_rows_routable tagged) by (by apply Forall_list_filter).
Qed.

(** The loop over the rows of a chunk returns when no decoder raises, and
    every decoded record is then written or still buffered. *)
Lemma rows_loop_split ib rows D st R :
  inv D (st_writers st) (st_files st) ->
  Forall (routable tagged) (st_buf st) ->
  rows_records ib ccols rows = Ok R ->
  exists st' D',
    fold_steps (row_step ib ccols) st rows = (st', Ok ()) /\
    inv D' (st_writers st') (st_files st') /\
    Forall (routable tagged) (st_buf st') /\
    D' ++ st_buf st' = D ++ st_buf st ++ R.
Proof.
  revert D st R. induction rows as [|row rows IH]; intros D st R Hinv Hbuf;
    cbn [rows_records fold_steps].
  - intros [= <-]. exists st, D. by rewrite app_nil_r.
  - unfold row_step, append_row.
    destruct (row_records ib ccols row) as [[rs| |]|] eqn:Hrow;
      cbn [mbind result_bind Py.bind]; [|done..|by apply IH].
    destruct (rows_records ib ccols rows) as [more| |] eqn:Hmore; [|done..].
    intros [= <-].
    assert (Hrs : Forall (routable tagged) (st_buf st ++ rs)).
    { apply Forall_app. split; [done|]. by eapply row_records_routable. }
    set (st1 := mkState (st_writers st) (st_files st) (st_buf st ++ rs)
                        (st_rows_processed st) (st_progress st)).
    destruct (FLUSH_EVERY <=? Z.of_nat (List.length (st_buf st1))).
    + destruct (flush_split D st1 Hinv Hrs) as (st2 & -> & Hinv2 & Hbuf2).
      destruct (IH (D ++ st_buf st1) st2 more Hinv2) as (st' & D' & Hrun & Hinv' & Hbuf' & Heq);
        [by rewrite Hbuf2|done|].
      exists st', D'. split; [done|]. split; [done|]. split; [done|].
      rewrite Heq, Hbuf2. subst st1. cbn [st_buf app]. by rewrite <- !app_assoc.
    + destruct (IH D st1 more Hinv Hrs eq_refl) as (st' & D' & Hrun & Hinv' & Hbuf' & Heq).
      exists st', D'. split; [done|]. split; [done|]. split; [done|].
      rewrite Heq. subst st1. cbn [st_buf]. by rewrite <- !app_assoc.
Qed.

Lemma chunk_step_split o total D st chunk R :
  returns_normally (progress_cb o) ->
  "id" ∈ ccols -> "data" ∈ ccols ->
  inv D (st_writers st) (st_files st) ->
  rows_records (include_bits o) ccols (filter_channel o ccols chunk) = Ok R ->
  exists st',
    chunk_step o ccols total st chunk = (st', Ok ()) /\
    inv (D ++ R) (st_writers st') (st_files st').
Proof.
  intros Hret Hid Hdata Hinv HR. unfold chunk_step.
  rewrite !bool_decide_eq_true_2 by done. cbn [negb orb].
  destruct (rows_loop_split (include_bits o) (filter_channel o ccols chunk) D
              (clear_buf st) R Hinv (Forall_nil_2 _) HR)
    as (st1 & D1 & -> & Hinv1 & Hbuf1 & Heq).
  destruct (flush_split D1 st1 Hinv1 Hbuf1) as (st2 & -> & Hinv2 & _).
  destruct (report_returning o total
              (add_processed (Z.of_nat (List.length (filter_channel o ccols chunk))) st2)
              Hret) as [evs ->].
  eexists. split; [reflexivity|].
  rewrite Heq in Hinv2. cbn [clear_buf st_buf app] in Hinv2. exact Hinv2.
Qed.

Lemma chunks_split o total chunks D st R :
  returns_normally (progress_cb o) ->
  "id" ∈ ccols -> "data" ∈ ccols ->
  inv D (st_writers st) (st_files st) ->
  rows_records (include_bits o) ccols (concat (map (filter_channel o ccols) chunks)) = Ok R ->
  exists st',
    fold_steps (chunk_step o ccols total) st chunks = (st', Ok ()) /\
    inv (D ++ R) (st_writers st') (st_files st').
Proof.
  intros Hret Hid Hdata. revert D st R.
  induction chunks as [|chunk chunks IH]; intros D st R Hinv; cbn [map concat fold_steps].
  - intros [= <-]. exists st. by rewrite app_nil_r.
  - intros (R1 & R2 & H1 & H2 & ->)%rows_records_app.
    destruct (chunk_step_split o total D st chunk R1 Hret Hid Hdata Hinv H1)
      as (st1 & -> & Hinv1).
    destruct (IH (D ++ R1) st1 R2 Hinv1 H2) as (st' & Hrun & Hinv').
    exists st'. split; [done|]. by rewrite app_assoc.
Qed.

(** What the invariant says of the files on disk. *)
Lemma split_inv_on_disk D w0 w1 files :
  inv D (TwoWriters w0 w1) files ->
  rows_on_disk files (w_paths w0) = map (reindex sch) (List.filter (to_can0 tagged) D) /\
  rows_on_disk files (w_paths w1) = map (reindex sch) (List.filter (to_can1 tagged) D).
Proof.
  intros (w0' & w1' & s0 & s1 & [= <- <-] & Hrep0 & Hset0 & Hrep1 & Hset1 & Hc0 & Hc1).
  destruct (represents_on_disk b0 e0 sch r Hr w0 files s0 Hrep0 Hset0) as [H0 _].
  destruct (represents_on_disk b1 e1 sch r Hr w1 files s1 Hrep1 Hset1) as [H1 _].
  unfold rows_on_disk. unfold stream_files in H0, H1. rewrite map_map in H0, H1.
  by rewrite H0, H1, Hc0, Hc1.
Qed.
End split_mode.

(** C1 (amended): a split run whose two output names give distinct files,
    with a row limit of at least one, on a log none of whose decoders
    raises and, when the log has a channel column, whose kept rows are all
    tagged can0 or can1 (case apart): the run returns the paths of the two
    streams; the first stream holds, in order, the rows of the decoded
    records [to_can0] selects and the second those [to_can1] selects;
    every decoded record is selected by exactly one of the two; and the
    row counts of the two streams sum to the number of decoded records.
    Without a channel column the records are routed by message name. *)
Theorem split_streams_partition (inp : CsvInput) (files : fs) (p1 p2 : string)
    (ib : bool) (ch : option string) (r : Z) (cb : bool) (D : list record) :
  1 <= r ->
  disjoint_streams p1 p2 ->
  decoded_records inp (mkOptions ib ch true None (Some p1) (Some p2) r cb) = Ok D ->
  (log_tagged inp = true ->
   Forall (fun row => known_tag (r_channel row))
          (kept_rows inp (mkOptions ib ch true None (Some p1) (Some p2) r cb))) ->
  exists paths0 paths1,
    run_result (decode_csv_split inp files p1 p2 ib ch r cb) = Ok (paths0 ++ paths1) /\
    rows_on_disk (run_files (decode_csv_split inp files p1 p2 ib ch r cb)) paths0
    = map (reindex (known_columns ib)) (List.filter (to_can0 (log_tagged inp)) D) /\
    rows_on_disk (run_files (decode_csv_split inp files p1 p2 ib ch r cb)) paths1
    = map (reindex (known_columns ib)) (List.filter (to_can1 (log_tagged inp)) D) /\
    Forall (fun rec => xorb (to_can0 (log_tagged inp) rec) (to_can1 (log_tagged inp) rec)
                       = true) D /\
    (List.length (rows_on_disk (run_files (decode_csv_split inp files p1 p2 ib ch r cb))
                               paths0)
     + List.length (rows_on_disk (run_files (decode_csv_split inp files p1 p2 ib ch r cb))
                                 paths1)
     = List.length D)%nat.
Proof.
  intros Hr Hdisj HD Htags.
  set (o := mkOptions ib ch true None (Some p1) (Some p2) r cb) in *.
  set (ccols := chunk_columns (in_header inp)).
  pose proof (decoded_header _ _ _ HD) as Hh.
  rewrite decoded_records_unfold in HD by done. fold ccols in HD.
  assert (Hxor : Forall (fun rec => xorb (to_can0 (log_tagged inp) rec)
                                         (to_can1 (log_tagged inp) rec) = true) D).
  { destruct (bool_decide ("id" ∈ ccols) && bool_decide ("data" ∈ ccols));
      [|injection HD as <-; constructor].
    destruct (log_tagged inp) eqn:Et.
    - specialize (Htags eq_refl). unfold log_tagged in Et.
      apply bool_decide_eq_true in Et.
      eapply Forall_impl; [exact (rows_records_tags _ _ _ _ Et HD)|].
      intros rec (row & Hin & Hrec). cbv beta.
      eapply known_tag_exactly_one; [exact Hrec|].
      rewrite Forall_forall in Htags. by apply Htags.
    - apply Forall_forall. intros rec _. unfold to_can0, to_can1.
      by destruct (message_in_can1 rec). }
  assert (Hmain : exists paths0 paths1,
    run_result (decode_csv_split inp files p1 p2 ib ch r cb) = Ok (paths0 ++ paths1) /\
    rows_on_disk (run_files (decode_csv_split inp files p1 p2 ib ch r cb)) paths0
    = map (reindex (known_columns ib)) (List.filter (to_can0 (log_tagged inp)) D) /\
    rows_on_disk (run_files (decode_csv_split inp files p1 p2 ib ch r cb)) paths1
    = map (reindex (known_columns ib)) (List.filter (to_can1 (log_tagged inp)) D)).
  { unfold decode_csv_split. fold o.
    destruct (run_of_fold inp files o
                (TwoWriters (Writer.init p1 r (known_columns ib))
                            (Writer.init p2 r (known_columns ib))))
      as (total & p0 & Hrun); [apply flag_returns|done|done|].
    fold ccols in Hrun.
    destruct (bool_decide ("id" ∈ ccols)) eqn:Eid;
      [destruct (bool_decide ("data" ∈ ccols)) eqn:Edata|]; cbn [andb] in HD.
    - apply bool_decide_eq_true in Eid, Edata.
      match type of Hrun with
      | forall st res, fold_steps _ ?st0 ?chunks = _ -> _ =>
          destruct (chunks_split (splitext p1).1 (splitext p1).2
                      (splitext p2).1 (splitext p2).2 (known_columns ib) r Hr Hdisj
                      ccols o total chunks [] st0 D (flag_returns cb) Eid Edata)
            as (st' & Hfold & Hinv)
      end.
      + exists (Writer.init p1 r (known_columns ib)), (Writer.init p2 r (known_columns ib)),
          Fresh, Fresh.
        split; [done|]. split; [apply writer_init_fresh|]. split; [done|].
        split; [apply writer_init_fresh|]. done.
      + rewrite filter_channel_concat, concat_reader_chunks. exact HD.
      + destruct (Hrun _ _ Hfold) as [-> ->].
        cbn [app] in Hinv.
        destruct (st_writers st') as [w|w0 w1] eqn:Ews;
          [by destruct Hinv as (? & ? & ? & ? & [=] & _)|].
        exists (w_paths w0), (w_paths w1).
        split; [done|].
        exact (split_inv_on_disk _ _ _ _ _ _ Hr _ _ _ _ _ Hinv).
    - injection HD as <-.
      match type of Hrun with
      | forall st res, fold_steps _ ?st0 ?chunks = _ -> _ =>
          destruct (chunks_skipped o ccols total chunks st0) as [n Hfold]
      end.
      { right. by apply bool_decide_eq_false in Edata. }
      destruct (Hrun _ _ Hfold) as [-> ->].
      exists [], []. cbn [add_processed st_writers st_files mbind result_bind Py.bind outputs].
      by rewrite !writer_init_paths.
    - injection HD as <-.
      match type of Hrun with
      | forall st res, fold_steps _ ?st0 ?chunks = _ -> _ =>
          destruct (chunks_skipped o ccols total chunks st0) as [n Hfold]
      end.
      { left. by apply bool_decide_eq_false in Eid. }
      destruct (Hrun _ _ Hfold) as [-> ->].
      exists [], []. cbn [add_processed st_writers st_files mbind result_bind Py.bind outputs].
      by rewrite !writer_init_paths. }
  destruct Hmain as (paths0 & paths1 & Hres & H0 & H1).
  exists paths0, paths1. split; [done|]. split; [done|]. split; [done|].
  split; [done|]. rewrite H0, H1, !length_map. by apply exactly_one_count.
Qed.

Lemma split_streams_partition_witness :
  exists D,
    decoded_records tagged_log
      (mkOptions false None true None (Some "out_can0.csv") (Some "out_can1.csv") 10 false)
    = Ok D /\
    exists paths0 paths1,
      run_result (decode_csv_split tagged_log ∅ "out_can0.csv" "out_can1.csv"
                    false None 10 false) = Ok (paths0 ++ paths1) /\
      rows_on_disk (run_files (decode_csv_split tagged_log ∅ "out_can0.csv" "out_can1.csv"
                                 false None 10 false)) paths0
      = map (reindex (known_columns false))
            (List.filter (to_can0 (log_tagged tagged_log)) D) /\
      rows_on_disk (run_files (decode_csv_split tagged_log ∅ "out_can0.csv" "out_can1.csv"
                                 false None 10 false)) paths1
      = map (reindex (known_columns false))
            (List.filter (to_can1 (log_tagged tagged_log)) D) /\
      Forall (fun rec => xorb (to_can0 (log_tagged tagged_log) rec)
                              (to_can1 (log_tagged tagged_log) rec) = true) D /\
      (List.length (rows_on_disk (run_files (decode_csv_split tagged_log ∅ "out_can0.csv"
                                               "out_can1.csv" false None 10 false)) paths0)
       + List.length (rows_on_disk (run_files (decode_csv_split tagged_log ∅ "out_can0.csv"
                                                 "out_can1.csv" false None 10 false)) paths1)
       = List.length D)%nat.
Proof.
  eexists. split; [vm_compute; reflexivity|].
  refine (split_streams_partition tagged_log ∅ "out_can0.csv" "out_can1.csv"
            false None 10 false _ _ _ _ _).
  - lia.
  - apply disjoint_by_stem; vm_compute; [reflexivity|discriminate].
  - vm_compute. reflexivity.
  - intros _.
    change (Forall (fun row => known_tag (r_channel row)) (in_rows tagged_log)).
    unfold tagged_log, in_rows.
    apply List.Forall_cons; [right; vm_compute; reflexivity|].
    apply List.Forall_cons; [left; vm_compute; reflexivity|].
    apply List.Forall_nil.
Defined.

(** ** Field codecs as arithmetic *)

Lemma lor_shiftl_add b0 b1 n :
  0 <= n -> 0 <= b0 < 2 ^ n -> Z.lor b0 (Z.shiftl b1 n) = b0 + b1 * 2 ^ n.
Proof.
  intros Hn Hb0. rewrite Z.shiftl_mul_pow2 by done.
  assert (Hland : Z.land b0 (b1 * 2 ^ n) = 0).
  { apply Z.bits_inj'. intros k Hk. rewrite Z.land_spec, Z.bits_0.
    destruct (Z.lt_ge_cases k n).
    - by rewrite Z.mul_pow2_bits_low, andb_false_r.
    - rewrite <- (Z.mod_small b0 (2 ^ n)) by done.
      by rewrite Z.mod_pow2_bits_high. }
  by rewrite <- Z.lxor_lor, <- Z.add_nocarry_lxor.
Qed.

Lemma land_ones_small v n : 0 <= n -> 0 <= v < 2 ^ n -> Z.land v (Z.ones n) = v.
Proof. intros Hn Hv. rewrite Z.land_ones by done. by apply Z.mod_small. Qed.

Lemma land_pow2_zero v n :
  0 <= n -> (Z.land v (2 ^ n) =? 0) = negb (Z.testbit v n).
Proof.
  intros Hn. destruct (Z.testbit v n) eqn:E; cbn [negb].
  - apply Z.eqb_neq. intros H0. apply (f_equal (fun x => Z.testbit x n)) in H0.
    rewrite Z.land_spec, Z.pow2_bits_true, Z.bits_0, E in H0 by done. discriminate H0.
  - apply Z.eqb_eq. apply Z.bits_inj'. intros k Hk.
    rewrite Z.land_spec, Z.bits_0, Z.pow2_bits_eqb by done.
    destruct (Z.eqb_spec n k) as [->|]; [by rewrite E|by rewrite andb_false_r].
Qed.

Lemma testbit_top v n :
  0 <= n -> 0 <= v < 2 ^ (n + 1) -> Z.testbit v n = (2 ^ n <=? v).
Proof.
  intros Hn Hv. rewrite Z.testbit_eqb by done.
  rewrite Z.pow_add_r, Z.pow_1_r in Hv by lia.
  assert (0 < 2 ^ n) by (by apply Z.pow_pos_nonneg).
  destruct (Z.leb_spec (2 ^ n) v).
  - assert (v / 2 ^ n = 1) as ->
      by (symmetry; apply (Z.div_unique v (2 ^ n) 1 (v - 2 ^ n)); lia).
    done.
  - by rewrite Z.div_small by lia.
Qed.

Lemma u16_le_value x y : 0 <= x < 256 -> 0 <= y < 256 -> u16_le x y = x + 256 * y.
Proof.
  intros Hx Hy. unfold u16_le. rewrite (lor_shiftl_add x y 8) by lia.
  change 0xFFFF with (Z.ones 16). rewrite land_ones_small; lia.
Qed.

(** X1: on two bytes, [u16_le] is the little-endian and [u16_be] the
    big-endian 16-bit value. *)
Theorem u16_values (b0 b1 : Z) :
  0 <= b0 < 256 -> 0 <= b1 < 256 ->
  u16_le b0 b1 = b0 + 256 * b1 /\ u16_be b0 b1 = 256 * b0 + b1 /\
  u16_be b0 b1 = u16_le b1 b0.
Proof.
  intros H0 H1.
  assert (Hbe : u16_be b0 b1 = 256 * b0 + b1).
  { unfold u16_be. rewrite Z.lor_comm, (lor_shiftl_add b1 b0 8) by lia.
    change 0xFFFF with (Z.ones 16). rewrite land_ones_small; lia. }
  rewrite Hbe, !u16_le_value by done. lia.
Qed.

Lemma u16_values_witness :
  u16_le 0x34 0x12 = 0x34 + 256 * 0x12 /\ u16_be 0x34 0x12 = 256 * 0x34 + 0x12 /\
  u16_be 0x34 0x12 = u16_le 0x12 0x34.
Proof. apply (u16_values 0x34 0x12); lia. Defined.

Lemma s16_le_eq b0 b1 :
  0 <= b0 < 256 -> 0 <= b1 < 256 ->
  s16_le b0 b1 = if 32768 <=? b0 + 256 * b1 then b0 + 256 * b1 - 65536 else b0 + 256 * b1.
Proof.
  intros H0 H1. unfold s16_le.
  rewrite (u16_le_value b0 b1 H0 H1).
  change 0x8000 with (2 ^ 15). rewrite land_pow2_zero by lia.
  rewrite (testbit_top _ 15) by lia. change (2 ^ 15) with 32768.
  by destruct (32768 <=? b0 + 256 * b1).
Qed.

(** X2: [s16_le] reads two bytes as a two's-complement 16-bit integer: the
    result lies in [-32768, 32767] and is congruent to the unsigned value
    modulo 65536; every such integer is the reading of its own two
    low-order bytes. *)
Theorem s16_le_twos_complement (b0 b1 : Z) :
  0 <= b0 < 256 -> 0 <= b1 < 256 ->
  -32768 <= s16_le b0 b1 < 32768 /\
  s16_le b0 b1 mod 65536 = b0 + 256 * b1 /\
  (forall v, -32768 <= v < 32768 -> v mod 65536 = b0 + 256 * b1 -> s16_le b0 b1 = v).
Proof.
  intros H0 H1. rewrite (s16_le_eq b0 b1 H0 H1).
  destruct (Z.leb_spec 32768 (b0 + 256 * b1)).
  - split; [lia|]. split.
    + symmetry. apply Z.mod_unique with (q := -1); lia.
    + intros v Hv Hmod.
      assert (v = 65536 * (v / 65536) + v mod 65536) by (apply Z.div_mod; lia).
      assert (v / 65536 = -1 \/ v / 65536 = 0) as [Hq|Hq]; [|lia..].
      assert (-1 <= v / 65536 < 1); [|lia].
      split; [apply Z.div_le_lower_bound; lia|apply Z.div_lt_upper_bound; lia].
  - split; [lia|]. split.
    + apply Z.mod_small. lia.
    + intros v Hv Hmod.
      assert (v = 65536 * (v / 65536) + v mod 65536) by (apply Z.div_mod; lia).
      assert (-1 <= v / 65536 < 1); [|lia].
      split; [apply Z.div_le_lower_bound; lia|apply Z.div_lt_upper_bound; lia].
Qed.

Lemma s16_le_twos_complement_witness :
  -32768 <= s16_le 0xFE 0xFF < 32768 /\
  s16_le 0xFE 0xFF mod 65536 = 0xFE + 256 * 0xFF /\
  (forall v, -32768 <= v < 32768 -> v mod 65536 = 0xFE + 256 * 0xFF -> s16_le 0xFE 0xFF = v).
Proof. apply (s16_le_twos_complement 0xFE 0xFF); lia. Defined.

(** X3: [s8] reads a byte as a two's-complement 8-bit integer: the result
    lies in [-128, 127], is congruent to the byte modulo 256, and is zero
    only for the zero byte. *)
Theorem s8_twos_complement (v : Z) :
  0 <= v < 256 ->
  -128 <= s8 v < 128 /\ s8 v mod 256 = v /\ (s8 v = 0 <-> v = 0).
Proof.
  intros Hv. unfold s8. destruct (Z.leb_spec 128 v).
  - split; [lia|]. split; [|lia]. symmetry. apply Z.mod_unique with (q := -1); lia.
  - split; [lia|]. split; [|lia]. apply Z.mod_small. lia.
Qed.

Lemma s8_twos_complement_witness :
  -128 <= s8 0xFF < 128 /\ s8 0xFF mod 256 = 0xFF /\ (s8 0xFF = 0 <-> 0xFF = 0).
Proof. apply (s8_twos_complement 0xFF). lia. Defined.

(** ** Bit expansion and the schema *)

Lemma bit_of_testbit word b : 0 <= b -> bit_of word b = Z.b2z (Z.testbit word b).
Proof.
  intros Hb. unfold bit_of.
  replace (Z.land (Z.shiftr word b) 1) with (Z.b2z (Z.testbit word b));
    [by destruct (Z.testbit word b)|].
  change 1 with (Z.ones 1). rewrite Z.land_ones by lia. change (2 ^ 1) with 2.
  by rewrite <- Z.bit0_mod, Z.shiftr_spec, Z.add_0_l by lia.
Qed.

Lemma dict_set_fresh k v r : k ∉ keys r -> dict_set k v r = r ++ [(k, v)].
Proof.
  induction r as [|[k0 v0] r IH]; intros Hk; simpl; [done|].
  unfold keys in Hk. simpl in Hk. apply not_elem_of_cons in Hk as [Hne Hk].
  apply String.eqb_neq in Hne as ->. by rewrite IH.
Qed.

Lemma dict_update_fresh r l :
  NoDup (map fst l) -> (forall k, k ∈ map fst l -> k ∉ keys r) ->
  dict_update r l = r ++ l.
Proof.
  unfold dict_update. revert r.
  induction l as [|[k v] l IH]; intros r Hnd Hfresh; simpl; [by rewrite app_nil_r|].
  simpl in Hnd. apply NoDup_cons in Hnd as [Hk Hnd].
  rewrite dict_set_fresh by (apply Hfresh; by left).
  rewrite IH; [by rewrite <- app_assoc|done|].
  intros k' Hk'. unfold keys. rewrite map_app. simpl.
  rewrite elem_of_app, list_elem_of_singleton. intros [Hin | ->].
  - by apply (Hfresh k'); [right|].
  - done.
Qed.

Lemma dict_of_nodup l : NoDup (map fst l) -> dict_of l = l.
Proof.
  intros H. unfold dict_of. rewrite dict_update_fresh; [done|done|].
  intros k _ Hk. inversion Hk.
Qed.

Lemma dict_get_map_keys {A} (g : A -> string) (h : A -> value) (l : list A) x :
  (forall a b, g a = g b -> a = b) -> x ∈ l ->
  dict_get (g x) (map (fun a => (g a, h a)) l) = Some (h x).
Proof.
  intros Hg. induction l as [|a l IH]; intros Hx; [inversion Hx|]. simpl.
  destruct (String.eqb_spec (g x) (g a)) as [E|E].
  - by rewrite (Hg _ _ E).
  - apply elem_of_cons in Hx as [->|Hx]; [done|by apply IH].
Qed.

Lemma bit_key_inj prefix (a b : nat) :
  prefix +:+ "_bit" +:+ PyStr.dec (Z.of_nat a) = prefix +:+ "_bit" +:+ PyStr.dec (Z.of_nat b) ->
  a = b.
Proof.
  intros H%String.app_inj%String.app_inj. unfold PyStr.dec in H.
  apply pretty_Z_inj in H. lia.
Qed.

Lemma expand_bits_word_list word prefix :
  expand_bits_word word prefix
  = map (fun b : nat => (prefix +:+ "_bit" +:+ PyStr.dec (Z.of_nat b),
                         VInt (bit_of word (Z.of_nat b)))) (seq 0 16).
Proof.
  unfold expand_bits_word. apply dict_of_nodup. rewrite map_map. cbn [fst].
  apply NoDup_fmap_2; [|apply NoDup_seq].
  intros a b. apply bit_key_inj.
Qed.

(** X4: [expand_bits_word] gives exactly the sixteen keys
    [<prefix>_bit0 .. <prefix>_bit15], in this order; the value under
    [<prefix>_bit<b>] is bit [b] of the word as 0 or 1; so two words have
    the same expansion only if they agree modulo 65536. *)
Theorem expand_bits_word_faithful (word : Z) (prefix : string) :
  keys (expand_bits_word word prefix)
  = map (fun b : nat => prefix +:+ "_bit" +:+ PyStr.dec (Z.of_nat b)) (seq 0 16) /\
  (forall b : nat, (b < 16)%nat ->
     dict_get (prefix +:+ "_bit" +:+ PyStr.dec (Z.of_nat b)) (expand_bits_word word prefix)
     = Some (VInt (Z.b2z (Z.testbit word (Z.of_nat b))))) /\
  (forall word', expand_bits_word word' prefix = expand_bits_word word prefix ->
                 word' mod 65536 = word mod 65536).
Proof.
  assert (Hget : forall w (b : nat), (b < 16)%nat ->
     dict_get (prefix +:+ "_bit" +:+ PyStr.dec (Z.of_nat b)) (expand_bits_word w prefix)
     = Some (VInt (Z.b2z (Z.testbit w (Z.of_nat b))))).
  { intros w b Hb. rewrite expand_bits_word_list.
    rewrite (dict_get_map_keys
               (fun b : nat => prefix +:+ "_bit" +:+ PyStr.dec (Z.of_nat b))
               (fun b : nat => VInt (bit_of w (Z.of_nat b)))).
    - by rewrite bit_of_testbit by lia.
    - intros x y. apply bit_key_inj.
    - apply elem_of_seq. lia. }
  split; [|split; [apply Hget|]].
  - rewrite expand_bits_word_list. unfold keys. by rewrite map_map.
  - intros word' Heq. change 65536 with (2 ^ 16). apply Z.bits_inj'. intros k Hk.
    destruct (Z.lt_ge_cases k 16).
    + rewrite !Z.mod_pow2_bits_low by lia.
      assert (Hb : (Z.to_nat k < 16)%nat) by lia.
      pose proof (Hget word (Z.to_nat k) Hb) as H1.
      pose proof (Hget word' (Z.to_nat k) Hb) as H2.
      rewrite Heq, H1 in H2. rewrite Z2Nat.id in H2 by done.
      injection H2 as H2. by destruct (Z.testbit word k), (Z.testbit word' k).
    + by rewrite !Z.mod_pow2_bits_high by lia.
Qed.

(** X5: with [include_bits] the schema is the base schema followed by
    exactly the keys [expand_bits_bytes] adds for an 8-byte payload, in the
    same order, and no column name occurs twice in it. *)
Theorem bit_columns_match_schema (d : list byte) :
  List.length d = 8%nat ->
  known_columns true = known_columns false ++ keys (expand_bits_bytes d "b") /\
  NoDup (known_columns true).
Proof.
  intros Hd. payload d. split; [reflexivity|].
  apply (bool_decide_unpack _). vm_compute. reflexivity.
Qed.

Lemma bit_columns_match_schema_witness :
  known_columns true
  = known_columns false
    ++ keys (expand_bits_bytes [x01; x02; x03; x04; x05; x06; x07; x08] "b") /\
  NoDup (known_columns true).
Proof. apply (bit_columns_match_schema [x01; x02; x03; x04; x05; x06; x07; x08]). reflexivity. Defined.

(** ** Reading and printing ids *)

Lemma hex_digit_not_underscore a v :
  PyStr.hex_digit a = Some v -> (PyStr.code a =? 95) = false.
Proof.
  unfold PyStr.hex_digit. intros H. apply Z.eqb_neq. intros E. rewrite E in H.
  discriminate H.
Qed.

Lemma int16_digits_hex l acc prev :
  forallb is_hex l = true -> l <> [] \/ prev = true ->
  PyStr.int16_digits l acc prev
  = Some (fold_left (fun acc a => 16 * acc + default 0 (PyStr.hex_digit a)) l acc).
Proof.
  revert acc prev. induction l as [|a l IH]; intros acc prev Hhex Hne.
  - destruct Hne as [| ->]; done.
  - cbn [forallb] in Hhex. apply andb_prop in Hhex as [Ha Hl].
    unfold is_hex in Ha. destruct (PyStr.hex_digit a) as [v|] eqn:E; [|done].
    cbn [PyStr.int16_digits fold_left]. rewrite (hex_digit_not_underscore a v E), E.
    apply IH; [done|by right].
Qed.

Lemma int16_body_hex l :
  forallb is_hex l = true -> l <> [] ->
  PyStr.int16_body l = PyStr.int16_digits l 0 false.
Proof.
  intros Hhex Hne. unfold PyStr.int16_body.
  destruct l as [|z [|x rest]]; [done..|].
  cbn [forallb] in Hhex. apply andb_prop in Hhex as [_ Hx].
  apply andb_prop in Hx as [Hx _]. unfold is_hex, PyStr.hex_digit in Hx.
  destruct (Z.eqb_spec (PyStr.code x) 120) as [E|_];
    [rewrite E in Hx; discriminate Hx|].
  destruct (Z.eqb_spec (PyStr.code x) 88) as [E|_];
    [rewrite E in Hx; discriminate Hx|].
  by rewrite andb_false_r.
Qed.

Lemma int16_prefixed x l :
  PyStr.code x = 120 \/ PyStr.code x = 88 ->
  forallb is_hex l = true -> l <> [] ->
  PyStr.int16_body ("0"%char :: x :: l) = PyStr.int16_digits l 0 false.
Proof.
  intros Hx Hhex Hne. unfold PyStr.int16_body.
  replace ((PyStr.code "0" =? 48) && ((PyStr.code x =? 120) || (PyStr.code x =? 88)))
    with true by (destruct Hx as [-> | ->]; reflexivity).
  destruct l as [|u l]; [done|].
  cbn [forallb] in Hhex. apply andb_prop in Hhex as [Hu _].
  unfold is_hex in Hu. destruct (PyStr.hex_digit u) as [v|] eqn:E; [|done].
  by rewrite (hex_digit_not_underscore u v E).
Qed.

Lemma int16_unsigned l :
  forallb (fun a => negb (PyStr.is_space a)) l = true ->
  match l with
  | a :: _ => (PyStr.code a =? 45) = false /\ (PyStr.code a =? 43) = false
  | [] => True
  end ->
  PyStr.int16 (PyStr.str l) = if l is [] then None else PyStr.int16_body l.
Proof.
  intros Hsp Hsign. unfold PyStr.int16. rewrite chars_str, strip_chars_id by done.
  destruct l as [|a l]; [done|]. destruct Hsign as [-> ->]. done.
Qed.

Lemma parse_can_id_chars l :
  forallb (fun a => negb (PyStr.is_space a)) l = true ->
  parse_can_id (PyStr.str l)
  = match PyStr.int16 (PyStr.str l) with Some n => Ok n | None => Raise ValueError end.
Proof.
  intros Hsp. unfold parse_can_id, PyStr.strip.
  by rewrite chars_str, strip_chars_id by done.
Qed.

Lemma is_hex_facts a :
  is_hex a = true ->
  PyStr.is_space a = false /\ (PyStr.code a =? 45) = false /\ (PyStr.code a =? 43) = false.
Proof.
  unfold is_hex. destruct (PyStr.hex_digit a) as [v|] eqn:E; [|done]. intros _.
  split; [by apply hex_digit_facts in E as (_ & ? & _)|].
  unfold PyStr.hex_digit in E.
  split; apply Z.eqb_neq; intros E'; rewrite E' in E; discriminate E.
Qed.

(** X6: an id made of hex digits reads as the number the digits denote in
    base 16, with or without a [0x] or [0X] prefix; so an id that looks
    decimal is read as hexadecimal all the same. *)
Theorem parse_can_id_hex_text (s : string) :
  all_hex s = true -> s <> "" ->
  parse_can_id s = Ok (hex_value s) /\
  parse_can_id ("0x" +:+ s) = Ok (hex_value s) /\
  parse_can_id ("0X" +:+ s) = Ok (hex_value s).
Proof.
  intros Hhex Hne. unfold all_hex in Hhex.
  assert (Hl : PyStr.chars s <> []) by (destruct s; [done|discriminate]).
  assert (Hsp : forallb (fun a => negb (PyStr.is_space a)) (PyStr.chars s) = true)
    by (by apply all_hex_no_space).
  assert (Hdig : PyStr.int16_digits (PyStr.chars s) 0 false = Some (hex_value s))
    by (apply int16_digits_hex; [done|by left]).
  assert (Hpre : forall x, PyStr.code x = 120 \/ PyStr.code x = 88 ->
                           PyStr.is_space x = false ->
             parse_can_id (String "0" (String x s)) = Ok (hex_value s)).
  { intros x Hx Hxs.
    rewrite <- (str_chars (String "0" (String x s))).
    change (PyStr.chars (String "0" (String x s))) with ("0"%char :: x :: PyStr.chars s).
    rewrite parse_can_id_chars by (cbn [forallb]; by rewrite Hxs, Hsp).
    rewrite int16_unsigned; [|cbn [forallb]; by rewrite Hxs, Hsp|done].
    by rewrite int16_prefixed, Hdig. }
  split; [|split; apply Hpre; (by left) || (by right) || done].
  rewrite <- (str_chars s) at 1. rewrite parse_can_id_chars by done.
  rewrite int16_unsigned; [| done |].
  - destruct (PyStr.chars s); [done|]. by rewrite int16_body_hex, Hdig.
  - destruct (PyStr.chars s) as [|a l]; [done|].
    cbn [forallb] in Hhex. apply andb_prop in Hhex as [Ha _].
    by apply is_hex_facts in Ha as (_ & ? & ?).
Qed.

Lemma parse_can_id_hex_text_witness :
  parse_can_id "500" = Ok (hex_value "500") /\
  parse_can_id ("0x" +:+ "500") = Ok (hex_value "500") /\
  parse_can_id ("0X" +:+ "500") = Ok (hex_value "500").
Proof. apply (parse_can_id_hex_text "500"); [reflexivity|discriminate]. Defined.

Lemma of_pos_digits :
  forall (p : positive) (rest : string),
  exists l k,
    PyStr.chars (HexString.Raw.of_pos p rest) = l ++ PyStr.chars rest /\
    l <> [] /\ forallb is_hex l = true /\ 0 <= k /\
    forall acc,
      fold_left (fun acc a => 16 * acc + default 0 (PyStr.hex_digit a)) l acc
      = acc * 16 ^ k + Zpos p.
Proof.
  fix IH 1. intros p rest.
  do 4 try destruct p as [p|p|]; cbn [HexString.Raw.of_pos];
    match goal with
    | |- exists l k, PyStr.chars (HexString.Raw.of_pos p (String ?c rest)) = _ /\ _ =>
        destruct (IH p (String c rest)) as (l' & k' & Hl & _ & Hhex & Hk & Hfold);
        exists (l' ++ [c]), (k' + 1);
        split; [rewrite Hl; by rewrite <- app_assoc|];
        split; [by destruct l'|];
        split; [rewrite forallb_app, Hhex; reflexivity|];
        split; [lia|];
        intros acc; rewrite fold_left_app, Hfold, Z.pow_add_r by lia;
        cbn [fold_left];
        let v := eval vm_compute in (default 0 (PyStr.hex_digit c)) in
        change (default 0 (PyStr.hex_digit c)) with v;
        change (16 ^ 1) with 16; lia
    | |- exists l k, PyStr.chars (String ?c rest) = _ /\ _ =>
        exists [c], 1;
        split; [reflexivity|]; split; [done|]; split; [reflexivity|]; split; [lia|];
        intros acc; cbn [fold_left];
        let v := eval vm_compute in (default 0 (PyStr.hex_digit c)) in
        change (default 0 (PyStr.hex_digit c)) with v;
        change (16 ^ 1) with 16; lia
    end.
Qed.

(** X7: the [id_hex] text of a record reads back as the id it was printed
    from: for every integer [n], [parse_can_id (hex n)] returns [n]. *)
Theorem parse_can_id_hex_roundtrip (n : Z) : parse_can_id (PyStr.hex n) = Ok n.
Proof.
  assert (Hpos : forall p,
            exists l, PyStr.chars (HexString.Raw.of_pos p "") = l /\
                      forallb (fun a => negb (PyStr.is_space a)) l = true /\
                      PyStr.int16_body ("0"%char :: "x"%char :: l) = Some (Zpos p)).
  { intros p. destruct (of_pos_digits p "") as (l & k & Hl & Hne & Hhex & _ & Hfold).
    cbn [PyStr.chars list_ascii_of_string] in Hl. rewrite app_nil_r in Hl.
    exists l. split; [done|]. split; [by apply all_hex_no_space|].
    rewrite int16_prefixed by (done || by left).
    rewrite int16_digits_hex by (done || by left). by rewrite Hfold. }
  unfold PyStr.hex. destruct n as [|p|p]; [reflexivity| |].
  - destruct (Hpos p) as (l & Hl & Hsp & Hbody).
    unfold HexString.of_Z, HexString.of_pos.
    rewrite <- (str_chars (String "0" (String "x" _))).
    change (PyStr.chars (String "0" (String "x" (HexString.Raw.of_pos p ""))))
      with ("0"%char :: "x"%char :: PyStr.chars (HexString.Raw.of_pos p "")).
    rewrite Hl, parse_can_id_chars by (cbn [forallb]; by rewrite Hsp).
    rewrite int16_unsigned; [by rewrite Hbody|cbn [forallb]; by rewrite Hsp|done].
  - destruct (Hpos p) as (l & Hl & Hsp & Hbody).
    unfold HexString.of_Z, HexString.of_pos.
    rewrite <- (str_chars (String "-" _)).
    change (PyStr.chars (String "-" (String "0" (String "x" (HexString.Raw.of_pos p "")))))
      with ("-"%char :: "0"%char :: "x"%char :: PyStr.chars (HexString.Raw.of_pos p "")).
    rewrite Hl, parse_can_id_chars by (cbn [forallb]; by rewrite Hsp).
    unfold PyStr.int16. rewrite chars_str, strip_chars_id by (cbn [forallb]; by rewrite Hsp).
    change (PyStr.code "-" =? 45) with true. cbv iota. by rewrite Hbody.
Qed.

(** ** What every record carries *)

Ltac framed_by_eval :=
  match goal with
  | H : Ok _ = Ok _ |- _ => injection H as <-; by repeat constructor
  end.

Lemma decode_or_svolt_framed ts can_id d rs :
  decode_or_svolt ts can_id d = Ok rs -> Forall (framed ts can_id "OR_SVOLT") rs.
Proof. unfold decode_or_svolt. intros H. split_bytes H. framed_by_eval. Qed.

Lemma decode_or_pack_framed ts can_id d rs :
  decode_or_pack ts can_id d = Ok rs -> Forall (framed ts can_id "OR_PACK") rs.
Proof. unfold decode_or_pack. intros H. split_bytes H. framed_by_eval. Qed.

Lemma decode_or_stemp_framed ts can_id d rs :
  decode_or_stemp ts can_id d = Ok rs -> Forall (framed ts can_id "OR_STEMP") rs.
Proof. unfold decode_or_stemp. intros H. split_bytes H. framed_by_eval. Qed.

Lemma decode_or_flags_framed ts can_id d rs :
  decode_or_flags ts can_id d = Ok rs -> Forall (framed ts can_id "OR_FLAGS") rs.
Proof. unfold decode_or_flags. intros H. split_bytes H. framed_by_eval. Qed.

Lemma decode_or_avolt_framed ts can_id d ib rs :
  decode_or_avolt ts can_id d ib = Ok rs -> Forall (framed ts can_id "OR_AVOLT") rs.
Proof.
  unfold decode_or_avolt. intros H. split_bytes H. injection H as <-.
  constructor; [|constructor]. destruct ib; [|by repeat constructor].
  unfold framed.
  rewrite !dict_get_update_notin by (intros (s & [=])%expand_bits_bytes_keys).
  by repeat constructor.
Qed.

Lemma atemp_pair_framed ts can_id d i rs :
  atemp_pair ts can_id d i = Ok rs -> Forall (framed ts can_id "OR_ATEMP") rs.
Proof.
  unfold atemp_pair. intros H. split_bytes H. split_ifs H; framed_by_eval.
Qed.

Lemma decode_or_atemp_framed ts can_id d rs :
  decode_or_atemp ts can_id d = Ok rs -> Forall (framed ts can_id "OR_ATEMP") rs.
Proof.
  unfold decode_or_atemp. intros H.
  apply bind_ok_inv in H as (r0 & P0%atemp_pair_framed & H).
  apply bind_ok_inv in H as (r2 & P2%atemp_pair_framed & H).
  apply bind_ok_inv in H as (r4 & P4%atemp_pair_framed & H).
  apply bind_ok_inv in H as (r6 & P6%atemp_pair_framed & H).
  injection H as <-. by rewrite !Forall_app.
Qed.

Lemma decode_therm_general_framed ts can_id d rs :
  decode_therm_general ts can_id d = Ok rs -> Forall (framed ts can_id "THERM_GENERAL") rs.
Proof. unfold decode_therm_general. intros H. split_bytes H. framed_by_eval. Qed.

Lemma decode_therm_addrclaim_framed ts can_id d rs :
  decode_therm_addrclaim ts can_id d = Ok rs ->
  Forall (framed ts can_id "THERM_ADDR_CLAIM") rs.
Proof. unfold decode_therm_addrclaim. intros H. split_bytes H. framed_by_eval. Qed.

Lemma decode_mc_framed ts can_id d rs :
  decode_mc ts can_id d = Ok rs ->
  Forall (framed ts can_id
            (offset_name MC_OFFSETS "MC"
               (can_id - (if in_range MC_CAN_BASE1 can_id (MC_CAN_BASE1 + 0x20)
                          then MC_CAN_BASE1 else MC_CAN_BASE2)))) rs.
Proof.
  unfold decode_mc. intros H. split_floats H.
  generalize dependent (offset_name MC_OFFSETS "MC").
  intros name H. split_ifs H; framed_by_eval.
Qed.

Lemma decode_dc_framed ts can_id d rs :
  decode_dc ts can_id d = Ok rs ->
  Forall (framed ts can_id (offset_name DC_OFFSETS "DC" (can_id - DC_CAN_BASE))) rs.
Proof.
  unfold decode_dc. generalize (offset_name DC_OFFSETS "DC" (can_id - DC_CAN_BASE)).
  intros name H.
  destruct (name =? "DC_DRIVE")%string; [split_floats H; framed_by_eval|].
  destruct (name =? "DC_POWER")%string; [split_floats H; framed_by_eval|].
  destruct (name =? "DC_SWITCH")%string; [split_words H; framed_by_eval|].
  framed_by_eval.
Qed.

Lemma decode_stw_framed ts can_id d rs :
  decode_stw ts can_id d = Ok rs ->
  Forall (framed ts can_id (offset_name STW_OFFSETS "STW" (can_id - STW_CAN_BASE))) rs.
Proof.
  unfold decode_stw. generalize (offset_name STW_OFFSETS "STW" (can_id - STW_CAN_BASE)).
  intros name H. split_words H. split_ifs H; framed_by_eval.
Qed.

Lemma decode_bp_framed ts can_id d rs :
  decode_bp ts can_id d = Ok rs ->
  Forall (framed ts can_id (offset_name BP_OFFSETS "BP" (can_id - BP_CAN_BASE))) rs.
Proof.
  unfold decode_bp, int_round.
  generalize (offset_name BP_OFFSETS "BP" (can_id - BP_CAN_BASE)).
  intros name H. split_floats H.
  split_ifs H;
    try (apply bind_ok_inv in H as (? & _ & H); cbv beta in H);
    framed_by_eval.
Qed.

Lemma decode_mppt_framed ts can_id d rs :
  decode_mppt ts can_id d = Ok rs -> Forall (framed ts can_id "MPPT") rs.
Proof.
  unfold decode_mppt. intros H. split_words H.
  destruct (can_id =? MPPT_CAN_ONOFF); [split_bytes H|]; framed_by_eval.
Qed.

Lemma decoders_exact_framed can_id dec ts d rs :
  DECODERS_EXACT can_id = Some dec -> dec ts can_id d = Ok rs ->
  Forall (framed ts can_id (message_name can_id)) rs.
Proof.
  unfold DECODERS_EXACT, message_name. intros Hdec.
  destruct (can_id =? OR_SVOLT); [injection Hdec as <-; apply decode_or_svolt_framed|].
  destruct (can_id =? OR_PACK); [injection Hdec as <-; apply decode_or_pack_framed|].
  destruct (can_id =? OR_STEMP); [injection Hdec as <-; apply decode_or_stemp_framed|].
  destruct (can_id =? OR_FLAGS); [injection Hdec as <-; apply decode_or_flags_framed|].
  destruct (can_id =? OR_AVOLT); [injection Hdec as <-; apply decode_or_avolt_framed|].
  destruct (can_id =? OR_ATEMP); [injection Hdec as <-; apply decode_or_atemp_framed|].
  destruct (can_id =? THERM_GENERAL);
    [injection Hdec as <-; apply decode_therm_general_framed|].
  destruct (can_id =? THERM_ADDRCLAIM);
    [injection Hdec as <-; apply decode_therm_addrclaim_framed|].
  destruct (can_id =? MPPT_CAN_ONOFF); [injection Hdec as <-; apply decode_mppt_framed|].
  discriminate Hdec.
Qed.

Lemma decoders_exact_none can_id :
  DECODERS_EXACT can_id = None ->
  message_name can_id =
  if in_range MC_CAN_BASE1 can_id (MC_CAN_BASE1 + 0x20)
  then offset_name MC_OFFSETS "MC" (can_id - MC_CAN_BASE1)
  else if in_range MC_CAN_BASE2 can_id (MC_CAN_BASE2 + 0x20)
  then offset_name MC_OFFSETS "MC" (can_id - MC_CAN_BASE2)
  else if in_range DC_CAN_BASE can_id (DC_CAN_BASE + 0x10)
  then offset_name DC_OFFSETS "DC" (can_id - DC_CAN_BASE)
  else if in_range STW_CAN_BASE can_id (STW_CAN_BASE + 0x10)
  then offset_name STW_OFFSETS "STW" (can_id - STW_CAN_BASE)
  else if in_range BP_CAN_BASE can_id (BP_CAN_BASE + 0x10)
  then offset_name BP_OFFSETS "BP" (can_id - BP_CAN_BASE)
  else if in_range MPPT_CAN_BASE can_id (MPPT_CAN_BASE + 0x20) then "MPPT"
  else "RAW".
Proof.
  unfold DECODERS_EXACT, message_name.
  repeat (match goal with |- context [if (can_id =? ?c) then _ else _] =>
            destruct (can_id =? c); [discriminate|] end).
  done.
Qed.

Lemma decode_dynamic_framed can_id ts d :
  DECODERS_EXACT can_id = None ->
  match decode_dynamic ts can_id d with
  | Some (Ok rs) => Forall (framed ts can_id (message_name can_id)) rs
  | Some _ => True
  | None => message_name can_id = "RAW"
  end.
Proof.
  intros Hex. rewrite (decoders_exact_none can_id Hex). unfold decode_dynamic.
  destruct (in_range MC_CAN_BASE1 can_id _) eqn:E1; cbn [orb].
  { destruct (decode_mc ts can_id d) as [rs| |] eqn:H; [|done..].
    apply decode_mc_framed in H. by rewrite E1 in H. }
  destruct (in_range MC_CAN_BASE2 can_id _) eqn:E2.
  { destruct (decode_mc ts can_id d) as [rs| |] eqn:H; [|done..].
    apply decode_mc_framed in H. by rewrite E1 in H. }
  destruct (in_range DC_CAN_BASE can_id _).
  { destruct (decode_dc ts can_id d) as [rs| |] eqn:H; [|done..].
    by apply decode_dc_framed in H. }
  destruct (in_range STW_CAN_BASE can_id _).
  { destruct (decode_stw ts can_id d) as [rs| |] eqn:H; [|done..].
    by apply decode_stw_framed in H. }
  destruct (in_range BP_CAN_BASE can_id _).
  { destruct (decode_bp ts can_id d) as [rs| |] eqn:H; [|done..].
    by apply decode_bp_framed in H. }
  destruct (in_range MPPT_CAN_BASE can_id _).
  { destruct (decode_mppt ts can_id d) as [rs| |] eqn:H; [|done..].
    by apply decode_mppt_framed in H. }
  done.
Qed.

Lemma finish_record_framed ib chan data_b ts can_id m rec :
  framed ts can_id m rec -> framed ts can_id m (finish_record ib chan data_b rec).
Proof.
  intros (Hts & Hid & Hm). unfold framed.
  rewrite !finish_record_get by (done || by intros s [=]). done.
Qed.

Lemma records_carry_frame_identity_aux (ib : bool) (cols : list string) (r : RawRow)
    (rs : list record) :
  row_records ib cols r = Some (Ok rs) ->
  exists can_id,
    parse_can_id (PyStr.strip (default "" (row_get cols r "id"))) = Ok can_id /\
    Forall (framed (VStr (default "" (row_get cols r "timestamp"))) can_id
                   (message_name can_id)) rs.
Proof.
  unfold row_records.
  destruct (_ =? "")%string; [done|].
  destruct (parse_can_id _) as [can_id| |]; [|done..].
  destruct (PyStr.fromhex _) as [data_b|]; [|done].
  set (ts := VStr (default "" (row_get cols r "timestamp"))).
  intros H. exists can_id. split; [done|].
  destruct (DECODERS_EXACT can_id) as [dec|] eqn:Hdec.
  - injection H as H. apply bind_ok_inv in H as (raw & Hraw & [= <-]).
    rewrite Forall_fmap. eapply Forall_impl; [by eapply decoders_exact_framed|].
    intros rec Hrec. by apply finish_record_framed.
  - pose proof (decode_dynamic_framed can_id ts data_b Hdec) as Hdyn.
    destruct (decode_dynamic ts can_id data_b) as [res|].
    + injection H as H. apply bind_ok_inv in H as (raw & -> & [= <-]).
      rewrite Forall_fmap. eapply Forall_impl; [exact Hdyn|].
      intros rec Hrec. by apply finish_record_framed.
    + injection H as <-. rewrite Hdyn. constructor; [|constructor].
      apply finish_record_framed. by repeat constructor.
Qed.

(** X8: every record of a row carries the row's timestamp text (the empty
    text when the log has no timestamp column), the id printed by [hex],
    a message name that depends on the id alone (the name the dispatch
    tables give the id, or RAW), and the row's channel tag exactly when the
    log has a channel column. *)
Theorem records_carry_frame_identity (ib : bool) (cols : list string) (r : RawRow)
    (rs : list record) :
  row_records ib cols r = Some (Ok rs) ->
  exists can_id,
    parse_can_id (PyStr.strip (default "" (row_get cols r "id"))) = Ok can_id /\
    Forall (fun rec =>
              framed (VStr (default "" (row_get cols r "timestamp"))) can_id
                     (message_name can_id) rec /\
              dict_get "channel" rec = VStr <$> row_get cols r "channel") rs.
Proof.
  intros Hrow.
  destruct (records_carry_frame_identity_aux ib cols r rs Hrow) as (can_id & Hparse & Hfr).
  exists can_id. split; [done|].
  destruct (row_records_shape ib cols r rs Hrow) as (data_b & raw & Hrs & [Hraw _]).
  rewrite Forall_forall in Hfr. apply Forall_forall. intros rec Hrec.
  split; [by apply Hfr|].
  rewrite Hrs in Hrec. apply list_elem_of_fmap in Hrec as (rec0 & -> & Hrec0).
  rewrite Forall_forall in Hraw. destruct (Hraw rec0 Hrec0) as [Hchan _].
  by apply finish_record_channel.
Qed.

Lemma records_carry_frame_identity_witness :
  exists can_id,
    parse_can_id (PyStr.strip (default "" (row_get ["id"; "data"]
                                             (mkRow "0x402" "0000803F00000040" "t" "") "id")))
    = Ok can_id /\
    Forall (fun rec =>
              framed (VStr (default "" (row_get ["id"; "data"]
                                          (mkRow "0x402" "0000803F00000040" "t" "")
                                          "timestamp")))
                     can_id (message_name can_id) rec /\
              dict_get "channel" rec
              = VStr <$> row_get ["id"; "data"] (mkRow "0x402" "0000803F00000040" "t" "")
                                 "channel")
      [dict_of (head_fields (VStr "") 0x402 "MC_BUS" ++
                [("base_hex", VStr "0x400"); ("offset", VInt 2);
                 ("bus_current_A", VFloat (PyFloat.Num false 0x800000 (-22) 0));
                 ("bus_voltage_V", VFloat (PyFloat.Num false 0x800000 (-23) 0))])].
Proof.
  apply (records_carry_frame_identity false ["id"; "data"]
           (mkRow "0x402" "0000803F00000040" "t" "")).
  vm_compute. reflexivity.
Defined.

(** X9: on an 8-byte payload the extra-temps decoder gives one record per
    kept (thermistor id, temperature) pair, in payload order: the first
    pair always, each later pair unless it is (0, 0); the temperature is
    the signed reading of its byte. *)
Theorem decode_or_atemp_pairs (ts : value) (can_id : Z) (d : list byte) :
  List.length d = 8%nat ->
  exists rs,
    decode_or_atemp ts can_id d = Ok rs /\
    map (fun rec => (dict_get "thermistor_local_id" rec, dict_get "temp_C" rec)) rs
    = map (fun p : Z * Z => (Some (VInt p.1), Some (VInt p.2))) (kept_pairs d).
Proof.
  intros Hd. payload d. unfold decode_or_atemp, atemp_pair, kept_pairs.
  cbn [byte_at lookup list_lookup Nat.add mbind result_bind Py.bind Nat.ltb Nat.leb
       andb List.filter fst snd].
  rewrite andb_false_r, !andb_true_r.
  destruct ((bval b2 =? 0) && (s8 (bval b3) =? 0));
    destruct ((bval b4 =? 0) && (s8 (bval b5) =? 0));
    destruct ((bval b6 =? 0) && (s8 (bval b7) =? 0));
    eexists; (split; [reflexivity|reflexivity]).
Qed.

Lemma decode_or_atemp_pairs_witness :
  exists rs,
    decode_or_atemp (VStr "t") OR_ATEMP [x01; x05; x00; x00; x03; xff; x00; x00] = Ok rs /\
    map (fun rec => (dict_get "thermistor_local_id" rec, dict_get "temp_C" rec)) rs
    = map (fun p : Z * Z => (Some (VInt p.1), Some (VInt p.2)))
          (kept_pairs [x01; x05; x00; x00; x03; xff; x00; x00]).
Proof.
  apply (decode_or_atemp_pairs (VStr "t") OR_ATEMP [x01; x05; x00; x00; x03; xff; x00; x00]).
  reflexivity.
Defined.

(** ** Routing by message name *)

Lemma in_range_out lo hi can_id : ~ (lo <= can_id < hi) -> in_range lo can_id hi = false.
Proof.
  intros H. unfold in_range.
  destruct (Z.leb_spec lo can_id), (Z.ltb_spec can_id hi); try done. lia.
Qed.

Lemma routing_table can_id :
  bool_decide (message_name can_id ∈ can1_msgs) = battery_id can_id.
Proof.
  destruct (decide (0x400 <= can_id < 0x620)) as [Hin|Hout].
  - assert (Hall : forallb (fun n : nat =>
                      Bool.eqb (bool_decide (message_name (Z.of_nat n) ∈ can1_msgs))
                               (battery_id (Z.of_nat n)))
                     (seq 1024%nat 544%nat) = true) by (vm_compute; reflexivity).
    rewrite forallb_forall in Hall.
    specialize (Hall (Z.to_nat can_id)). rewrite Z2Nat.id in Hall by lia.
    apply Bool.eqb_prop, Hall, in_seq. lia.
  - unfold message_name, battery_id.
    destruct (Z.eqb_spec can_id OR_SVOLT) as [->|]; [reflexivity|].
    destruct (Z.eqb_spec can_id OR_PACK) as [->|]; [reflexivity|].
    destruct (Z.eqb_spec can_id OR_STEMP) as [->|]; [reflexivity|].
    destruct (Z.eqb_spec can_id OR_FLAGS) as [->|]; [reflexivity|].
    destruct (Z.eqb_spec can_id OR_AVOLT) as [->|]; [reflexivity|].
    destruct (Z.eqb_spec can_id OR_ATEMP) as [->|]; [reflexivity|].
    destruct (Z.eqb_spec can_id THERM_GENERAL) as [->|]; [reflexivity|].
    destruct (Z.eqb_spec can_id THERM_ADDRCLAIM) as [->|]; [reflexivity|].
    destruct (Z.eqb_spec can_id MPPT_CAN_ONOFF) as [->|]; [reflexivity|].
    rewrite !in_range_out
      by (unfold MC_CAN_BASE1, MC_CAN_BASE2, DC_CAN_BASE, STW_CAN_BASE, BP_CAN_BASE,
            MPPT_CAN_BASE; lia).
    transitivity false; [reflexivity|]. symmetry. apply bool_decide_eq_false_2.
    intros H. repeat (apply elem_of_cons in H as [H|H]; [done|]). inversion H.
Qed.

(** X10: when the log has no channel column, split mode routes by id: the
    records of a row carry no channel key, and they count as battery-bus
    records (second stream) exactly when the id is one of 0x6B0..0x6B5 or
    0x1838F380; the records of every other id, decoded or RAW, count as
    vehicle-bus records (first stream). *)
Theorem name_routing_by_id (ib : bool) (cols : list string) (r : RawRow)
    (rs : list record) :
  "channel" ∉ cols ->
  row_records ib cols r = Some (Ok rs) ->
  exists can_id,
    parse_can_id (PyStr.strip (default "" (row_get cols r "id"))) = Ok can_id /\
    Forall (fun rec => dict_get "channel" rec = None /\
                       message_in_can1 rec = battery_id can_id /\
                       forall buf, rec ∈ buf -> untagged buf ->
                         (rec ∈ (split_frame buf).2 <-> battery_id can_id = true) /\
                         (rec ∈ (split_frame buf).1 <-> battery_id can_id = false)) rs.
Proof.
  intros Hc Hrow.
  pose proof (row_records_untagged ib cols r rs Hc Hrow) as Hun.
  destruct (records_carry_frame_identity_aux ib cols r rs Hrow) as (can_id & Hparse & Hfr).
  exists can_id. split; [done|].
  unfold untagged in Hun. rewrite Forall_forall in Hun, Hfr. apply Forall_forall.
  intros rec Hrec. specialize (Hun rec Hrec). destruct (Hfr rec Hrec) as (_ & _ & Hm).
  assert (Hmsg : message_in_can1 rec = battery_id can_id)
    by (unfold message_in_can1; rewrite Hm; apply routing_table).
  split; [done|]. split; [done|].
  intros buf Hin Hbuf. rewrite (split_frame_untagged buf Hbuf). cbn [fst snd].
  rewrite !list_elem_of_In, !filter_In, <- !list_elem_of_In, Hmsg.
  destruct (battery_id can_id); cbn [negb]; split; split; try done; by intros [_ ?].
Qed.

Lemma name_routing_by_id_witness :
  exists rs,
    row_records false ["id"; "data"] (mkRow "6B1" "CE04190555000900" "" "") = Some (Ok rs) /\
    exists can_id,
      parse_can_id (PyStr.strip (default "" (row_get ["id"; "data"]
                                               (mkRow "6B1" "CE04190555000900" "" "") "id")))
      = Ok can_id /\
      Forall (fun rec => dict_get "channel" rec = None /\
                         message_in_can1 rec = battery_id can_id /\
                         forall buf, rec ∈ buf -> untagged buf ->
                           (rec ∈ (split_frame buf).2 <-> battery_id can_id = true) /\
                           (rec ∈ (split_frame buf).1 <-> battery_id can_id = false)) rs.
Proof.
  eexists. split; [vm_compute; reflexivity|].
  refine (name_routing_by_id false ["id"; "data"]
            (mkRow "6B1" "CE04190555000900" "" "") _ _ eq_refl).
  rewrite !not_elem_of_cons. repeat split; try done. apply not_elem_of_nil.
Defined.

(** ** The payload handed to the decoders *)

Lemma normalise_data_length s : List.length (PyStr.chars (normalise_data s)) = 16%nat.
Proof.
  unfold normalise_data, PyStr.ljust, PyStr.prefix.
  rewrite !chars_str, length_app, repeat_length, length_take. lia.
Qed.

Lemma fromhex_chars_length n l bs :
  (List.length l <= n)%nat -> PyStr.fromhex_chars l = Some bs ->
  (2 * List.length bs <= List.length l)%nat.
Proof.
  revert l bs. induction n as [|n IH]; intros l bs Hn.
  - destruct l; [|simpl in Hn; lia]. by intros [= <-].
  - destruct l as [|a l]; [by intros [= <-]|]. cbn [PyStr.fromhex_chars].
    cbn [List.length] in Hn.
    destruct (PyStr.is_c_space a).
    { intros H. apply IH in H; [cbn [List.length]; lia|lia]. }
    destruct (PyStr.hex_digit a) as [hi|]; [|done].
    destruct l as [|b l]; [done|].
    destruct (PyStr.hex_digit b) as [lo|]; [|done].
    destruct (Byte.of_N _) as [x|]; [|done].
    destruct (PyStr.fromhex_chars l) as [rest|] eqn:E; [|done].
    intros [= <-]. apply IH in E; [|cbn [List.length] in Hn; lia].
    cbn [List.length]. lia.
Qed.

(** X11: whatever the data text of a row, the payload handed to a decoder
    never has more than 8 bytes. *)
Theorem payload_at_most_eight_bytes (s : string) (d : list byte) :
  PyStr.fromhex (normalise_data s) = Some d -> (List.length d <= 8)%nat.
Proof.
  intros H. unfold PyStr.fromhex in H.
  apply (fromhex_chars_length _ _ _ (Nat.le_refl _)) in H.
  rewrite normalise_data_length in H. lia.
Qed.

Lemma payload_at_most_eight_bytes_witness :
  (List.length [xab; xcd; x00; x00; x00; x00; x00] <= 8)%nat.
Proof.
  apply (payload_at_most_eight_bytes (String "A" (String "B" (String "009"
           (String "009" "CD")))) [xab; xcd; x00; x00; x00; x00; x00]).
  vm_compute. reflexivity.
Defined.

Lemma remove_spaces_idem s : PyStr.remove_spaces (PyStr.remove_spaces s) = PyStr.remove_spaces s.
Proof.
  unfold PyStr.remove_spaces. rewrite chars_str. f_equal.
  induction (PyStr.chars s) as [|a l IH]; [done|]. cbn [List.filter].
  destruct (negb (PyStr.code a =? 32)) eqn:E; [|done].
  cbn [List.filter]. by rewrite E, IH.
Qed.

Lemma remove_spaces_all_hex s : hex_or_space s = true -> all_hex (PyStr.remove_spaces s) = true.
Proof.
  unfold hex_or_space, all_hex, PyStr.remove_spaces. rewrite chars_str.
  induction (PyStr.chars s) as [|a l IH]; [done|]. cbn [forallb List.filter].
  intros [Ha Hl]%andb_prop.
  destruct (PyStr.code a =? 32) eqn:E; cbn [negb]; [by apply IH|].
  cbn [forallb]. rewrite orb_false_r in Ha. by rewrite Ha, IH.
Qed.

Lemma hex_text_gives_eight_bytes_aux (s : string) :
  hex_or_space s = true ->
  exists d, PyStr.fromhex (normalise_data s) = Some d /\ List.length d = 8%nat.
Proof.
  intros H. apply remove_spaces_all_hex in H.
  assert (Hn : normalise_data s = normalise_data (PyStr.remove_spaces s))
    by (unfold normalise_data; by rewrite remove_spaces_idem).
  destruct (fromhex_normalised_hex _ H) as (d & Hd & Hlen).
  exists d. by rewrite Hn.
Qed.

(** X12: a data text made of hex digits and spaces always converts, and to
    exactly 8 bytes: the digits beyond the sixteenth are dropped, missing
    ones count as zero. *)
Theorem hex_text_gives_eight_bytes (s : string) :
  hex_or_space s = true ->
  exists d, PyStr.fromhex (normalise_data s) = Some d /\ List.length d = 8%nat /\
            normalise_data s
            = PyStr.ljust 16 "0" (PyStr.prefix 16 (PyStr.remove_spaces s)).
Proof.
  intros H. apply remove_spaces_all_hex in H.
  assert (Hn : normalise_data s = normalise_data (PyStr.remove_spaces s))
    by (unfold normalise_data; by rewrite remove_spaces_idem).
  destruct (fromhex_normalised_hex _ H) as (d & Hd & Hlen).
  exists d. rewrite Hn. split; [done|]. split; [done|].
  by apply normalise_data_hex.
Qed.

Lemma hex_text_gives_eight_bytes_witness :
  exists d, PyStr.fromhex (normalise_data "01 05 02 06") = Some d /\
            List.length d = 8%nat /\
            normalise_data "01 05 02 06"
            = PyStr.ljust 16 "0" (PyStr.prefix 16 (PyStr.remove_spaces "01 05 02 06")).
Proof. apply (hex_text_gives_eight_bytes "01 05 02 06"). reflexivity. Defined.

(** ** What can make a row fail *)

Lemma decoders_exact_total can_id dec ts d :
  DECODERS_EXACT can_id = Some dec -> List.length d = 8%nat ->
  is_ok (dec ts can_id d) = true.
Proof.
  unfold DECODERS_EXACT. intros Hdec Hd.
  destruct (can_id =? OR_SVOLT); [injection Hdec as <-; by apply decode_or_svolt_total|].
  destruct (can_id =? OR_PACK); [injection Hdec as <-; by apply decode_or_pack_total|].
  destruct (can_id =? OR_STEMP); [injection Hdec as <-; by apply decode_or_stemp_total|].
  destruct (can_id =? OR_FLAGS); [injection Hdec as <-; by apply decode_or_flags_total|].
  destruct (can_id =? OR_AVOLT); [injection Hdec as <-; by apply decode_or_avolt_total|].
  destruct (can_id =? OR_ATEMP); [injection Hdec as <-; by apply decode_or_atemp_total|].
  destruct (can_id =? THERM_GENERAL);
    [injection Hdec as <-; by apply decode_therm_general_total|].
  destruct (can_id =? THERM_ADDRCLAIM);
    [injection Hdec as <-; by apply decode_therm_addrclaim_total|].
  destruct (can_id =? MPPT_CAN_ONOFF); [injection Hdec as <-; by apply decode_mppt_total|].
  discriminate Hdec.
Qed.

Lemma decode_bp_failure ts can_id d :
  List.length d = 8%nat ->
  match decode_bp ts can_id d with
  | Ok _ => True
  | Raise e =>
      bp_rounds_low_float can_id = true /\
      match low_float d with
      | PyFloat.Nan => e = ValueError
      | PyFloat.Inf _ => e = OverflowError
      | PyFloat.Num _ _ _ _ => False
      end
  | Diverge => False
  end.
Proof.
  intros Hd. payload d. unfold decode_bp, bp_rounds_low_float, low_float, int_round.
  set (name := offset_name BP_OFFSETS "BP" (can_id - BP_CAN_BASE)).
  cbn [floats_le mbind result_bind Py.bind].
  set (lo := PyFloat.of_bits32 (u32_le (bval b0) (bval b1) (bval b2) (bval b3))).
  clearbody lo name.
  destruct (name =? "BP_VMAX")%string; [by destruct lo|].
  destruct (name =? "BP_VMIN")%string; [by destruct lo|].
  destruct (name =? "BP_TMAX")%string; [by destruct lo|].
  repeat (match goal with |- context [if ?c then _ else _] => destruct c end; try done).
Qed.

Lemma decode_dynamic_failure ts can_id d e :
  List.length d = 8%nat ->
  decode_dynamic ts can_id d = Some (Raise e) ->
  in_range BP_CAN_BASE can_id (BP_CAN_BASE + 0x10) = true /\
  bp_rounds_low_float can_id = true /\
  match low_float d with
  | PyFloat.Nan => e = ValueError
  | PyFloat.Inf _ => e = OverflowError
  | PyFloat.Num _ _ _ _ => False
  end.
Proof.
  intros Hd. unfold decode_dynamic.
  destruct (_ || _).
  { intros [= H]. pose proof (decode_mc_total ts can_id d Hd) as Hok.
    by rewrite H in Hok. }
  destruct (in_range DC_CAN_BASE _ _).
  { intros [= H]. pose proof (decode_dc_total ts can_id d Hd) as Hok.
    by rewrite H in Hok. }
  destruct (in_range STW_CAN_BASE _ _).
  { intros [= H]. pose proof (decode_stw_total ts can_id d Hd) as Hok.
    by rewrite H in Hok. }
  destruct (in_range BP_CAN_BASE _ _).
  { intros [= H]. pose proof (decode_bp_failure ts can_id d Hd) as Hbp.
    rewrite H in Hbp. by destruct Hbp. }
  destruct (in_range MPPT_CAN_BASE _ _).
  { intros [= H]. pose proof (decode_mppt_total ts can_id d Hd) as Hok.
    by rewrite H in Hok. }
  done.
Qed.

Lemma decode_dynamic_no_diverge ts can_id d :
  List.length d = 8%nat -> decode_dynamic ts can_id d <> Some Diverge.
Proof.
  intros Hd. unfold decode_dynamic.
  destruct (_ || _).
  { intros [= H]. pose proof (decode_mc_total ts can_id d Hd) as Hok.
    by rewrite H in Hok. }
  destruct (in_range DC_CAN_BASE _ _).
  { intros [= H]. pose proof (decode_dc_total ts can_id d Hd) as Hok.
    by rewrite H in Hok. }
  destruct (in_range STW_CAN_BASE _ _).
  { intros [= H]. pose proof (decode_stw_total ts can_id d Hd) as Hok.
    by rewrite H in Hok. }
  destruct (in_range BP_CAN_BASE _ _).
  { intros [= H]. pose proof (decode_bp_failure ts can_id d Hd) as Hbp.
    by rewrite H in Hbp. }
  destruct (in_range MPPT_CAN_BASE _ _).
  { intros [= H]. pose proof (decode_mppt_total ts can_id d Hd) as Hok.
    by rewrite H in Hok. }
  done.
Qed.

(** X13: a row whose data text is made of hex digits and spaces makes
    the engine fail in one case only: its id is a battery-protection id
    whose message is BP_VMAX, BP_VMIN or BP_TMAX and the low float of the
    payload is not finite; the exception is then ValueError for a
    not-a-number and OverflowError for an infinity. *)
Theorem row_failure_is_bp_rounding (ib : bool) (cols : list string) (r : RawRow)
    (e : exn) :
  hex_or_space (default "" (row_get cols r "data")) = true ->
  row_records ib cols r = Some (Raise e) ->
  exists can_id d,
    parse_can_id (PyStr.strip (default "" (row_get cols r "id"))) = Ok can_id /\
    PyStr.fromhex (normalise_data (default "" (row_get cols r "data"))) = Some d /\
    in_range BP_CAN_BASE can_id (BP_CAN_BASE + 0x10) = true /\
    bp_rounds_low_float can_id = true /\
    match low_float d with
    | PyFloat.Nan => e = ValueError
    | PyFloat.Inf _ => e = OverflowError
    | PyFloat.Num _ _ _ _ => False
    end.
Proof.
  intros Hhex. destruct (hex_text_gives_eight_bytes_aux _ Hhex) as (d & Hd & Hlen).
  unfold row_records.
  destruct (_ =? "")%string; [done|].
  destruct (parse_can_id _) as [can_id| |]; [|done..].
  rewrite Hd.
  destruct (DECODERS_EXACT can_id) as [dec|] eqn:Hdec.
  - pose proof (decoders_exact_total can_id dec
                  (VStr (default "" (row_get cols r "timestamp"))) d Hdec Hlen) as Hok.
    destruct (dec _ can_id d); done.
  - destruct (decode_dynamic _ can_id d) as [[rs|e'|]|] eqn:Hdyn; [done| |done..].
    intros [= <-]. exists can_id, d. split; [done|]. split; [done|].
    by eapply decode_dynamic_failure.
Qed.

Lemma row_failure_is_bp_rounding_witness :
  exists can_id d,
    parse_can_id (PyStr.strip (default "" (row_get ["id"; "data"]
                                             (mkRow "581" "0000807F00000000" "" "") "id")))
    = Ok can_id /\
    PyStr.fromhex (normalise_data (default "" (row_get ["id"; "data"]
                                                 (mkRow "581" "0000807F00000000" "" "")
                                                 "data"))) = Some d /\
    in_range BP_CAN_BASE can_id (BP_CAN_BASE + 0x10) = true /\
    bp_rounds_low_float can_id = true /\
    match low_float d with
    | PyFloat.Nan => OverflowError = ValueError
    | PyFloat.Inf _ => OverflowError = OverflowError
    | PyFloat.Num _ _ _ _ => False
    end.
Proof.
  apply (row_failure_is_bp_rounding false ["id"; "data"]
           (mkRow "581" "0000807F00000000" "" "") OverflowError); vm_compute; reflexivity.
Defined.

(** ** More on the writer *)

Lemma str_app l1 l2 : PyStr.str (l1 ++ l2) = PyStr.str l1 +:+ PyStr.str l2.
Proof. apply chars_inj. by rewrite chars_app, !chars_str. Qed.

Lemma splitext_join p : (splitext p).1 +:+ (splitext p).2 = p.
Proof.
  unfold splitext. destruct (_ && _); cbn [fst snd].
  - by rewrite <- str_app, take_drop, str_chars.
  - apply chars_inj. by rewrite chars_app, app_nil_r.
Qed.

(** X14: the first file of a stream has exactly the name the writer was
    given: [splitext] cuts the name in two parts that join back to it. *)
Theorem first_file_has_given_name (out_path : string) (r : Z) (cols : list string) :
  Writer._path (Writer.init out_path r cols) = out_path /\
  w_base (Writer.init out_path r cols) +:+ w_ext (Writer.init out_path r cols) = out_path.
Proof.
  pose proof (splitext_join out_path) as H. unfold Writer._path, Writer.init.
  destruct (splitext out_path) as [base ext]. cbn [fst snd] in H.
  cbn [w_base w_ext w_part Writer.part_path Z.eqb Pos.eqb]. done.
Qed.

Lemma NoDup_stream_paths base ext k : NoDup (stream_paths base ext k).
Proof.
  unfold stream_paths. apply NoDup_fmap_2; [|apply NoDup_seq].
  intros i j H%part_path_inj. lia.
Qed.

Lemma map_length_full (r : Z) (fulls : list (list rowdata)) :
  Forall (fun f => Z.of_nat (List.length f) = r) fulls ->
  map (fun f => Z.of_nat (List.length f)) fulls = repeat r (List.length fulls).
Proof. induction 1 as [|f fulls Hf _ IH]; simpl; [done|]. by rewrite Hf, IH. Qed.

(** The files of a settled stream of [n] rows: none when [n = 0], else
    [(n-1)/r] full files and a last one with the remaining rows. *)
Lemma represents_layout base ext r cols w files s :
  1 <= r -> represents base ext r cols w files s -> settled s ->
  let n := Z.of_nat (List.length (content s)) in
  (n = 0 -> w_paths w = [] /\ s = Fresh) /\
  (0 < n ->
   w_paths w = stream_paths base ext (S (Z.to_nat ((n - 1) / r))) /\
   row_counts w files = repeat r (Z.to_nat ((n - 1) / r)) ++ [n - r * ((n - 1) / r)]).
Proof.
  intros Hr Hrep Hset n. unfold row_counts.
  rewrite (represents_stream_files _ _ _ _ _ _ _ Hrep). subst n.
  destruct s as [|fulls cur]; cbn [content shape_files].
  - simpl in Hrep. subst w. split; [done|]. simpl. lia.
  - destruct Hrep as (-> & Hfull & Hcur & _). simpl in Hset.
    assert (1 <= Z.of_nat (List.length cur)) by (destruct cur; [done|simpl; lia]).
    rewrite length_app, Nat2Z.inj_add, (length_concat_full r fulls Hfull).
    set (m := Z.of_nat (List.length fulls)). set (c := Z.of_nat (List.length cur)) in *.
    assert (0 <= m) by (unfold m; lia).
    assert (Hdiv : (r * m + c - 1) / r = m)
      by (symmetry; apply (Z.div_unique _ r m (c - 1)); lia).
    split; [lia|]. intros _. rewrite Hdiv. unfold m at 1 2. rewrite Nat2Z.id.
    cbn [w_paths]. split; [done|].
    rewrite map_map.
    rewrite (map_ext _ (fun f => Z.of_nat (List.length f)))
      by (intros; by rewrite data_rows_file_lines).
    rewrite map_app, (map_length_full r fulls Hfull). cbn [map].
    do 2 f_equal. unfold c, m. lia.
Qed.

(** Batches without rows leave the writer and the files as they are. *)
Lemma write_all_nothing cols w files batches :
  batch_rows cols batches = [] -> write_all w files batches = Ok (w, files).
Proof.
  unfold batch_rows. induction batches as [|df batches IH]; [done|].
  cbn [flat_map write_all]. intros [Hdf Hrest]%app_eq_nil.
  unfold Writer.write_df, Writer.write_df_fuel.
  destruct (df_empty df) eqn:E.
  - cbn [mbind result_bind Py.bind]. by apply IH.
  - destruct df; [discriminate E|discriminate Hdf].
Qed.

(** X15: for a row limit [r >= 1], after any batches amounting to [n]
    rows: no file is made when [n = 0]; else the stream has
    [(n-1)/r + 1] files named out, out_part2, out_part3, ..., all
    different, the first [(n-1)/r] holding exactly [r] rows and the last
    one the remaining [n - r*((n-1)/r)] rows. *)
Theorem writer_file_layout (out_path : string) (cols : list string) (r : Z)
    (files0 : fs) (batches : list frame) :
  1 <= r ->
  let n := Z.of_nat (List.length (batch_rows cols batches)) in
  exists w files,
    write_all (Writer.init out_path r cols) files0 batches = Ok (w, files) /\
    NoDup (w_paths w) /\
    (n = 0 -> w_paths w = [] /\ files = files0) /\
    (0 < n ->
     w_paths w = stream_paths (splitext out_path).1 (splitext out_path).2
                   (S (Z.to_nat ((n - 1) / r))) /\
     row_counts w files = repeat r (Z.to_nat ((n - 1) / r)) ++ [n - r * ((n - 1) / r)]).
Proof.
  intros Hr n.
  destruct (writer_init_fresh out_path r cols) as [_ Hinit].
  destruct (write_all_spec _ _ cols r Hr batches _ files0 Fresh (Hinit files0) I)
    as (w & files & s & Hall & Hrep & Hset & Hcont & Hframe).
  exists w, files. split; [exact Hall|].
  cbn [content app] in Hcont.
  destruct (represents_layout _ _ r cols w files s Hr Hrep Hset) as [H0 Hpos].
  rewrite Hcont in H0, Hpos. fold n in H0, Hpos.
  split; [|split; [|exact Hpos]].
  - destruct (decide (n = 0)) as [E|E].
    + destruct (H0 E) as [-> _]. constructor.
    + destruct Hpos as [-> _]; [lia|]. apply NoDup_stream_paths.
  - intros E. destruct (H0 E) as [Hp _]. split; [done|].
    assert (Hnil : batch_rows cols batches = [])
      by (apply length_zero_iff_nil; lia).
    rewrite (write_all_nothing cols _ files0 batches Hnil) in Hall. by injection Hall.
Qed.

Lemma writer_file_layout_witness :
  exists w files,
    write_all (Writer.init "out.csv" 3 ["timestamp"]) ∅ [seven_records] = Ok (w, files) /\
    NoDup (w_paths w) /\
    (7 = 0 -> w_paths w = [] /\ files = ∅) /\
    (0 < 7 ->
     w_paths w = stream_paths (splitext "out.csv").1 (splitext "out.csv").2
                   (S (Z.to_nat ((7 - 1) / 3))) /\
     row_counts w files = repeat 3 (Z.to_nat ((7 - 1) / 3)) ++ [7 - 3 * ((7 - 1) / 3)]).
Proof. apply (writer_file_layout "out.csv" ["timestamp"] 3 ∅ [seven_records]). lia. Defined.

(** ** Single-output runs *)

Lemma df_empty_routable tagged df :
  Forall (routable tagged) df -> df <> [] -> df_empty df = false.
Proof.
  intros [|rec df' [[m Hm] _] _] Hne; [done|].
  cbn [df_empty forallb]. by destruct rec.
Qed.

Section one_writer.
Context (base ext : string) (sch : list string) (r : Z) (Hr : 1 <= r).
Context (ccols : list string).

Local Abbreviation tagged1 := (bool_decide ("channel" ∈ ccols)).
Local Abbreviation inv1 := (one_inv base ext r sch).

Lemma flush_one D st :
  inv1 D (st_writers st) (st_files st) ->
  Forall (routable tagged1) (st_buf st) ->
  exists st',
    flush st = (st', Ok ()) /\
    inv1 (D ++ st_buf st) (st_writers st') (st_files st') /\
    st_buf st' = [].
Proof.
  destruct st as [ws files buf rp pr]. cbn [st_writers st_files st_buf].
  intros (w & s & -> & Hrep & Hset & Hc) Hbuf.
  unfold flush. cbn [st_writers st_files st_buf st_rows_processed st_progress].
  destruct buf as [|rec buf'] eqn:Ebuf.
  { eexists. split; [reflexivity|]. cbn [st_writers st_files st_buf].
    rewrite app_nil_r. split; [|done]. by exists w, s. }
  rewrite <- Ebuf in *. clear Ebuf rec buf'.
  destruct (write_df_spec base ext sch r Hr w files s buf Hrep Hset)
    as (w' & files' & s' & Hw & Hrep' & Hset' & Hc' & _).
  rewrite Hw. cbn [mbind result_bind Py.bind].
  eexists. split; [reflexivity|]. cbn [st_writers st_files st_buf].
  split; [|done]. exists w', s'. repeat split; try done.
  by rewrite Hc', Hc, map_app, (batch_rows_routable tagged1).
Qed.

Lemma rows_loop_one ib rows D st R :
  inv1 D (st_writers st) (st_files st) ->
  Forall (routable tagged1) (st_buf st) ->
  rows_records ib ccols rows = Ok R ->
  exists st' D',
    fold_steps (row_step ib ccols) st rows = (st', Ok ()) /\
    inv1 D' (st_writers st') (st_files st') /\
    Forall (routable tagged1) (st_buf st') /\
    D' ++ st_buf st' = D ++ st_buf st ++ R.
Proof.
  revert D st R. induction rows as [|row rows IH]; intros D st R Hinv Hbuf;
    cbn [rows_records fold_steps].
  - intros [= <-]. exists st, D. by rewrite app_nil_r.
  - unfold row_step, append_row.
    destruct (row_records ib ccols row) as [[rs| |]|] eqn:Hrow;
      cbn [mbind result_bind Py.bind]; [|done..|by apply IH].
    destruct (rows_records ib ccols rows) as [more| |] eqn:Hmore; [|done..].
    intros [= <-].
    assert (Hrs : Forall (routable tagged1) (st_buf st ++ rs)).
    { apply Forall_app. split; [done|]. by eapply row_records_routable. }
    set (st1 := mkState (st_writers st) (st_files st) (st_buf st ++ rs)
                        (st_rows_processed st) (st_progress st)).
    destruct (FLUSH_EVERY <=? Z.of_nat (List.length (st_buf st1))).
    + destruct (flush_one D st1 Hinv Hrs) as (st2 & -> & Hinv2 & Hbuf2).
      destruct (IH (D ++ st_buf st1) st2 more Hinv2) as (st' & D' & Hrun & Hinv' & Hbuf' & Heq);
        [by rewrite Hbuf2|done|].
      exists st', D'. split; [done|]. split; [done|]. split; [done|].
      rewrite Heq, Hbuf2. subst st1. cbn [st_buf app]. by rewrite <- !app_assoc.
    + destruct (IH D st1 more Hinv Hrs eq_refl) as (st' & D' & Hrun & Hinv' & Hbuf' & Heq).
      exists st', D'. split; [done|]. split; [done|]. split; [done|].
      rewrite Heq. subst st1. cbn [st_buf]. by rewrite <- !app_assoc.
Qed.

Lemma chunk_step_one o total D st chunk R :
  returns_normally (progress_cb o) ->
  "id" ∈ ccols -> "data" ∈ ccols ->
  inv1 D (st_writers st) (st_files st) ->
  rows_records (include_bits o) ccols (filter_channel o ccols chunk) = Ok R ->
  exists st',
    chunk_step o ccols total st chunk = (st', Ok ()) /\
    inv1 (D ++ R) (st_writers st') (st_files st').
Proof.
  intros Hret Hid Hdata Hinv HR. unfold chunk_step.
  rewrite !bool_decide_eq_true_2 by done. cbn [negb orb].
  destruct (rows_loop_one (include_bits o) (filter_channel o ccols chunk) D
              (clear_buf st) R Hinv (Forall_nil_2 _) HR)
    as (st1 & D1 & -> & Hinv1 & Hbuf1 & Heq).
  destruct (flush_one D1 st1 Hinv1 Hbuf1) as (st2 & -> & Hinv2 & _).
  destruct (report_returning o total
              (add_processed (Z.of_nat (List.length (filter_channel o ccols chunk))) st2)
              Hret) as [evs ->].
  eexists. split; [reflexivity|].
  rewrite Heq in Hinv2. cbn [clear_buf st_buf app] in Hinv2. exact Hinv2.
Qed.

Lemma chunks_one o total chunks D st R :
  returns_normally (progress_cb o) ->
  "id" ∈ ccols -> "data" ∈ ccols ->
  inv1 D (st_writers st) (st_files st) ->
  rows_records (include_bits o) ccols (concat (map (filter_channel o ccols) chunks)) = Ok R ->
  exists st',
    fold_steps (chunk_step o ccols total) st chunks = (st', Ok ()) /\
    inv1 (D ++ R) (st_writers st') (st_files st').
Proof.
  intros Hret Hid Hdata. revert D st R.
  induction chunks as [|chunk chunks IH]; intros D st R Hinv; cbn [map concat fold_steps].
  - intros [= <-]. exists st. by rewrite app_nil_r.
  - intros (R1 & R2 & H1 & H2 & ->)%rows_records_app.
    destruct (chunk_step_one o total D st chunk R1 Hret Hid Hdata Hinv H1)
      as (st1 & -> & Hinv1).
    destruct (IH (D ++ R1) st1 R2 Hinv1 H2) as (st' & Hrun & Hinv').
    exists st'. split; [done|]. by rewrite app_assoc.
Qed.
End one_writer.

(** A single-output run with a row limit of at least one, on a log with
    a header line none of whose decoders raises, returns the paths of its
    writer, whose stream holds the rows of the decoded records. *)
Lemma single_output_run (inp : CsvInput) (files : fs) (p : string)
    (ib : bool) (ch : option string) (r : Z) (cb : bool) (D : list record) :
  1 <= r ->
  decoded_records inp (mkOptions ib ch false (Some p) None None r cb) = Ok D ->
  exists w s,
    run_result (decode_csv_one inp files p ib ch r cb) = Ok (w_paths w) /\
    represents (splitext p).1 (splitext p).2 r (known_columns ib) w
               (run_files (decode_csv_one inp files p ib ch r cb)) s /\
    settled s /\
    content s = map (reindex (known_columns ib)) D.
Proof.
  intros Hr HD.
  set (o := mkOptions ib ch false (Some p) None None r cb) in *.
  set (ccols := chunk_columns (in_header inp)).
  pose proof (decoded_header _ _ _ HD) as Hh.
  rewrite decoded_records_unfold in HD by done. fold ccols in HD.
  unfold decode_csv_one. fold o.
  destruct (run_of_fold inp files o (OneWriter (Writer.init p r (known_columns ib))))
    as (total & p0 & Hrun); [apply flag_returns|done|done|].
  fold ccols in Hrun.
  assert (Hfresh : forall fs0, represents (splitext p).1 (splitext p).2 r (known_columns ib)
                                 (Writer.init p r (known_columns ib)) fs0 Fresh)
    by apply writer_init_fresh.
  destruct (bool_decide ("id" ∈ ccols)) eqn:Eid;
    [destruct (bool_decide ("data" ∈ ccols)) eqn:Edata|]; cbn [andb] in HD.
  - apply bool_decide_eq_true in Eid, Edata.
    match type of Hrun with
    | forall st res, fold_steps _ ?st0 ?chunks = _ -> _ =>
        destruct (chunks_one (splitext p).1 (splitext p).2 (known_columns ib) r Hr
                    ccols o total chunks [] st0 D (flag_returns cb) Eid Edata)
          as (st' & Hfold & Hinv)
    end.
    + exists (Writer.init p r (known_columns ib)), Fresh. by repeat split.
    + rewrite filter_channel_concat, concat_reader_chunks. exact HD.
    + destruct (Hrun _ _ Hfold) as [-> ->].
      cbn [app] in Hinv. destruct Hinv as (w & s & Ews & Hrep & Hset & Hcont).
      rewrite Ews. exists w, s. by cbn [mbind result_bind Py.bind outputs].
  - injection HD as <-.
    match type of Hrun with
    | forall st res, fold_steps _ ?st0 ?chunks = _ -> _ =>
        destruct (chunks_skipped o ccols total chunks st0) as [n Hfold]
    end.
    { right. by apply bool_decide_eq_false in Edata. }
    destruct (Hrun _ _ Hfold) as [-> ->].
    exists (Writer.init p r (known_columns ib)), Fresh.
    cbn [add_processed st_writers st_files mbind result_bind Py.bind outputs].
    by repeat split.
  - injection HD as <-.
    match type of Hrun with
    | forall st res, fold_steps _ ?st0 ?chunks = _ -> _ =>
        destruct (chunks_skipped o ccols total chunks st0) as [n Hfold]
    end.
    { left. by apply bool_decide_eq_false in Eid. }
    destruct (Hrun _ _ Hfold) as [-> ->].
    exists (Writer.init p r (known_columns ib)), Fresh.
    cbn [add_processed st_writers st_files mbind result_bind Py.bind outputs].
    by repeat split.
Qed.

(** X16: a single-output run with a row limit of at least one, on a log
    that has a header line and none of whose decoders raises, returns the
    paths of its files; read in order, the files hold one row per decoded
    record, in the order of the log, laid out on the schema; every file is
    the header followed by 1 to [row_limit] rows; and [n] decoded records
    give no file when [n = 0] and [(n-1)/row_limit + 1] files named out,
    out_part2, ... otherwise. (Without a header line the reader fails and
    nothing is decoded.) *)
Theorem single_output_holds_all_records (inp : CsvInput) (files : fs) (p : string)
    (ib : bool) (ch : option string) (r : Z) (cb : bool) (D : list record) :
  1 <= r ->
  in_header inp <> [] ->
  decoded_records inp (mkOptions ib ch false (Some p) None None r cb) = Ok D ->
  exists paths,
    run_result (decode_csv_one inp files p ib ch r cb) = Ok paths /\
    rows_on_disk (run_files (decode_csv_one inp files p ib ch r cb)) paths
    = map (reindex (known_columns ib)) D /\
    Forall (fun path => exists rows : list rowdata,
              run_files (decode_csv_one inp files p ib ch r cb) !! path
              = Some (file_lines (known_columns ib) rows) /\
              1 <= Z.of_nat (List.length rows) <= r) paths /\
    (D = [] -> paths = []) /\
    (D <> [] ->
     paths = stream_paths (splitext p).1 (splitext p).2
               (S (Z.to_nat ((Z.of_nat (List.length D) - 1) / r)))).
Proof.
  intros Hr _ HD.
  destruct (single_output_run inp files p ib ch r cb D Hr HD)
    as (w & s & Hres & Hrep & Hset & Hcont).
  exists (w_paths w). split; [done|].
  generalize dependent (run_files (decode_csv_one inp files p ib ch r cb)).
  intros fs' Hrep.
  destruct (represents_on_disk _ _ _ r Hr w fs' s Hrep Hset) as (Hrows & Hfiles & _).
  destruct (represents_layout _ _ r _ w fs' s Hr Hrep Hset) as [H0 Hpos].
  rewrite Hcont, length_map in H0, Hpos.
  split; [|split; [|split]].
  - unfold rows_on_disk. unfold stream_files in Hrows. rewrite map_map in Hrows.
    by rewrite Hrows, Hcont.
  - unfold stream_files in Hfiles. rewrite Forall_fmap in Hfiles.
    eapply Forall_impl; [exact Hfiles|].
    intros path (rows & Hf & Hlen). unfold compose in Hf.
    exists rows. split; [|done].
    destruct (fs' !! path); [by rewrite <- Hf|discriminate Hf].
  - intros ->. apply H0. reflexivity.
  - intros Hne. apply Hpos. destruct D; [done|]. cbn [List.length]. lia.
Qed.

Lemma single_output_holds_all_records_witness :
  exists D,
    decoded_records tagged_log (mkOptions false None false (Some "out.csv") None None 2 false)
    = Ok D /\
    exists paths,
      run_result (decode_csv_one tagged_log ∅ "out.csv" false None 2 false) = Ok paths /\
      rows_on_disk (run_files (decode_csv_one tagged_log ∅ "out.csv" false None 2 false)) paths
      = map (reindex (known_columns false)) D /\
      Forall (fun path => exists rows : list rowdata,
                run_files (decode_csv_one tagged_log ∅ "out.csv" false None 2 false) !! path
                = Some (file_lines (known_columns false) rows) /\
                1 <= Z.of_nat (List.length rows) <= 2) paths /\
      (D = [] -> paths = []) /\
      (D <> [] ->
       paths = stream_paths (splitext "out.csv").1 (splitext "out.csv").2
                 (S (Z.to_nat ((Z.of_nat (List.length D) - 1) / 2)))).
Proof.
  eexists. split; [vm_compute; reflexivity|].
  refine (single_output_holds_all_records tagged_log ∅ "out.csv" false None 2 false _ _ _ _).
  - lia.
  - discriminate.
  - vm_compute. reflexivity.
Defined.

(** ** A row limit of zero or less *)

(** X17: with a row limit of zero or less, [write_df] on a frame that is
    not empty never finishes. No turn of its loop moves the start index
    forward, and a turn leaves the limit as it is and the row count of the
    current file non-negative, so that the same holds of every later
    turn; however many turns are allowed, the loop is still running. *)
Theorem write_df_never_returns (w : PartitionedCSVWriter) (files : fs) (df : frame)
    (fuel : nat) :
  w_row_limit w <= 0 -> 0 <= w_count_in_part w -> df_empty df = false ->
  (forall files0 rows start,
      let '(w', _, start') := Writer.write_step w files0 rows start in
      start' <= start /\ w_row_limit w' = w_row_limit w /\ 0 <= w_count_in_part w') /\
  Writer.write_df_fuel fuel w files df = Diverge /\
  Writer.write_df w files df = Diverge.
Proof.
  intros Hr Hc He. split.
  - intros files0 rows start. unfold Writer.write_step.
    destruct (Z.leb_spec (w_row_limit w - w_count_in_part w) 0); [|lia].
    cbn [w_row_limit w_count_in_part Writer._roll]. lia.
  - assert (Hlen : 0 < Z.of_nat (List.length (map (reindex (w_columns w)) df)))
      by (rewrite length_map; destruct df; [discriminate He|simpl; lia]).
    unfold Writer.write_df, Writer.write_df_fuel. rewrite He.
    split; by apply write_loop_diverges.
Qed.

Lemma write_df_never_returns_witness :
  Writer.write_df_fuel 1000 (Writer.init "out.csv" (-1) ["timestamp"]) ∅ seven_records
  = Diverge /\
  Writer.write_df (Writer.init "out.csv" (-1) ["timestamp"]) ∅ seven_records = Diverge.
Proof.
  apply (write_df_never_returns (Writer.init "out.csv" (-1) ["timestamp"]) ∅
           seven_records 1000);
    [vm_compute; discriminate|vm_compute; discriminate|reflexivity].
Defined.

Section hanging_run.
Context (w0 : PartitionedCSVWriter) (Hr : w_row_limit w0 <= 0)
        (Hc : 0 <= w_count_in_part w0).
Context (ccols : list string).

Local Abbreviation tagged2 := (bool_decide ("channel" ∈ ccols)).

Lemma flush_hangs st :
  st_writers st = OneWriter w0 -> st_buf st <> [] ->
  Forall (routable tagged2) (st_buf st) ->
  flush st = (st, Diverge).
Proof.
  intros Hw Hne Hbuf. unfold flush. rewrite Hw.
  destruct (st_buf st) as [|rec buf] eqn:E; [done|]. rewrite <- E in *.
  assert (He : df_empty (st_buf st) = false) by (by eapply df_empty_routable).
  assert (Hlen : 0 < Z.of_nat (List.length (map (reindex (w_columns w0)) (st_buf st))))
    by (rewrite length_map, E; simpl; lia).
  unfold Writer.write_df, Writer.write_df_fuel. rewrite He.
  by rewrite write_loop_diverges.
Qed.

Lemma rows_loop_hangs ib rows st R :
  st_writers st = OneWriter w0 ->
  Forall (routable tagged2) (st_buf st) ->
  rows_records ib ccols rows = Ok R ->
  fold_steps (row_step ib ccols) st rows
  = (mkState (st_writers st) (st_files st) (st_buf st ++ R)
             (st_rows_processed st) (st_progress st), Ok ())
  \/ (st_buf st ++ R <> [] /\
      exists st', fold_steps (row_step ib ccols) st rows = (st', Diverge)).
Proof.
  revert st R. induction rows as [|row rows IH]; intros st R Hw Hbuf;
    cbn [rows_records fold_steps].
  - intros [= <-]. left. rewrite app_nil_r. by destruct st.
  - unfold row_step, append_row.
    destruct (row_records ib ccols row) as [[rs| |]|] eqn:Hrow;
      cbn [mbind result_bind Py.bind]; [|done..|by apply IH].
    destruct (rows_records ib ccols rows) as [more| |] eqn:Hmore; [|done..].
    intros [= <-].
    assert (Hrs : Forall (routable tagged2) (st_buf st ++ rs)).
    { apply Forall_app. split; [done|]. by eapply row_records_routable. }
    set (st1 := mkState (st_writers st) (st_files st) (st_buf st ++ rs)
                        (st_rows_processed st) (st_progress st)).
    destruct (Z.leb_spec FLUSH_EVERY (Z.of_nat (List.length (st_buf st1)))) as [Hfull|_].
    + assert (Hne : st_buf st1 <> [])
        by (intros E; rewrite E in Hfull; unfold FLUSH_EVERY in Hfull; simpl in Hfull; lia).
      rewrite (flush_hangs st1 Hw Hne Hrs). right. split; [|by eexists].
      subst st1. cbn [st_buf] in Hne. rewrite app_assoc.
      by intros [E _]%app_eq_nil.
    + cbv iota.
      destruct (IH st1 more Hw Hrs eq_refl) as [Hok|[Hne [st' Hdiv]]].
      * left. refine (eq_trans Hok _). subst st1.
        cbn [st_writers st_files st_buf st_rows_processed st_progress].
        by rewrite <- app_assoc.
      * right. subst st1. cbn [st_buf] in Hne. rewrite <- app_assoc in Hne.
        split; [done|]. exists st'. exact Hdiv.
Qed.

Lemma chunk_step_hangs o total st chunk R :
  returns_normally (progress_cb o) ->
  "id" ∈ ccols -> "data" ∈ ccols ->
  st_writers st = OneWriter w0 ->
  rows_records (include_bits o) ccols (filter_channel o ccols chunk) = Ok R ->
  (R = [] /\ exists st', chunk_step o ccols total st chunk = (st', Ok ()) /\
                         st_writers st' = OneWriter w0)
  \/ (R <> [] /\ exists st', chunk_step o ccols total st chunk = (st', Diverge)).
Proof.
  intros Hret Hid Hdata Hw HR. unfold chunk_step.
  rewrite !bool_decide_eq_true_2 by done. cbn [negb orb].
  destruct (rows_loop_hangs (include_bits o) (filter_channel o ccols chunk)
              (clear_buf st) R Hw (Forall_nil_2 _) HR) as [Hok|[Hne [st' Hdiv]]].
  - rewrite Hok. cbn [clear_buf st_writers st_files st_buf st_rows_processed st_progress app].
    destruct R as [|rec R].
    + left. split; [done|]. unfold flush. cbn [st_buf].
      match goal with
      | |- context [report o total ?st1] =>
          destruct (report_returning o total st1 Hret) as [evs ->]
      end.
      eexists. split; [reflexivity|]. exact Hw.
    + right. split; [done|].
      rewrite flush_hangs; [by eexists|done|done|].
      cbn [st_buf]. clear Hok.
      assert (Hall : forall rows acc, rows_records (include_bits o) ccols rows = Ok acc ->
                                      Forall (routable tagged2) acc).
      { induction rows as [|row rows IH]; intros acc; cbn [rows_records].
        - intros [= <-]. constructor.
        - destruct (row_records (include_bits o) ccols row) as [[rs| |]|] eqn:Hrow;
            cbn [mbind result_bind Py.bind]; [|done..|apply IH].
          destruct (rows_records (include_bits o) ccols rows) as [more| |]; [|done..].
          intros [= <-]. apply Forall_app. split; [by eapply row_records_routable|by apply IH]. }
      by eapply Hall.
  - right. rewrite Hdiv. cbn [clear_buf st_buf app] in Hne. split; [done|by eexists].
Qed.

Lemma chunks_hang o total chunks st R :
  returns_normally (progress_cb o) ->
  "id" ∈ ccols -> "data" ∈ ccols ->
  st_writers st = OneWriter w0 ->
  rows_records (include_bits o) ccols (concat (map (filter_channel o ccols) chunks)) = Ok R ->
  (R = [] /\ exists st', fold_steps (chunk_step o ccols total) st chunks = (st', Ok ()) /\
                         st_writers st' = OneWriter w0)
  \/ (R <> [] /\ exists st', fold_steps (chunk_step o ccols total) st chunks = (st', Diverge)).
Proof.
  intros Hret Hid Hdata. revert st R.
  induction chunks as [|chunk chunks IH]; intros st R Hw; cbn [map concat fold_steps].
  - intros [= <-]. left. split; [done|]. by exists st.
  - intros (R1 & R2 & H1 & H2 & ->)%rows_records_app.
    destruct (chunk_step_hangs o total st chunk R1 Hret Hid Hdata Hw H1)
      as [(-> & st1 & -> & Hw1)|(Hne & st1 & ->)].
    + cbn [app]. by apply IH.
    + right. split; [|by eexists]. by intros [? _]%app_eq_nil.
Qed.
End hanging_run.

(** X18: a single-output run with a row limit of zero or less returns
    (with no file) only when the log decodes to no record at all; as soon
    as one record is decoded the run never returns. *)
Theorem nonpositive_row_limit_hangs (inp : CsvInput) (files : fs) (p : string)
    (ib : bool) (ch : option string) (r : Z) (cb : bool) (D : list record) :
  r <= 0 ->
  decoded_records inp (mkOptions ib ch false (Some p) None None r cb) = Ok D ->
  run_result (decode_csv_one inp files p ib ch r cb)
  = match D with [] => Ok [] | _ => Diverge end.
Proof.
  intros Hr HD.
  set (o := mkOptions ib ch false (Some p) None None r cb) in *.
  set (ccols := chunk_columns (in_header inp)).
  pose proof (decoded_header _ _ _ HD) as Hh.
  rewrite decoded_records_unfold in HD by done. fold ccols in HD.
  unfold decode_csv_one. fold o.
  set (w0 := Writer.init p r (known_columns ib)).
  destruct (run_of_fold inp files o (OneWriter w0))
    as (total & p0 & Hrun); [apply flag_returns|done|done|].
  fold ccols in Hrun.
  assert (Hw0 : w_row_limit w0 <= 0 /\ 0 <= w_count_in_part w0 /\ w_paths w0 = []).
  { unfold w0, Writer.init. destruct (splitext p). cbn. split; [done|]. split; [lia|done]. }
  destruct Hw0 as (Hr0 & Hc0 & Hp0).
  destruct (bool_decide ("id" ∈ ccols)) eqn:Eid;
    [destruct (bool_decide ("data" ∈ ccols)) eqn:Edata|]; cbn [andb] in HD.
  - apply bool_decide_eq_true in Eid, Edata.
    match type of Hrun with
    | forall st res, fold_steps _ ?st0 ?chunks = _ -> _ =>
        destruct (chunks_hang w0 Hr0 Hc0 ccols o total chunks st0 D (flag_returns cb)
                    Eid Edata eq_refl)
          as [(-> & st' & Hfold & Hw)|(Hne & st' & Hfold)]
    end.
    + rewrite filter_channel_concat, concat_reader_chunks. exact HD.
    + destruct (Hrun _ _ Hfold) as [_ ->].
      cbn [mbind result_bind Py.bind]. by rewrite Hw, <- Hp0.
    + destruct (Hrun _ _ Hfold) as [_ ->]. by destruct D.
  - injection HD as <-.
    match type of Hrun with
    | forall st res, fold_steps _ ?st0 ?chunks = _ -> _ =>
        destruct (chunks_skipped o ccols total chunks st0) as [n Hfold]
    end.
    { right. by apply bool_decide_eq_false in Edata. }
    destruct (Hrun _ _ Hfold) as [_ ->].
    cbn [add_processed st_writers mbind result_bind Py.bind outputs]. by rewrite Hp0.
  - injection HD as <-.
    match type of Hrun with
    | forall st res, fold_steps _ ?st0 ?chunks = _ -> _ =>
        destruct (chunks_skipped o ccols total chunks st0) as [n Hfold]
    end.
    { left. by apply bool_decide_eq_false in Eid. }
    destruct (Hrun _ _ Hfold) as [_ ->].
    cbn [add_processed st_writers mbind result_bind Py.bind outputs]. by rewrite Hp0.
Qed.

Lemma nonpositive_row_limit_hangs_witness :
  run_result (decode_csv_one tagged_log ∅ "out.csv" false None 0 false) = Diverge.
Proof.
  refine (nonpositive_row_limit_hangs tagged_log ∅ "out.csv" false None 0 false
            [_; _; _] _ _).
  - lia.
  - vm_compute. reflexivity.
Defined.

(** ** Names of the output files *)

Lemma rfind_unfold c l : rfind c l = (fold_left (rfind_step c) l (0, -1)).2.
Proof. reflexivity. Qed.

Lemma rfind_step_fst c l i f :
  (fold_left (rfind_step c) l (i, f)).1 = i + Z.of_nat (List.length l).
Proof.
  revert i f. induction l as [|a l IH]; intros i f; cbn [fold_left rfind_step List.length].
  - cbn [fst]. lia.
  - rewrite IH. lia.
Qed.

Lemma rfind_step_bounds c l i f :
  -1 <= f < i ->
  -1 <= (fold_left (rfind_step c) l (i, f)).2 < i + Z.of_nat (List.length l).
Proof.
  revert i f. induction l as [|a l IH]; intros i f Hf; cbn [fold_left rfind_step List.length].
  - cbn [snd]. lia.
  - destruct (Ascii.eqb a c).
    + specialize (IH (i + 1) i). lia.
    + specialize (IH (i + 1) f). lia.
Qed.

(** The stem and the extension of a name ending in [_can<d>.csv]. *)
Lemma splitext_can_csv b d :
  Ascii.eqb d "." = false -> Ascii.eqb d "/" = false ->
  splitext (b +:+ String "_" (String "c" (String "a" (String "n" (String d ".csv")))))
  = (b +:+ String "_" (String "c" (String "a" (String "n" (String d "")))), ".csv").
Proof.
  intros Hdot Hsep. unfold splitext. rewrite chars_app.
  set (lb := PyStr.chars b).
  change (PyStr.chars (String "_" (String "c" (String "a" (String "n" (String d ".csv"))))))
    with (["_"; "c"; "a"; "n"; d; "."; "c"; "s"; "v"]%char).
  rewrite !rfind_unfold, !fold_left_app.
  pose proof (rfind_step_fst "/" lb 0 (-1)) as Hs1.
  pose proof (rfind_step_bounds "/" lb 0 (-1) ltac:(lia)) as Hs2.
  pose proof (rfind_step_fst "." lb 0 (-1)) as Hd1.
  destruct (fold_left (rfind_step "/") lb (0, -1)) as [i k].
  destruct (fold_left (rfind_step ".") lb (0, -1)) as [i' k'].
  cbn [fst snd] in Hs1, Hs2, Hd1.
  cbn [fold_left rfind_step]. rewrite Hdot, Hsep.
  change (Ascii.eqb "_" "/") with false. change (Ascii.eqb "c" "/") with false.
  change (Ascii.eqb "a" "/") with false. change (Ascii.eqb "n" "/") with false.
  change (Ascii.eqb "." "/") with false. change (Ascii.eqb "s" "/") with false.
  change (Ascii.eqb "v" "/") with false.
  change (Ascii.eqb "_" ".") with false. change (Ascii.eqb "c" ".") with false.
  change (Ascii.eqb "a" ".") with false. change (Ascii.eqb "n" ".") with false.
  change (Ascii.eqb "." ".") with true. change (Ascii.eqb "s" ".") with false.
  change (Ascii.eqb "v" ".") with false.
  cbv iota. cbn [snd].
  set (n := List.length lb) in *.
  replace (i' + 1 + 1 + 1 + 1 + 1) with (Z.of_nat (n + 5)) by lia.
  assert (Hex : existsb (fun a => negb (Ascii.eqb a "."))
                  (py_slice (lb ++ ["_"; "c"; "a"; "n"; d; "."; "c"; "s"; "v"]%char)
                            (k + 1) (Z.of_nat (n + 5))) = true).
  { apply existsb_exists. exists d. split; [|by rewrite Hdot].
    unfold py_slice, slice_bound. rewrite length_app. cbn [List.length].
    destruct (Z.ltb_spec (k + 1) 0); [lia|].
    destruct (Z.ltb_spec (Z.of_nat (n + 5)) 0); [lia|].
    rewrite !Z.min_l by lia.
    apply list_elem_of_In, (list_elem_of_lookup_2 _ (n + 4 - Z.to_nat (k + 1))%nat).
    rewrite lookup_take_lt by lia. rewrite lookup_drop.
    rewrite lookup_app_r by (fold n; lia).
    fold n. by replace (Z.to_nat (k + 1) + (n + 4 - Z.to_nat (k + 1)) - n)%nat with 4%nat by lia. }
  rewrite Hex. destruct (Z.ltb_spec k (Z.of_nat (n + 5))); [|lia]. cbn [andb].
  rewrite Nat2Z.id. subst n lb. f_equal.
  - rewrite take_app_add. cbn [take]. by rewrite str_app, str_chars.
  - rewrite drop_app_add. reflexivity.
Qed.

(** X19: the two output names the decoder tab makes for split mode never
    give the same file: whatever the base name, the stems differ
    ([<base>_can0] and [<base>_can1], extension [.csv]), so no part of one
    stream has the name of a part of the other. *)
Theorem split_output_names_disjoint (base_str : string) :
  splitext (split_output_names base_str).1 = (base_str +:+ "_can0", ".csv") /\
  splitext (split_output_names base_str).2 = (base_str +:+ "_can1", ".csv") /\
  disjoint_streams (split_output_names base_str).1 (split_output_names base_str).2.
Proof.
  unfold split_output_names. cbn [fst snd].
  pose proof (splitext_can_csv base_str "0" eq_refl eq_refl) as H0.
  pose proof (splitext_can_csv base_str "1" eq_refl eq_refl) as H1.
  split; [exact H0|]. split; [exact H1|].
  apply disjoint_by_stem.
  - rewrite H0, H1. cbn [fst].
    assert (Hlen : forall s t, String.length (s +:+ t) = (String.length s + String.length t)%nat)
      by (induction s; intros t; simpl; [done|by rewrite IHs]).
    by rewrite !Hlen.
  - rewrite H0, H1. cbn [fst]. intros H%String.app_inj. discriminate H.
Qed.

(** ** Runs on well-formed logs *)

Lemma sound_row_decodes ib cols r :
  sound_row cols r = true ->
  row_records ib cols r = None \/ exists rs, row_records ib cols r = Some (Ok rs).
Proof.
  unfold sound_row. intros [Hhex Hbp]%andb_prop.
  destruct (hex_text_gives_eight_bytes_aux _ Hhex) as (d & Hd & Hlen).
  unfold row_records.
  destruct (_ =? "")%string; [by left|].
  destruct (parse_can_id _) as [can_id| |]; [|by left..].
  rewrite Hd in *.
  set (ts := VStr (default "" (row_get cols r "timestamp"))).
  destruct (DECODERS_EXACT can_id) as [dec|] eqn:Hdec.
  - pose proof (decoders_exact_total can_id dec ts d Hdec Hlen) as Hok.
    destruct (dec ts can_id d) as [rs| |]; [|done..]. right. by eexists.
  - destruct (decode_dynamic ts can_id d) as [[rs|e|]|] eqn:Hdyn.
    + right. by eexists.
    + apply decode_dynamic_failure in Hdyn as (_ & Hround & Hlo); [|done].
      rewrite Hround in Hbp. by destruct (low_float d).
    + by apply decode_dynamic_no_diverge in Hdyn.
    + right. by eexists.
Qed.

Lemma rows_records_sound ib cols rows :
  Forall (fun row => sound_row cols row = true) rows ->
  exists R, rows_records ib cols rows = Ok R.
Proof.
  induction 1 as [|row rows Hrow _ [R IH]]; cbn [rows_records]; [by eexists|].
  destruct (sound_row_decodes ib cols row Hrow) as [-> | [rs ->]]; [by eexists|].
  rewrite IH. cbn [mbind result_bind Py.bind]. by eexists.
Qed.

Lemma Forall_filter_channel {P : RawRow -> Prop} o cols rows :
  Forall P rows -> Forall P (filter_channel o cols rows).
Proof.
  intros H. unfold filter_channel. destruct (_ && _); [|done].
  by apply Forall_list_filter.
Qed.

(** X20: on a log that has a header line, when every data text is made
    of hex digits and spaces and no BP_VMAX, BP_VMIN or BP_TMAX frame has a
    low float that is not finite, no decoder raises, and a single-output
    run with a row limit of at least one returns normally, with the paths
    of its files. *)
Theorem well_formed_log_decodes (inp : CsvInput) (files : fs) (p : string)
    (ib : bool) (ch : option string) (r : Z) (cb : bool) :
  1 <= r ->
  in_header inp <> [] ->
  Forall (fun row => sound_row (chunk_columns (in_header inp)) row = true) (in_rows inp) ->
  exists D paths,
    decoded_records inp (mkOptions ib ch false (Some p) None None r cb) = Ok D /\
    run_result (decode_csv_one inp files p ib ch r cb) = Ok paths.
Proof.
  intros Hr Hh Hrows.
  assert (HD : exists D, decoded_records inp (mkOptions ib ch false (Some p) None None r cb)
                         = Ok D).
  { rewrite decoded_records_unfold by done. destruct (_ && _); [|by eexists].
    apply rows_records_sound. unfold kept_rows. by apply Forall_filter_channel. }
  destruct HD as [D HD]. exists D.
  destruct (single_output_run inp files p ib ch r cb D Hr HD) as (w & s & Hres & _).
  by exists (w_paths w).
Qed.

Lemma well_formed_log_decodes_witness :
  exists D paths,
    decoded_records small_log (mkOptions false None false (Some "out.csv") None None 5 false)
    = Ok D /\
    run_result (decode_csv_one small_log ∅ "out.csv" false None 5 false) = Ok paths.
Proof.
  apply (well_formed_log_decodes small_log ∅ "out.csv" false None 5 false);
    [lia|discriminate|].
  unfold small_log, in_rows.
  repeat (apply List.Forall_cons; [vm_compute; reflexivity|]). apply List.Forall_nil.
Defined.

(** ** The channel filter *)

Lemma known_columns_channel ib : known_columns ib !! 3%nat = Some "channel".
Proof. by destruct ib. Qed.

(** X21: in a single-output run with a channel filter [c], on a log that
    has a channel column, every row written carries, in the channel column
    of the schema, the tag of its frame, and that tag is [c], case apart. *)
Theorem channel_filter_keeps_only_tag (inp : CsvInput) (files : fs) (p : string)
    (ib : bool) (c : string) (r : Z) (cb : bool) (D : list record) :
  1 <= r -> c <> "" ->
  "channel" ∈ chunk_columns (in_header inp) ->
  decoded_records inp (mkOptions ib (Some c) false (Some p) None None r cb) = Ok D ->
  exists paths,
    run_result (decode_csv_one inp files p ib (Some c) r cb) = Ok paths /\
    Forall (fun row : rowdata =>
              exists tag, row !! 3%nat = Some (Some (VStr tag)) /\
                          PyStr.lower tag = PyStr.lower c)
           (rows_on_disk (run_files (decode_csv_one inp files p ib (Some c) r cb)) paths).
Proof.
  intros Hr Hc Hcol HD.
  destruct (single_output_run inp files p ib (Some c) r cb D Hr HD)
    as (w & s & Hres & Hrep & Hset & Hcont).
  exists (w_paths w). split; [done|].
  generalize dependent (run_files (decode_csv_one inp files p ib (Some c) r cb)).
  intros fs' Hrep.
  destruct (represents_on_disk _ _ _ r Hr w fs' s Hrep Hset) as (Hrows & _).
  unfold rows_on_disk. unfold stream_files in Hrows. rewrite map_map in Hrows.
  rewrite Hrows, Hcont, Forall_fmap.
  rewrite decoded_records_unfold in HD by (by eapply decoded_header).
  destruct (_ && _); [|injection HD as <-; constructor].
  cbn [include_bits] in HD.
  pose proof (rows_records_tags _ _ _ _ Hcol HD) as Htags.
  eapply Forall_impl; [exact Htags|].
  intros rec (row & Hin & Hrec). unfold compose, reindex.
  exists (r_channel row). rewrite list_lookup_fmap, known_columns_channel. cbn [fmap option_fmap option_map].
  split; [by rewrite Hrec|].
  unfold kept_rows, filter_channel in Hin. cbn [channel truthy default] in Hin.
  replace (negb (c =? "")%string) with true in Hin
    by (symmetry; apply negb_true_iff; by apply String.eqb_neq).
  rewrite bool_decide_eq_true_2 in Hin by done. cbn [andb] in Hin.
  apply list_elem_of_In, filter_In in Hin as [_ Heq].
  by apply String.eqb_eq in Heq.
Qed.

Lemma channel_filter_keeps_only_tag_witness :
  exists paths,
    run_result (decode_csv_one tagged_log ∅ "out.csv" false (Some "can1") 5 false) = Ok paths /\
    Forall (fun row : rowdata =>
              exists tag, row !! 3%nat = Some (Some (VStr tag)) /\
                          PyStr.lower tag = PyStr.lower "can1")
           (rows_on_disk (run_files (decode_csv_one tagged_log ∅ "out.csv" false (Some "can1")
                                       5 false)) paths).
Proof.
  refine (channel_filter_keeps_only_tag tagged_log ∅ "out.csv" false "can1" 5 false
            [_; _] _ _ _ _).
  - lia.
  - discriminate.
  - vm_compute. right. right. by left.
  - vm_compute. reflexivity.
Defined.

(** ** Flags and raw bits *)

Lemma flag_bit (flags0 : Z) (i : nat) :
  negb (Z.land flags0 (Z.shiftl 1 (Z.of_nat i)) =? 0) = Z.testbit flags0 (Z.of_nat i).
Proof.
  rewrite Z.shiftl_1_l, land_pow2_zero by lia. apply negb_involutive.
Qed.

(** X22: on an 8-byte payload the custom-flags decoder gives one record
    whose eight flags are the bits of byte 0, bit 0 first (low cell
    voltage, high cell voltage, over temp, open wiring, internal comm,
    charge enable relay, discharge relay, blank), and whose
    [raw_flags_hex] is the hex text of the whole payload. *)
Theorem decode_or_flags_bits (ts : value) (can_id : Z) (d : list byte) :
  List.length d = 8%nat ->
  exists rec b0,
    decode_or_flags ts can_id d = Ok [rec] /\ d !! 0%nat = Some b0 /\
    map (fun k => dict_get k rec)
        ["flag0_low_cell_voltage"; "flag0_high_cell_voltage"; "flag0_over_temp";
         "flag0_open_wiring"; "flag0_internal_comm"; "flag0_charge_enable_relay";
         "flag0_discharge_relay"; "flag0_blank"]
    = map (fun i : nat => Some (VBool (Z.testbit (bval b0) (Z.of_nat i)))) (seq 0 8) /\
    dict_get "raw_flags_hex" rec = Some (VStr (PyStr.bytes_hex d)).
Proof.
  intros Hd. payload d. unfold decode_or_flags.
  cbn [byte_at lookup list_lookup mbind result_bind Py.bind].
  eexists _, b0. split; [reflexivity|]. split; [reflexivity|].
  split; [|reflexivity].
  cbn [seq map]. rewrite <- !flag_bit. reflexivity.
Qed.

Lemma decode_or_flags_bits_witness :
  exists rec b0,
    decode_or_flags (VStr "t") OR_FLAGS [x05; x00; x00; x00; x00; x00; x00; x00] = Ok [rec] /\
    [x05; x00; x00; x00; x00; x00; x00; x00] !! 0%nat = Some b0 /\
    map (fun k => dict_get k rec)
        ["flag0_low_cell_voltage"; "flag0_high_cell_voltage"; "flag0_over_temp";
         "flag0_open_wiring"; "flag0_internal_comm"; "flag0_charge_enable_relay";
         "flag0_discharge_relay"; "flag0_blank"]
    = map (fun i : nat => Some (VBool (Z.testbit (bval b0) (Z.of_nat i)))) (seq 0 8) /\
    dict_get "raw_flags_hex" rec
    = Some (VStr (PyStr.bytes_hex [x05; x00; x00; x00; x00; x00; x00; x00])).
Proof.
  apply (decode_or_flags_bits (VStr "t") OR_FLAGS [x05; x00; x00; x00; x00; x00; x00; x00]).
  reflexivity.
Defined.

Lemma dict_get_update k r other :
  dict_get k (dict_update r other)
  = match dict_get k (dict_of other) with Some v => Some v | None => dict_get k r end.
Proof.
  unfold dict_of, dict_update.
  induction other as [|[k' v'] other IH] using rev_ind; [done|].
  rewrite !fold_left_app. cbn [fold_left fst snd]. rewrite !dict_get_set.
  by destruct (k =? k')%string.
Qed.

Ltac bits_cases Hi :=
  repeat match type of Hi with
         | (_ :: _) !! ?i = Some _ =>
             destruct i as [|i];
             [injection Hi as <-;
              split; [reflexivity|];
              split; [reflexivity|];
              let j := fresh "j" in let Hj := fresh "Hj" in
              intros j Hj;
              do 8 (destruct j as [|j]; [reflexivity|]); lia
             |cbn [lookup list_lookup] in Hi]
         end;
  discriminate Hi.

Lemma bits_lookup (d : list byte) (i : nat) (b : byte) :
  (List.length d <= 8)%nat -> d !! i = Some b ->
  dict_get ("b" +:+ PyStr.dec (Z.of_nat i)) (dict_of (expand_bits_bytes d "b"))
  = Some (VInt (bval b)) /\
  dict_get ("b" +:+ PyStr.dec (Z.of_nat i) +:+ "_hex") (dict_of (expand_bits_bytes d "b"))
  = Some (VStr (PyStr.format_02X (bval b))) /\
  forall j : nat, (j < 8)%nat ->
    dict_get ("b" +:+ PyStr.dec (Z.of_nat i) +:+ "_bit" +:+ PyStr.dec (Z.of_nat j))
             (dict_of (expand_bits_bytes d "b"))
    = Some (VInt (bit_of (bval b) (Z.of_nat j))).
Proof.
  intros Hlen Hi.
  do 9 (destruct d as [|? d]; [bits_cases Hi|]).
  cbn [List.length] in Hlen. lia.
Qed.

Lemma finish_record_bits chan (d : list byte) rr (i : nat) (b : byte) :
  (List.length d <= 8)%nat -> d !! i = Some b ->
  let rec := finish_record true chan d rr in
  dict_get ("b" +:+ PyStr.dec (Z.of_nat i)) rec = Some (VInt (bval b)) /\
  dict_get ("b" +:+ PyStr.dec (Z.of_nat i) +:+ "_hex") rec
  = Some (VStr (PyStr.format_02X (bval b))) /\
  forall j : nat, (j < 8)%nat ->
    dict_get ("b" +:+ PyStr.dec (Z.of_nat i) +:+ "_bit" +:+ PyStr.dec (Z.of_nat j)) rec
    = Some (VInt (Z.b2z (Z.testbit (bval b) (Z.of_nat j)))).
Proof.
  intros Hlen Hi rec. destruct (bits_lookup d i b Hlen Hi) as (H1 & H2 & H3).
  assert (Hget : forall k, (exists s, k = String "b" s) ->
            dict_get k rec
            = match dict_get k (dict_of (expand_bits_bytes d "b")) with
              | Some v => Some v
              | None => dict_get k rr
              end).
  { intros k [s ->]. unfold rec, finish_record. destruct chan as [c|].
    - rewrite dict_get_set_ne by done. apply dict_get_update.
    - apply dict_get_update. }
  split; [|split].
  - rewrite Hget by (by eexists). by rewrite H1.
  - rewrite Hget by (by eexists). by rewrite H2.
  - intros j Hj. rewrite Hget by (by eexists). rewrite (H3 j Hj).
    by rewrite bit_of_testbit by lia.
Qed.

(** X23: with [include_bits], every record of a row carries the payload
    itself: under [b<i>] byte [i] of the payload, under [b<i>_hex] its
    two-digit upper-case hex text, and under [b<i>_bit<j>] its bit [j] as 0
    or 1, whatever the decoder of the frame put under these keys. *)
Theorem raw_bits_carry_payload (cols : list string) (r : RawRow) (rs : list record) :
  row_records true cols r = Some (Ok rs) ->
  exists d,
    PyStr.fromhex (normalise_data (default "" (row_get cols r "data"))) = Some d /\
    Forall (fun rec =>
              forall (i : nat) (b : byte), d !! i = Some b ->
                dict_get ("b" +:+ PyStr.dec (Z.of_nat i)) rec = Some (VInt (bval b)) /\
                dict_get ("b" +:+ PyStr.dec (Z.of_nat i) +:+ "_hex") rec
                = Some (VStr (PyStr.format_02X (bval b))) /\
                forall j : nat, (j < 8)%nat ->
                  dict_get ("b" +:+ PyStr.dec (Z.of_nat i) +:+ "_bit" +:+ PyStr.dec (Z.of_nat j))
                           rec
                  = Some (VInt (Z.b2z (Z.testbit (bval b) (Z.of_nat j))))) rs.
Proof.
  unfold row_records.
  destruct (_ =? "")%string; [done|].
  destruct (parse_can_id _) as [can_id| |]; [|done..].
  destruct (PyStr.fromhex _) as [d|] eqn:Hd; [|done].
  assert (Hlen : (List.length d <= 8)%nat).
  { unfold PyStr.fromhex in Hd.
    apply (fromhex_chars_length _ _ _ (Nat.le_refl _)) in Hd.
    rewrite normalise_data_length in Hd. lia. }
  intros H. exists d. split; [done|].
  assert (Hmap : forall raw,
            Forall (fun rec => forall (i : nat) (b : byte), d !! i = Some b ->
                dict_get ("b" +:+ PyStr.dec (Z.of_nat i)) rec = Some (VInt (bval b)) /\
                dict_get ("b" +:+ PyStr.dec (Z.of_nat i) +:+ "_hex") rec
                = Some (VStr (PyStr.format_02X (bval b))) /\
                forall j : nat, (j < 8)%nat ->
                  dict_get ("b" +:+ PyStr.dec (Z.of_nat i) +:+ "_bit" +:+ PyStr.dec (Z.of_nat j))
                           rec
                  = Some (VInt (Z.b2z (Z.testbit (bval b) (Z.of_nat j)))))
              (map (finish_record true (row_get cols r "channel") d) raw)).
  { intros raw. rewrite Forall_fmap. apply Forall_forall. intros rr _ i b Hi.
    by apply finish_record_bits. }
  destruct (DECODERS_EXACT can_id) as [dec|].
  - injection H as H. apply bind_ok_inv in H as (raw & _ & [= <-]). apply Hmap.
  - destruct (decode_dynamic _ can_id d) as [res|].
    + injection H as H. apply bind_ok_inv in H as (raw & _ & [= <-]). apply Hmap.
    + injection H as <-. apply (Hmap [_]).
Qed.

Lemma raw_bits_carry_payload_witness :
  exists rs,
    row_records true ["id"; "data"] (mkRow "7FF" "A5" "" "") = Some (Ok rs) /\
    exists d,
      PyStr.fromhex (normalise_data (default "" (row_get ["id"; "data"]
                                                   (mkRow "7FF" "A5" "" "") "data")))
      = Some d /\
      Forall (fun rec =>
                forall (i : nat) (b : byte), d !! i = Some b ->
                  dict_get ("b" +:+ PyStr.dec (Z.of_nat i)) rec = Some (VInt (bval b)) /\
                  dict_get ("b" +:+ PyStr.dec (Z.of_nat i) +:+ "_hex") rec
                  = Some (VStr (PyStr.format_02X (bval b))) /\
                  forall j : nat, (j < 8)%nat ->
                    dict_get ("b" +:+ PyStr.dec (Z.of_nat i) +:+ "_bit"
                              +:+ PyStr.dec (Z.of_nat j)) rec
                    = Some (VInt (Z.b2z (Z.testbit (bval b) (Z.of_nat j))))) rs.
Proof.
  eexists. split; [vm_compute; reflexivity|].
  apply (raw_bits_carry_payload ["id"; "data"] (mkRow "7FF" "A5" "" "")).
  vm_compute. reflexivity.
Defined.

(** ** A progress callback that returns only observes *)

Lemma flush_core st1 st2 :
  core st1 = core st2 -> same_outcome (flush st1) (flush st2).
Proof.
  destruct st1 as [ws1 f1 b1 n1 p1], st2 as [ws2 f2 b2 n2 p2].
  unfold core. cbn [st_writers st_files st_buf]. intros [= -> -> ->].
  unfold flush, same_outcome.
  cbn [st_writers st_files st_buf st_rows_processed st_progress].
  destruct b2 as [|rec buf]; [done|].
  match goal with
  | |- context [match ?w with Ok _ => _ | Raise _ => _ | Diverge => _ end] =>
      destruct w as [[ws fl]| |]
  end; done.
Qed.

Lemma row_step_core ib cols st1 st2 row :
  core st1 = core st2 -> same_outcome (row_step ib cols st1 row) (row_step ib cols st2 row).
Proof.
  destruct st1 as [ws1 f1 b1 n1 p1], st2 as [ws2 f2 b2 n2 p2].
  unfold core. cbn [st_writers st_files st_buf]. intros [= -> -> ->].
  unfold row_step, append_row.
  destruct (row_records ib cols row) as [[rs| |]|]; cbn [mbind result_bind Py.bind];
    try (by split).
  cbn [st_writers st_files st_buf st_rows_processed st_progress].
  destruct (FLUSH_EVERY <=? _); [by apply flush_core|by split].
Qed.

Lemma fold_steps_core {A} (step1 step2 : State -> A -> outcome) l :
  (forall st1 st2 x, core st1 = core st2 -> same_outcome (step1 st1 x) (step2 st2 x)) ->
  forall st1 st2, core st1 = core st2 ->
                  same_outcome (fold_steps step1 st1 l) (fold_steps step2 st2 l).
Proof.
  intros Hstep. induction l as [|x l IH]; intros st1 st2 Hc; cbn [fold_steps].
  - by split.
  - destruct (Hstep st1 st2 x Hc) as [Hc' Hres].
    destruct (step1 st1 x) as [a ra], (step2 st2 x) as [b rb]. cbn [fst snd] in Hc', Hres.
    subst rb. destruct ra as [[]| |]; [by apply IH|by split..].
Qed.

Lemma chunk_step_core o1 o2 cols t1 t2 st1 st2 chunk :
  returns_normally (progress_cb o1) -> returns_normally (progress_cb o2) ->
  include_bits o1 = include_bits o2 -> channel o1 = channel o2 ->
  core st1 = core st2 ->
  same_outcome (chunk_step o1 cols t1 st1 chunk) (chunk_step o2 cols t2 st2 chunk).
Proof.
  intros Hret1 Hret2 Hib Hch Hc. unfold chunk_step.
  assert (Hf : filter_channel o1 cols chunk = filter_channel o2 cols chunk)
    by (unfold filter_channel; by rewrite Hch).
  rewrite Hf, Hib.
  destruct (negb _ || negb _).
  { split; [|done]. unfold core, add_processed in *. cbn [fst st_writers st_files st_buf].
    exact Hc. }
  assert (Hclear : core (clear_buf st1) = core (clear_buf st2)).
  { destruct st1 as [ws1 f1 b1 n1 p1], st2 as [ws2 f2 b2 n2 p2].
    unfold core, clear_buf in *. cbn [st_writers st_files st_buf] in *.
    by injection Hc as -> -> _. }
  destruct (fold_steps_core (row_step (include_bits o2) cols) (row_step (include_bits o2) cols)
              (filter_channel o2 cols chunk)
              (fun a b x => row_step_core (include_bits o2) cols a b x)
              (clear_buf st1) (clear_buf st2) Hclear) as [Hc1 Hr1].
  destruct (fold_steps _ (clear_buf st1) _) as [a ra].
  destruct (fold_steps _ (clear_buf st2) _) as [b rb].
  cbn [fst snd] in Hc1, Hr1. subst rb. destruct ra as [[]| |]; [|by split..].
  destruct (flush_core a b Hc1) as [Hc2 Hr2].
  destruct (flush a) as [a' ra'], (flush b) as [b' rb'].
  cbn [fst snd] in Hc2, Hr2. subst rb'. destruct ra' as [[]| |]; [|by split..].
  match goal with
  | |- same_outcome (report o1 t1 ?s1) (report o2 t2 ?s2) =>
      destruct (report_returning o1 t1 s1 Hret1) as [evs1 ->];
      destruct (report_returning o2 t2 s2 Hret2) as [evs2 ->]
  end.
  split; [|done]. cbn [fst]. unfold add_processed, core in *.
  cbn [st_writers st_files st_buf]. exact Hc2.
Qed.

Lemma stream_decode_core inp files o1 o2 :
  returns_normally (progress_cb o1) -> returns_normally (progress_cb o2) ->
  include_bits o1 = include_bits o2 -> channel o1 = channel o2 ->
  split o1 = split o2 -> out_one o1 = out_one o2 ->
  out_can1 o1 = out_can1 o2 -> out_can2 o1 = out_can2 o2 ->
  row_limit o1 = row_limit o2 ->
  run_result (_stream_decode inp files o1) = run_result (_stream_decode inp files o2) /\
  run_files (_stream_decode inp files o1) = run_files (_stream_decode inp files o2).
Proof.
  intros Hret1 Hret2 Hib Hch Hsp Ho H1 H2 Hr.
  assert (Hmade : make_writers o1 (known_columns (include_bits o1))
                  = make_writers o2 (known_columns (include_bits o2)))
    by (unfold make_writers; by rewrite Hib, Hsp, Ho, H1, H2, Hr).
  destruct (make_writers o2 (known_columns (include_bits o2))) as [ws| |] eqn:Hws.
  - destruct (decide (in_header inp = [])) as [Hh|Hh].
    { unfold _stream_decode, returns_normally in *. rewrite Hmade, Hws, Hh.
      destruct (progress_cb o1), (progress_cb o2); by rewrite ?Hret1, ?Hret2. }
    destruct (run_of_fold inp files o1 ws Hret1 Hh Hmade) as (t1 & p1 & Hrun1).
    destruct (run_of_fold inp files o2 ws Hret2 Hh Hws) as (t2 & p2 & Hrun2).
    match type of Hrun1 with
    | forall st res, fold_steps _ ?s1 ?chunks = _ -> _ =>
        match type of Hrun2 with
        | forall st res, fold_steps _ ?s2 _ = _ -> _ =>
            destruct (fold_steps_core (chunk_step o1 (chunk_columns (in_header inp)) t1)
                        (chunk_step o2 (chunk_columns (in_header inp)) t2) chunks
                        (fun a b x => chunk_step_core o1 o2 _ t1 t2 a b x Hret1 Hret2 Hib Hch)
                        s1 s2 eq_refl) as [Hc Hres];
            destruct (fold_steps (chunk_step o1 (chunk_columns (in_header inp)) t1) s1 chunks)
              as [a ra] eqn:Ha;
            destruct (fold_steps (chunk_step o2 (chunk_columns (in_header inp)) t2) s2 chunks)
              as [b rb] eqn:Hb
        end
    end.
    destruct (Hrun1 _ _ eq_refl) as [-> ->]. destruct (Hrun2 _ _ eq_refl) as [-> ->].
    cbn [fst snd] in Hc, Hres. subst rb. unfold core in Hc. injection Hc as Hw Hf _.
    by rewrite Hw, Hf.
  - unfold _stream_decode, returns_normally in *. rewrite Hmade, Hws.
    destruct (progress_cb o1), (progress_cb o2); by rewrite ?Hret1, ?Hret2.
  - unfold _stream_decode, returns_normally in *. rewrite Hmade, Hws.
    destruct (progress_cb o1), (progress_cb o2); by rewrite ?Hret1, ?Hret2.
Qed.

(** X24: a progress callback that returns normally from every call only
    observes: with it or without any callback, both entry points return
    the same result (the same paths or the same failure) and leave the
    same files behind. A callback that raises is another matter: if its
    first call raises, the run fails with that exception, no file being
    created or written. *)
Theorem callback_is_observational (inp : CsvInput) (files : fs) (ib : bool)
    (ch : option string) (r : Z) (f : callback) :
  (forall calls ev, f calls ev = Ok ()) ->
  (forall p,
     run_result (decode_csv_one inp files p ib ch r (Some f))
     = run_result (decode_csv_one inp files p ib ch r None) /\
     run_files (decode_csv_one inp files p ib ch r (Some f))
     = run_files (decode_csv_one inp files p ib ch r None)) /\
  (forall p1 p2,
     run_result (decode_csv_split inp files p1 p2 ib ch r (Some f))
     = run_result (decode_csv_split inp files p1 p2 ib ch r None) /\
     run_files (decode_csv_split inp files p1 p2 ib ch r (Some f))
     = run_files (decode_csv_split inp files p1 p2 ib ch r None)) /\
  (forall (g : callback) (e : exn),
     g [] (0 # 1, "Starting decode") = Raise e ->
     (forall p, decode_csv_one inp files p ib ch r (Some g)
                = mkRun (Raise e) files [(0 # 1, "Starting decode")]) /\
     (forall p1 p2, decode_csv_split inp files p1 p2 ib ch r (Some g)
                    = mkRun (Raise e) files [(0 # 1, "Starting decode")])).
Proof.
  intros Hret. split; [|split].
  - intros p. unfold decode_csv_one. by apply stream_decode_core.
  - intros p1 p2. unfold decode_csv_split. by apply stream_decode_core.
  - intros g e Hg. split; intros; unfold decode_csv_one, decode_csv_split, _stream_decode;
      cbn [progress_cb]; by rewrite Hg.
Qed.

Lemma callback_is_observational_witness :
  run_result (decode_csv_one small_log ∅ "out.csv" false None 5 (Some returning))
  = run_result (decode_csv_one small_log ∅ "out.csv" false None 5 None) /\
  run_files (decode_csv_one small_log ∅ "out.csv" false None 5 (Some returning))
  = run_files (decode_csv_one small_log ∅ "out.csv" false None 5 None).
Proof.
  refine (proj1 (callback_is_observational small_log ∅ false None 5 returning _) "out.csv").
  reflexivity.
Defined.

(** ** Records per frame *)

Ltac single_by_eval :=
  match goal with
  | H : Ok _ = Ok _ |- _ => injection H as <-; reflexivity
  end.

Lemma decode_mc_single ts can_id d rs :
  decode_mc ts can_id d = Ok rs -> List.length rs = 1%nat.
Proof. unfold decode_mc. intros H. split_floats H. single_by_eval. Qed.

Lemma decode_dc_single ts can_id d rs :
  decode_dc ts can_id d = Ok rs -> List.length rs = 1%nat.
Proof.
  unfold decode_dc. generalize (offset_name DC_OFFSETS "DC" (can_id - DC_CAN_BASE)).
  intros name H.
  destruct (name =? "DC_DRIVE")%string; [split_floats H; single_by_eval|].
  destruct (name =? "DC_POWER")%string; [split_floats H; single_by_eval|].
  destruct (name =? "DC_SWITCH")%string; [split_words H; single_by_eval|].
  single_by_eval.
Qed.

Lemma decode_stw_single ts can_id d rs :
  decode_stw ts can_id d = Ok rs -> List.length rs = 1%nat.
Proof.
  unfold decode_stw. generalize (offset_name STW_OFFSETS "STW" (can_id - STW_CAN_BASE)).
  intros name H. split_words H. split_ifs H; single_by_eval.
Qed.

Lemma decode_bp_single ts can_id d rs :
  decode_bp ts can_id d = Ok rs -> List.length rs = 1%nat.
Proof.
  unfold decode_bp, int_round.
  generalize (offset_name BP_OFFSETS "BP" (can_id - BP_CAN_BASE)).
  intros name H. split_floats H.
  split_ifs H;
    try (apply bind_ok_inv in H as (? & _ & H); cbv beta in H);
    single_by_eval.
Qed.

Lemma decode_mppt_single ts can_id d rs :
  decode_mppt ts can_id d = Ok rs -> List.length rs = 1%nat.
Proof.
  unfold decode_mppt. intros H. split_words H.
  destruct (can_id =? MPPT_CAN_ONOFF); [split_bytes H|]; single_by_eval.
Qed.

Lemma atemp_pair_first ts can_id d rs :
  atemp_pair ts can_id d 0 = Ok rs -> List.length rs = 1%nat.
Proof.
  unfold atemp_pair. intros H. split_bytes H.
  rewrite andb_false_r in H. single_by_eval.
Qed.

Lemma decode_or_atemp_some ts can_id d rs :
  decode_or_atemp ts can_id d = Ok rs -> (1 <= List.length rs <= 4)%nat.
Proof.
  intros H. split; [|by apply decode_or_atemp_decoded in H as [_ ?]].
  unfold decode_or_atemp in H.
  apply bind_ok_inv in H as (r0 & L0%atemp_pair_first & H).
  apply bind_ok_inv in H as (r2 & _ & H).
  apply bind_ok_inv in H as (r4 & _ & H).
  apply bind_ok_inv in H as (r6 & _ & H).
  injection H as <-. rewrite !length_app. lia.
Qed.

Lemma decoders_exact_single can_id dec ts d rs :
  DECODERS_EXACT can_id = Some dec -> can_id <> OR_ATEMP ->
  dec ts can_id d = Ok rs -> List.length rs = 1%nat.
Proof.
  unfold DECODERS_EXACT. intros Hdec Hne.
  destruct (can_id =? OR_SVOLT);
    [injection Hdec as <-; unfold decode_or_svolt; intros H; split_bytes H; single_by_eval|].
  destruct (can_id =? OR_PACK);
    [injection Hdec as <-; unfold decode_or_pack; intros H; split_bytes H; single_by_eval|].
  destruct (can_id =? OR_STEMP);
    [injection Hdec as <-; unfold decode_or_stemp; intros H; split_bytes H; single_by_eval|].
  destruct (can_id =? OR_FLAGS);
    [injection Hdec as <-; unfold decode_or_flags; intros H; split_bytes H; single_by_eval|].
  destruct (can_id =? OR_AVOLT);
    [injection Hdec as <-; unfold decode_or_avolt; intros H; split_bytes H; single_by_eval|].
  destruct (Z.eqb_spec can_id OR_ATEMP); [done|].
  destruct (can_id =? THERM_GENERAL);
    [injection Hdec as <-; unfold decode_therm_general; intros H; split_bytes H;
     single_by_eval|].
  destruct (can_id =? THERM_ADDRCLAIM);
    [injection Hdec as <-; unfold decode_therm_addrclaim; intros H; split_bytes H;
     single_by_eval|].
  destruct (can_id =? MPPT_CAN_ONOFF); [injection Hdec as <-; apply decode_mppt_single|].
  discriminate Hdec.
Qed.

Lemma decode_dynamic_single can_id ts d rs :
  decode_dynamic ts can_id d = Some (Ok rs) -> List.length rs = 1%nat.
Proof.
  unfold decode_dynamic. intros Hdec.
  destruct (_ || _); [injection Hdec as Hdec; by apply decode_mc_single in Hdec|].
  destruct (in_range DC_CAN_BASE _ _);
    [injection Hdec as Hdec; by apply decode_dc_single in Hdec|].
  destruct (in_range STW_CAN_BASE _ _);
    [injection Hdec as Hdec; by apply decode_stw_single in Hdec|].
  destruct (in_range BP_CAN_BASE _ _);
    [injection Hdec as Hdec; by apply decode_bp_single in Hdec|].
  destruct (in_range MPPT_CAN_BASE _ _);
    [injection Hdec as Hdec; by apply decode_mppt_single in Hdec|].
  discriminate Hdec.
Qed.

(** X25: a row that decodes gives exactly one record, whatever its id,
    known or not, except the extra-temps id 0x6B5, which gives one to four
    records. *)
Theorem one_record_per_frame (ib : bool) (cols : list string) (r : RawRow)
    (rs : list record) :
  row_records ib cols r = Some (Ok rs) ->
  exists can_id,
    parse_can_id (PyStr.strip (default "" (row_get cols r "id"))) = Ok can_id /\
    (can_id <> OR_ATEMP -> List.length rs = 1%nat) /\
    (can_id = OR_ATEMP -> (1 <= List.length rs <= 4)%nat).
Proof.
  unfold row_records.
  destruct (_ =? "")%string; [done|].
  destruct (parse_can_id _) as [can_id| |]; [|done..].
  destruct (PyStr.fromhex _) as [d|]; [|done].
  intros H. exists can_id. split; [done|].
  destruct (DECODERS_EXACT can_id) as [dec|] eqn:Hdec.
  - injection H as H. apply bind_ok_inv in H as (raw & Hraw & [= <-]).
    rewrite length_map. split.
    + intros Hne. by eapply decoders_exact_single.
    + intros ->. injection Hdec as <-. by apply decode_or_atemp_some in Hraw.
  - assert (Hne : can_id <> OR_ATEMP) by (by intros ->).
    split; [intros _|done].
    destruct (decode_dynamic _ can_id d) as [res|] eqn:Hdyn.
    + injection H as H. apply bind_ok_inv in H as (raw & -> & [= <-]).
      rewrite length_map. by eapply decode_dynamic_single.
    + by injection H as <-.
Qed.

Lemma one_record_per_frame_witness :
  exists rs,
    row_records false ["id"; "data"] (mkRow "6B5" "0105000003FF0000" "" "") = Some (Ok rs) /\
    exists can_id,
      parse_can_id (PyStr.strip (default "" (row_get ["id"; "data"]
                                               (mkRow "6B5" "0105000003FF0000" "" "") "id")))
      = Ok can_id /\
      (can_id <> OR_ATEMP -> List.length rs = 1%nat) /\
      (can_id = OR_ATEMP -> (1 <= List.length rs <= 4)%nat).
Proof.
  eexists. split; [vm_compute; reflexivity|].
  apply (one_record_per_frame false ["id"; "data"] (mkRow "6B5" "0105000003FF0000" "" "")).
  vm_compute. reflexivity.
Defined.

(** ** The two dispatch tables *)

(** X26: the exact-id table and the family ranges never disagree: an id of
    the exact table lies in no family range, except 0x610, for which both
    give the MPPT decoder; so looking an id up in the exact table first
    changes nothing. *)
Theorem dispatch_tables_agree (can_id : Z) (dec : decoder) (ts : value) (d : list byte) :
  DECODERS_EXACT can_id = Some dec ->
  decode_dynamic ts can_id d = None \/
  (can_id = MPPT_CAN_ONOFF /\ decode_dynamic ts can_id d = Some (dec ts can_id d)).
Proof.
  unfold DECODERS_EXACT.
  destruct (Z.eqb_spec can_id OR_SVOLT) as [->|_]; [by left|].
  destruct (Z.eqb_spec can_id OR_PACK) as [->|_]; [by left|].
  destruct (Z.eqb_spec can_id OR_STEMP) as [->|_]; [by left|].
  destruct (Z.eqb_spec can_id OR_FLAGS) as [->|_]; [by left|].
  destruct (Z.eqb_spec can_id OR_AVOLT) as [->|_]; [by left|].
  destruct (Z.eqb_spec can_id OR_ATEMP) as [->|_]; [by left|].
  destruct (Z.eqb_spec can_id THERM_GENERAL) as [->|_]; [by left|].
  destruct (Z.eqb_spec can_id THERM_ADDRCLAIM) as [->|_]; [by left|].
  destruct (Z.eqb_spec can_id MPPT_CAN_ONOFF) as [->|_]; [|done].
  intros [= <-]. right. by split.
Qed.

Lemma dispatch_tables_agree_witness :
  decode_dynamic (VStr "t") MPPT_CAN_ONOFF [x01; x00; x00; x00; x00; x00; x00; x00] = None \/
  (MPPT_CAN_ONOFF = MPPT_CAN_ONOFF /\
   decode_dynamic (VStr "t") MPPT_CAN_ONOFF [x01; x00; x00; x00; x00; x00; x00; x00]
   = Some (decode_mppt (VStr "t") MPPT_CAN_ONOFF [x01; x00; x00; x00; x00; x00; x00; x00])).
Proof.
  apply (dispatch_tables_agree MPPT_CAN_ONOFF decode_mppt (VStr "t")
           [x01; x00; x00; x00; x00; x00; x00; x00]).
  reflexivity.
Defined.

(** ** Frames of unknown ids *)

Lemma is_blank a : (PyStr.code a =? 32) = Ascii.eqb a " ".
Proof. by destruct a as [[] [] [] [] [] [] [] []]. Qed.

Lemma take_pad {A} (n : nat) (x : A) (l : list A) :
  take n (l ++ repeat x n) = take n l ++ repeat x (n - List.length (take n l)).
Proof.
  rewrite take_app, length_take.
  replace (n - n `min` List.length l)%nat with (n - List.length l)%nat by lia.
  f_equal.
  assert (H : forall k m : nat, (k <= m)%nat -> take k (repeat x m) = repeat x k).
  { induction k as [|k IH]; intros [|m] Hk; cbn [take repeat]; try done; [lia|].
    rewrite IH; [done|lia]. }
  apply H. lia.
Qed.

Lemma remove_blanks l :
  List.filter (fun a => negb (PyStr.code a =? 32)) l
  = List.filter (fun a => negb (Ascii.eqb a " ")) l.
Proof.
  induction l as [|a l IH]; [done|]. cbn [List.filter]. by rewrite is_blank, IH.
Qed.

(** The text the engine stores is the raw text of the specification. *)
Lemma normalise_data_raw_text s : normalise_data s = raw_text s.
Proof.
  unfold normalise_data, raw_text, PyStr.ljust, PyStr.prefix, PyStr.strip,
    PyStr.remove_spaces.
  by rewrite !chars_str, take_pad, remove_blanks.
Qed.

(** C9 as stated fails: a frame of an unknown id whose data is not hex
    text is dropped; a log made of that frame alone gives no record and
    no file. *)
Lemma unknown_id_bad_data_dropped :
  parse_can_id (PyStr.strip (r_id bad_data_row)) = Ok 0x7FF /\
  id_is_known 0x7FF = false /\
  row_records false ["timestamp"; "id"; "data"] bad_data_row = None /\
  decode_csv_one bad_data_log ∅ "out.csv" false None EXCEL_XLSX_MAX_ROWS false
  = mkRun (Ok []) ∅ [].
Proof. repeat split; vm_compute; reflexivity. Qed.

(** C9 (amended): a row whose id parses to a value outside every exact id
    and every family range gives exactly one record whenever its data
    text converts to bytes, as every text of hex digits and spaces does:
    the record has message RAW, and its raw_data is the data text with
    its spaces removed (and the white space around it stripped), cut to 16
    characters and right-padded with zeros. A row whose data text does
    not convert is dropped. *)
Theorem unknown_id_gives_raw (ib : bool) (cols : list string) (r : RawRow) (can_id : Z) :
  "id" ∈ cols -> "data" ∈ cols ->
  parse_can_id (PyStr.strip (r_id r)) = Ok can_id ->
  id_is_known can_id = false ->
  (forall d, PyStr.fromhex (normalise_data (r_data r)) = Some d ->
             exists rec,
               row_records ib cols r = Some (Ok [rec]) /\
               dict_get "message" rec = Some (VStr "RAW") /\
               dict_get "raw_data" rec = Some (VStr (raw_text (r_data r)))) /\
  (hex_or_space (r_data r) = true ->
   exists d, PyStr.fromhex (normalise_data (r_data r)) = Some d /\ List.length d = 8%nat) /\
  (PyStr.fromhex (normalise_data (r_data r)) = None -> row_records ib cols r = None).
Proof.
  intros Hid Hdata Hparse Hunk. split; [|split].
  - intros d Hd.
    destruct (unknown_id_raw_general ib cols r can_id d) as (rec & Hrow & Hmsg & Hraw);
      [done..|].
    exists rec. by rewrite <- normalise_data_raw_text.
  - apply hex_text_gives_eight_bytes_aux.
  - intros Hbad. unfold row_records, row_get.
    rewrite !bool_decide_eq_true_2 by done.
    cbn [default from_option cell String.eqb Ascii.eqb Bool.eqb id].
    by rewrite (parse_can_id_nonempty _ _ Hparse), Hparse, Hbad.
Qed.

Lemma unknown_id_gives_raw_witness :
  exists rec,
    row_records true ["id"; "data"] spaced_row = Some (Ok [rec]) /\
    dict_get "message" rec = Some (VStr "RAW") /\
    dict_get "raw_data" rec = Some (VStr "DEADBEEF01020304").
Proof.
  refine (proj1 (unknown_id_gives_raw true ["id"; "data"] spaced_row 0x7FF _ _
                   eq_refl eq_refl)
                [xde; xad; xbe; xef; x01; x02; x03; x04] eq_refl).
  - by left.
  - right. by left.
Defined.
